(** * Dublin Core YAML validator: a shallow embedding of [validator.py]

    The development follows the layout of the Python module:
    - Python values, exceptions and regular expressions (the part of the
      interpreter and of [re] that the module relies on);
    - the format validators ([validate_iso8601_date], [validate_doi], ...);
    - the pydantic (1.x) model machinery: fields validated in definition
      order, class validators that only see previously validated fields,
      closed schemas ([extra = "forbid"]), root validators;
    - the element models, [DublinCore] and [DublinCoreDocument];
    - the pipeline [load_yaml_file], [validate_document],
      [create_validation_report], [validation_decorator] and
      [validate_dublin_core_yaml];
    - the example document of [cli.py];
    - the properties; the [batch] command of [cli.py].

    The values of a document are strings of 8-bit characters: a Python
    [str] whose code points are below 256.  On that range [\d] is [0-9],
    [\s] is the set given by [is_space] and [re.IGNORECASE] pairs the
    ASCII letters.  The format validators are given a second time, in
    [Unicode], on strings of arbitrary code points, where [\d], [\s] and
    [re.IGNORECASE] reach further; what they accept is characterised
    there, and the last section shows that the first reading is the
    second one on strings below 256. *)

From Stdlib Require Import Bool List ZArith Lia Ascii String DecimalString.
From Stdlib Require Floats.PrimFloat Uint63.
Import ListNotations PrimFloat.

Open Scope string_scope.
Open Scope list_scope.

Set Implicit Arguments.
Set Warnings "-register-all".

(* ===================================================================== *)
(** ** Characters and regular expressions (Python's [re], 8-bit range)   *)
(* ===================================================================== *)

Module Re.

Definition LF : ascii := "010"%char.

Definition between (lo hi : nat) (c : ascii) : bool :=
  (lo <=? nat_of_ascii c)%nat && (nat_of_ascii c <=? hi)%nat.

(** [\d] on code points below 256. *)
Definition is_digit (c : ascii) : bool := between 48 57 c.

(** [\s] on code points below 256: TAB LF VT FF CR, FS GS RS US, SPACE,
    NEL and NBSP. *)
Definition is_space (c : ascii) : bool :=
  between 9 13 c || between 28 32 c
  || (nat_of_ascii c =? 133)%nat || (nat_of_ascii c =? 160)%nat.

Definition is_upper (c : ascii) : bool := between 65 90 c.
Definition is_lower (c : ascii) : bool := between 97 122 c.

(** The other case of an ASCII letter; every other character is fixed. *)
Definition swapcase (c : ascii) : ascii :=
  if is_upper c then ascii_of_nat (nat_of_ascii c + 32)
  else if is_lower c then ascii_of_nat (nat_of_ascii c - 32)
  else c.

(** [str.lower] on the 8-bit range: A-Z and the Latin-1 capitals
    (192-222 without the multiplication sign 215). *)
Definition lower_char (c : ascii) : ascii :=
  if is_upper c || (between 192 222 c && negb (nat_of_ascii c =? 215)%nat)
  then ascii_of_nat (nat_of_ascii c + 32) else c.

Fixpoint lower (s : string) : string :=
  match s with
  | EmptyString => EmptyString
  | String c s' => String (lower_char c) (lower s')
  end.

(** Character sets as they occur in the patterns of the module. *)
Inductive cclass : Type :=
| Lit (c : ascii)            (* a literal character *)
| Digit                      (* \d *)
| Space                      (* \s *)
| Range (lo hi : ascii)      (* [lo-hi] *)
| Union (a b : cclass)       (* [ab] *)
| Neg (a : cclass).          (* [^a] *)

(** Membership; [ic] is [re.IGNORECASE]. *)
Fixpoint cmem (ic : bool) (cl : cclass) (c : ascii) : bool :=
  match cl with
  | Lit x => Ascii.eqb c x || (ic && Ascii.eqb (swapcase c) x)
  | Digit => is_digit c
  | Space => is_space c
  | Range lo hi =>
      between (nat_of_ascii lo) (nat_of_ascii hi) c
      || (ic && between (nat_of_ascii lo) (nat_of_ascii hi) (swapcase c))
  | Union a b => cmem ic a c || cmem ic b c
  | Neg a => negb (cmem ic a c)
  end.

(** The fragment of the pattern language used by the module.  Repetition
    only ever applies to a character set. *)
Inductive regex : Type :=
| Eps
| Chr (cl : cclass)
| Seq (r1 r2 : regex)
| Alt (r1 r2 : regex)
| Rep (cl : cclass) (lo : nat) (hi : option nat)   (* cl{lo,hi} *)
| Bol                                              (* ^ *)
| Eol.                                             (* $ *)

(** [cl{lo,hi}] followed by the continuation [k].  [b] tells whether the
    match is still at position 0. *)
Fixpoint rep (ic : bool) (cl : cclass) (lo : nat) (hi : option nat)
         (b : bool) (s : string) (k : bool -> string -> bool) {struct s} : bool :=
  if match s with
     | String c s' =>
         match hi with
         | Some O => false
         | _ => if cmem ic cl c
                then rep ic cl (Nat.pred lo) (option_map Nat.pred hi) false s' k
                else false
         end
     | EmptyString => false
     end
  then true
  else match lo with O => k b s | S _ => false end.

(** Backtracking matcher in continuation-passing style.  [$] succeeds at
    the end of the string and just before a line feed that ends it. *)
Fixpoint rmatch (ic : bool) (r : regex) (b : bool) (s : string)
         (k : bool -> string -> bool) {struct r} : bool :=
  match r with
  | Eps => k b s
  | Chr cl =>
      match s with
      | String c s' => if cmem ic cl c then k false s' else false
      | EmptyString => false
      end
  | Seq r1 r2 => rmatch ic r1 b s (fun b' s' => rmatch ic r2 b' s' k)
  | Alt r1 r2 => if rmatch ic r1 b s k then true else rmatch ic r2 b s k
  | Rep cl lo hi => rep ic cl lo hi b s k
  | Bol => if b then k b s else false
  | Eol =>
      match s with
      | EmptyString => k b s
      | String c EmptyString => if Ascii.eqb c LF then k b s else false
      | _ => false
      end
  end.

(** [bool(re.match(pattern, s))] and [bool(re.match(pattern, s, re.IGNORECASE))]. *)
Definition re_match (r : regex) (s : string) : bool :=
  rmatch false r true s (fun _ _ => true).
Definition re_match_i (r : regex) (s : string) : bool :=
  rmatch true r true s (fun _ _ => true).

(** Pattern builders. *)
Fixpoint lit (s : string) : regex :=
  match s with
  | EmptyString => Eps
  | String c s' => Seq (Chr (Lit c)) (lit s')
  end.
Definition cat (rs : list regex) : regex := fold_right Seq Eps rs.
Definition opt (r : regex) : regex := Alt r Eps.              (* r? *)
Definition digits (n : nat) : regex := Rep Digit n (Some n).  (* \d{n} *)
Definition star (cl : cclass) : regex := Rep cl 0 None.       (* cl* *)
Definition plus (cl : cclass) : regex := Rep cl 1 None.       (* cl+ *)
Definition atleast (n : nat) (cl : cclass) : regex := Rep cl n None.
Definition maybe (cl : cclass) : regex := Rep cl 0 (Some 1).  (* cl? *)

(** [(w1|w2|...)] *)
Fixpoint words (ws : list string) : regex :=
  match ws with
  | [] => Alt Eps Eps
  | [w] => lit w
  | w :: ws' => Alt (lit w) (words ws')
  end.

(** [^( ... )$] *)
Definition anchored (r : regex) : regex := cat [Bol; r; Eol].

(** [re.sub(r'[-\s]', '', s)]-style deletion of the characters of a set. *)
Fixpoint delete (cl : cclass) (s : string) : string :=
  match s with
  | EmptyString => EmptyString
  | String c s' => if cmem false cl c then delete cl s' else String c (delete cl s')
  end.

End Re.
Import Re.

(* ===================================================================== *)
(** ** Validation functions                                               *)
(* ===================================================================== *)

Definition date_re : regex :=
  cat [digits 4; lit "-"; digits 2; lit "-"; digits 2].
Definition time_re : regex :=
  cat [lit "T"; digits 2; lit ":"; digits 2; lit ":"; digits 2].

Definition iso8601_patterns : list regex :=
  [ cat [Bol; date_re; Eol];
    cat [Bol; date_re; time_re; opt (lit "Z"); Eol];
    cat [Bol; date_re; time_re; lit "."; digits 3; opt (lit "Z"); Eol];
    cat [Bol; digits 4; lit "/"; digits 4; Eol];
    cat [Bol; date_re; lit "/"; date_re; Eol] ].

Definition validate_iso8601_date (date_str : string) : bool :=
  existsb (fun pattern => re_match pattern date_str) iso8601_patterns.

Definition doi_pattern : regex :=
  Alt (cat [Bol; opt (cat [lit "http"; opt (lit "s"); lit "://"]);
            opt (lit "dx."); lit "doi.org/10."; atleast 4 Digit; lit "/";
            plus (Neg Space); Eol])
      (cat [Bol; lit "10."; atleast 4 Digit; lit "/"; plus (Neg Space); Eol]).

Definition validate_doi (doi : string) : bool := re_match_i doi_pattern doi.

Definition isbn_pattern : regex :=
  cat [Bol; opt (cat [lit "97"; Chr (Union (Lit "8") (Lit "9"))]);
       digits 9; Chr (Union Digit (Lit "X")); Eol].

Definition validate_isbn (isbn : string) : bool :=
  let clean_isbn := delete (Union (Lit "-") Space) isbn in
  re_match isbn_pattern clean_isbn.

Definition issn_pattern : regex :=
  cat [Bol; lit "ISSN"; maybe Space; digits 4; lit "-"; digits 3;
       Chr (Union Digit (Lit "X")); Eol].

Definition validate_issn (issn : string) : bool := re_match_i issn_pattern issn.

Definition orcid_pattern : regex :=
  cat [Bol; lit "0000-000"; Chr (Range "1" "3"); lit "-"; digits 4; lit "-";
       digits 3; Chr (Union Digit (Lit "X")); Eol].

Definition validate_orcid (orcid : string) : bool := re_match orcid_pattern orcid.

Definition bound_re : regex :=
  cat [maybe (Lit "-"); plus Digit; maybe (Lit "."); star Digit].

Definition coord_pattern : regex :=
  cat [Bol; lit "lat:"; star Space; bound_re; maybe (Lit "-"); bound_re;
       lit ","; star Space; lit "lon:"; star Space; bound_re; maybe (Lit "-");
       bound_re; Eol].

Definition validate_coordinates (coord_str : string) : bool :=
  re_match coord_pattern coord_str.

Unset Implicit Arguments.

(* ===================================================================== *)
(** ** The format validators on full Python strings                       *)
(* ===================================================================== *)

(** The validators once more, on strings of arbitrary code points; the
    patterns are the ones above.  [\d], [\s] and [re.IGNORECASE] are those
    of Python's [re] on [str]: every decimal digit and every white space
    character of the interpreter's Unicode database, and the letters that
    lower-case to the letter of the pattern. *)
Module Unicode.

(** A code point, and a [str] as the sequence of its code points. *)
Definition char : Type := N.
Definition text : Type := list char.

Definition code (c : ascii) : char := N_of_ascii c.

(** The [str] of a literal. *)
Definition u (s : string) : text := map code (list_ascii_of_string s).

Definition LF : char := 10%N.

(** What the matcher asks of the Unicode database beyond ASCII: which
    characters are decimal digits (category Nd) and which are white space.
    The answers depend on the version of the interpreter. *)
Record database : Type := Database {
  decimal_digit : char -> bool;
  white_space : char -> bool
}.

Definition in_range (lo hi c : char) : bool := (lo <=? c)%N && (c <=? hi)%N.

Definition ascii_in (x : ascii) (cs : string) : bool :=
  existsb (Ascii.eqb x) (list_ascii_of_string cs).

(** [re.IGNORECASE] for an ASCII character [x] of a pattern: [c] matches
    when its lower case is that of [x] or an equivalent of it.  Besides the
    two cases of the letter these are U+0130 and U+0131 for [i], U+017F
    for [s] and U+212A for [k]. *)
Definition ignore_case (x : ascii) (c : char) : bool :=
  (c =? code x)%N || (c =? code (swapcase x))%N
  || (ascii_in x "iI" && ((c =? 304)%N || (c =? 305)%N))
  || (ascii_in x "sS" && (c =? 383)%N)
  || (ascii_in x "kK" && (c =? 8490)%N).

Section Matcher.

Variable db : database.

(** [\d] *)
Definition is_digit (c : char) : bool :=
  if (c <? 128)%N then in_range 48%N 57%N c else decimal_digit db c.

(** [\s]: TAB LF VT FF CR, FS GS RS US and SPACE below 128. *)
Definition is_space (c : char) : bool :=
  if (c <? 128)%N then in_range 9%N 13%N c || in_range 28%N 32%N c else white_space db c.

(** Membership; [ic] is [re.IGNORECASE].  A range that ignores case is the
    union of its characters. *)
Fixpoint cmem (ic : bool) (cl : cclass) (c : char) : bool :=
  match cl with
  | Lit x => if ic then ignore_case x c else (c =? code x)%N
  | Digit => is_digit c
  | Space => is_space c
  | Range lo hi =>
      if ic
      then existsb (fun n => ignore_case (ascii_of_nat n) c)
             (seq (nat_of_ascii lo) (S (nat_of_ascii hi) - nat_of_ascii lo))
      else in_range (code lo) (code hi) c
  | Union a b => cmem ic a c || cmem ic b c
  | Neg a => negb (cmem ic a c)
  end.

(** [cl{lo,hi}] followed by the continuation [k]. *)
Fixpoint rep (ic : bool) (cl : cclass) (lo : nat) (hi : option nat)
         (b : bool) (s : text) (k : bool -> text -> bool) {struct s} : bool :=
  if match s with
     | c :: s' =>
         match hi with
         | Some O => false
         | _ => if cmem ic cl c
                then rep ic cl (Nat.pred lo) (option_map Nat.pred hi) false s' k
                else false
         end
     | [] => false
     end
  then true
  else match lo with O => k b s | S _ => false end.

(** The backtracking matcher of [Re], on code points. *)
Fixpoint rmatch (ic : bool) (r : regex) (b : bool) (s : text)
         (k : bool -> text -> bool) {struct r} : bool :=
  match r with
  | Eps => k b s
  | Chr cl =>
      match s with
      | c :: s' => if cmem ic cl c then k false s' else false
      | [] => false
      end
  | Seq r1 r2 => rmatch ic r1 b s (fun b' s' => rmatch ic r2 b' s' k)
  | Alt r1 r2 => if rmatch ic r1 b s k then true else rmatch ic r2 b s k
  | Rep cl lo hi => rep ic cl lo hi b s k
  | Bol => if b then k b s else false
  | Eol =>
      match s with
      | [] => k b s
      | [c] => if (c =? LF)%N then k b s else false
      | _ => false
      end
  end.

Definition re_match (r : regex) (s : text) : bool :=
  rmatch false r true s (fun _ _ => true).
Definition re_match_i (r : regex) (s : text) : bool :=
  rmatch true r true s (fun _ _ => true).

Fixpoint delete (cl : cclass) (s : text) : text :=
  match s with
  | [] => []
  | c :: s' => if cmem false cl c then delete cl s' else c :: delete cl s'
  end.

Definition validate_iso8601_date (date_str : text) : bool :=
  existsb (fun pattern => re_match pattern date_str) iso8601_patterns.

Definition validate_doi (doi : text) : bool := re_match_i doi_pattern doi.

Definition validate_isbn (isbn : text) : bool :=
  let clean_isbn := delete (Union (Lit "-") Space) isbn in
  re_match isbn_pattern clean_isbn.

Definition validate_issn (issn : text) : bool := re_match_i issn_pattern issn.

Definition validate_orcid (orcid : text) : bool := re_match orcid_pattern orcid.

Definition validate_coordinates (coord_str : text) : bool :=
  re_match coord_pattern coord_str.

(** [s] has exactly the characters a shape asks for ([ic]: ignoring case). *)
Fixpoint fits (ic : bool) (shape : list cclass) (s : text) : bool :=
  match shape, s with
  | [], [] => true
  | cl :: shape', c :: s' => if cmem ic cl c then fits ic shape' s' else false
  | _, _ => false
  end.

(** The same, where the end may also be a single line feed. *)
Fixpoint fits_eol (ic : bool) (shape : list cclass) (s : text) : bool :=
  match shape, s with
  | [], [] => true
  | [], [c] => (c =? LF)%N
  | cl :: shape', c :: s' => if cmem ic cl c then fits_eol ic shape' s' else false
  | _, _ => false
  end.

(** [s] fits the shape, or is such a string followed by one line feed. *)
Definition fits_or_newline (ic : bool) (shape : list cclass) (s : text) : Prop :=
  fits ic shape s = true \/ exists s0, s = s0 ++ [LF] /\ fits ic shape s0 = true.

(** Every character of [a] is in the set. *)
Fixpoint all_in (ic : bool) (cl : cclass) (a : text) : bool :=
  match a with
  | [] => true
  | c :: a' => if cmem ic cl c then all_in ic cl a' else false
  end.

End Matcher.

(** The tables of Unicode 14.0 (CPython 3.11), for concrete runs: the
    first code point and the length of each run of decimal digits, and of
    white space, above 127. *)
Definition decimal_digits_14 : list (N * N) :=
  [ (1632, 10); (1776, 10); (1984, 10); (2406, 10); (2534, 10); (2662, 10); (2790, 10);
    (2918, 10); (3046, 10); (3174, 10); (3302, 10); (3430, 10); (3558, 10); (3664, 10);
    (3792, 10); (3872, 10); (4160, 10); (4240, 10); (6112, 10); (6160, 10); (6470, 10);
    (6608, 10); (6784, 10); (6800, 10); (6992, 10); (7088, 10); (7232, 10); (7248, 10);
    (42528, 10); (43216, 10); (43264, 10); (43472, 10); (43504, 10); (43600, 10);
    (44016, 10); (65296, 10); (66720, 10); (68912, 10); (69734, 10); (69872, 10);
    (69942, 10); (70096, 10); (70384, 10); (70736, 10); (70864, 10); (71248, 10);
    (71360, 10); (71472, 10); (71904, 10); (72016, 10); (72784, 10); (73040, 10);
    (73120, 10); (92768, 10); (92864, 10); (93008, 10); (120782, 50); (123200, 10);
    (123632, 10); (125264, 10); (130032, 10) ]%N.

Definition white_space_14 : list (N * N) :=
  [ (133, 1); (160, 1); (5760, 1); (8192, 11); (8232, 2); (8239, 1); (8287, 1);
    (12288, 1) ]%N.

Definition in_runs (runs : list (N * N)) (c : char) : bool :=
  existsb (fun r => (fst r <=? c)%N && (c <? fst r + snd r)%N) runs.

Definition unicode_14 : database :=
  Database (in_runs decimal_digits_14) (in_runs white_space_14).

End Unicode.

Set Implicit Arguments.

(* ===================================================================== *)
(** ** Python values                                                      *)
(* ===================================================================== *)

(** What [yaml.safe_load] builds: scalars, sequences and mappings.  A
    float is kept by its [repr]; a YAML timestamp (a [datetime.date] or
    [datetime.datetime]) by its ISO text.  A [dict] whose keys are all
    strings is an association list in insertion order ([PDict]); the first
    binding of a key is its binding.  A [dict] with a key that is not a
    string ([2024: x], [true: x], [null: x]) is a [PMap]. *)
Inductive pyval : Type :=
| PNone
| PBool (b : bool)
| PInt (z : Z)
| PFloat (repr : string)
| PStr (s : string)
| PTime (iso : string)
| PList (xs : list pyval)
| PDict (kvs : list (string * pyval))
| PMap (kvs : list (pyval * pyval)).

Definition dict : Type := list (string * pyval).

(** [d.get(k)] *)
Fixpoint dict_get (A : Type) (k : string) (d : list (string * A)) : option A :=
  match d with
  | [] => None
  | (k', v) :: d' => if String.eqb k k' then Some v else dict_get k d'
  end.

(** [d[k] = v]: the binding is replaced in place, or added at the end. *)
Fixpoint dict_set (A : Type) (k : string) (v : A) (d : list (string * A))
  : list (string * A) :=
  match d with
  | [] => [(k, v)]
  | (k', v') :: d' =>
      if String.eqb k k' then (k, v) :: d' else (k', v') :: dict_set k v d'
  end.

Definition keys (A : Type) (d : list (string * A)) : list string := map fst d.

Definition mem (k : string) (ks : list string) : bool := existsb (String.eqb k) ks.

(** Truth value of an object ([not v] is its negation). *)
Definition truthy (v : pyval) : bool :=
  match v with
  | PNone => false
  | PBool b => b
  | PInt z => negb (z =? 0)%Z
  | PFloat r => negb (mem r ["0.0"; "-0.0"])
  | PStr s => negb (String.eqb s "")
  | PTime _ => true
  | PList xs => match xs with [] => false | _ => true end
  | PDict kvs => match kvs with [] => false | _ => true end
  | PMap kvs => match kvs with [] => false | _ => true end
  end.

Definition str_of_Z (z : Z) : string := NilZero.string_of_int (Z.to_int z).
Definition str_of_nat (n : nat) : string := str_of_Z (Z.of_nat n).

(** [v == s] for a string (or [str]-valued enumeration member) [s]. *)
Definition eq_str (v : option pyval) (s : string) : bool :=
  match v with
  | Some (PStr s') => String.eqb s' s
  | _ => false
  end.

(* ===================================================================== *)
(** ** pydantic 1.x: errors, field types, fields and models               *)
(* ===================================================================== *)

(** An error raised by a validator, an error wrapper under a location, or
    the errors of a sequence or of a [ValidationError]. *)
Inductive error : Type :=
| Err (msg : string)
| At (loc : string) (e : error)
| Errors (es : list error).

Inductive res (A : Type) : Type :=
| Ok (a : A)
| Fail (e : error).
Arguments Ok {A} a.
Arguments Fail {A} e.

(** The part of the library that is taken as given: which strings the URL
    types accept and how a [ValidationError] prints. *)
Record pydantic : Type := Pydantic {
  AnyUrl : string -> bool;
  HttpUrl : string -> bool;
  display_errors : error -> string
}.

(** [str_validator]: a [str] is kept, a number is converted ([bool] is an
    [int]), everything else is refused. *)
Definition str_validator (v : pyval) : option string :=
  match v with
  | PStr s => Some s
  | PInt z => Some (str_of_Z z)
  | PBool b => Some (if b then "True" else "False")
  | PFloat r => Some r
  | _ => None
  end.

(** [str] with the constraints of [Field(min_length, max_length, regex)]. *)
Definition constr (min_length max_length : option nat) (regex : option Re.regex)
           (v : pyval) : res pyval :=
  match str_validator v with
  | None => Fail (Err "str type expected")
  | Some s =>
      if match min_length with Some n => (String.length s <? n)%nat | None => false end
      then Fail (Err "ensure this value has at least min_length characters")
      else if match max_length with Some n => (n <? String.length s)%nat | None => false end
      then Fail (Err "ensure this value has at most max_length characters")
      else if match regex with Some r => negb (re_match r s) | None => false end
      then Fail (Err "string does not match regex")
      else Ok (PStr s)
  end.

Definition str : pyval -> res pyval := constr None None None.
Definition max_length (n : nat) : pyval -> res pyval := constr None (Some n) None.
Definition bounded (lo hi : nat) : pyval -> res pyval := constr (Some lo) (Some hi) None.
Definition matching (r : Re.regex) : pyval -> res pyval := constr None None (Some r).
(** [regex=r'^(w1|w2|...)$'] *)
Definition one_of (ws : list string) : pyval -> res pyval := matching (anchored (words ws)).

(** A [str]-valued [Enum]: the value must be one of the members' values. *)
Definition enum (values : list string) (v : pyval) : res pyval :=
  match v with
  | PStr s => if mem s values then Ok (PStr s)
              else Fail (Err "value is not a valid enumeration member")
  | _ => Fail (Err "value is not a valid enumeration member")
  end.

(** [bool_validator] *)
Definition BOOL_TRUE : list string := ["1"; "on"; "t"; "true"; "y"; "yes"].
Definition BOOL_FALSE : list string := ["0"; "off"; "f"; "false"; "n"; "no"].

Definition bool_validator (v : pyval) : res pyval :=
  let bad := Fail (Err "value could not be parsed to a boolean") in
  match v with
  | PBool b => Ok (PBool b)
  | PStr s => if mem (lower s) BOOL_TRUE then Ok (PBool true)
              else if mem (lower s) BOOL_FALSE then Ok (PBool false) else bad
  | PInt z => if (z =? 1)%Z then Ok (PBool true)
              else if (z =? 0)%Z then Ok (PBool false) else bad
  | PFloat r => if String.eqb r "1.0" then Ok (PBool true)
                else if mem r ["0.0"; "-0.0"] then Ok (PBool false) else bad
  | _ => bad
  end.

(** [AnyUrl] and [HttpUrl]: [str_validator], then the library's check. *)
Definition url (accepts : string -> bool) (v : pyval) : res pyval :=
  match str_validator v with
  | None => Fail (Err "str type expected")
  | Some s => if accepts s then Ok (PStr s) else Fail (Err "invalid or missing URL")
  end.

(** A class validator: the value and the previously validated fields. *)
Definition validator : Type := pyval -> dict -> res pyval.

Record field : Type := Field {
  f_name : string;
  f_optional : bool;            (* [Optional[...] = None] or required *)
  f_type : pyval -> res pyval;  (* the validators of the annotated type *)
  f_validators : list validator (* [@validator(name)] functions *)
}.

Definition required (name : string) (type : pyval -> res pyval) : field :=
  Field name false type [].
Definition optional (name : string) (type : pyval -> res pyval) : field :=
  Field name true type [].

Record model : Type := Model {
  m_name : string;
  m_fields : list field;
  m_root : list (dict -> res dict)   (* [@root_validator] functions *)
}.

Fixpoint apply_validators (vs : list validator) (v : pyval) (values : dict)
  : res pyval :=
  match vs with
  | [] => Ok v
  | f :: vs' =>
      match f v values with
      | Ok v' => apply_validators vs' v' values
      | Fail e => Fail e
      end
  end.

(** [ModelField.validate]: [None] is allowed for an optional field and then
    only the class validators run; otherwise the type's validators run and
    then the class validators. *)
Definition field_validate (f : field) (v : pyval) (values : dict) : res pyval :=
  match v with
  | PNone =>
      if f_optional f then apply_validators (f_validators f) PNone values
      else Fail (Err "none is not an allowed value")
  | _ =>
      match f_type f v with
      | Ok v' => apply_validators (f_validators f) v' values
      | Fail e => Fail e
      end
  end.

(** The loop of [validate_model] over the fields, in definition order.
    [values] holds the fields validated so far: a field that failed is
    left out, a missing optional field gets its default [None] without
    being validated. *)
Fixpoint validate_fields (fs : list field) (input : dict) (values : dict)
         (errors : list error) : dict * list error :=
  match fs with
  | [] => (values, errors)
  | f :: fs' =>
      match dict_get (f_name f) input with
      | None =>
          if f_optional f
          then validate_fields fs' input (values ++ [(f_name f, PNone)]) errors
          else validate_fields fs' input values
                 (errors ++ [At (f_name f) (Err "field required")])
      | Some v =>
          match field_validate f v values with
          | Ok v' => validate_fields fs' input (values ++ [(f_name f, v')]) errors
          | Fail e => validate_fields fs' input values (errors ++ [At (f_name f) e])
          end
      end
  end.

Definition field_names (m : model) : list string := map f_name (m_fields m).

(** [input_data.keys() - fields_set] (reported in sorted order by the
    library; the order is not kept here). *)
Definition extra_keys (m : model) (input : dict) : list string :=
  filter (fun k => negb (mem k (field_names m))) (keys input).

Fixpoint run_root_validators (rs : list (dict -> res dict)) (values : dict)
         (errors : list error) : dict * list error :=
  match rs with
  | [] => (values, errors)
  | r :: rs' =>
      match r values with
      | Ok values' => run_root_validators rs' values' errors
      | Fail e => run_root_validators rs' values (errors ++ [At "__root__" e])
      end
  end.

(** [validate_model] with [Config.extra = "forbid"], which every model of
    the module inherits from [BaseMetadataElement].  Errors accumulate; the
    root validators run even when fields failed ([skip_on_failure] is off). *)
Definition validate_model (m : model) (input : dict) : res dict :=
  let (values, errors) := validate_fields (m_fields m) input [] [] in
  let errors := errors ++ map (fun k => At k (Err "extra fields not permitted"))
                              (extra_keys m input) in
  let (values, errors) := run_root_validators (m_root m) values errors in
  match errors with
  | [] => Ok values
  | _ => Fail (Errors errors)
  end.

(** An item of [dict(value)]: an iterable of exactly two objects. *)
Definition as_pair (v : pyval) : option (pyval * pyval) :=
  match v with
  | PList [k; x] => Some (k, x)
  | PStr (String a (String b EmptyString)) =>
      Some (PStr (String a EmptyString), PStr (String b EmptyString))
  | PDict [(k1, _); (k2, _)] => Some (PStr k1, PStr k2)
  | PMap [(k1, _); (k2, _)] => Some (k1, k2)
  | _ => None
  end.

Fixpoint dict_of_pairs (items : list pyval) (acc : dict) : option dict :=
  match items with
  | [] => Some acc
  | it :: items' =>
      match as_pair it with
      | Some (PStr k, x) => dict_of_pairs items' (dict_set k x acc)
      | _ => None
      end
  end.

(** The keyword arguments [Model.validate] builds from a value: a [dict]
    as it is, otherwise [dict(value)].  The keys must be strings: the call
    with [**] raises a [TypeError] otherwise, which the field turns into an
    error like any other. *)
Definition as_kwargs (v : pyval) : option dict :=
  match v with
  | PDict d => Some d
  | PList items => dict_of_pairs items []
  | PStr EmptyString => Some []
  | _ => None
  end.

(** A model used as the type of a field. *)
Definition model_type (m : model) (v : pyval) : res pyval :=
  match as_kwargs v with
  | None => Fail (Err "value is not a valid dict")
  | Some d =>
      match validate_model m d with
      | Ok values => Ok (PDict values)
      | Fail e => Fail e
      end
  end.

(** The items of a [List[...]], each under its index; all errors are kept. *)
Fixpoint validate_items (item : pyval -> res pyval) (i : nat) (xs : list pyval)
  : list pyval * list error :=
  match xs with
  | [] => ([], [])
  | x :: xs' =>
      let (vs, es) := validate_items item (S i) xs' in
      match x with
      | PNone => (vs, At (str_of_nat i) (Err "none is not an allowed value") :: es)
      | _ =>
          match item x with
          | Ok v => (v :: vs, es)
          | Fail e => (vs, At (str_of_nat i) e :: es)
          end
      end
  end.

(** [List[item]]: only a sequence is accepted. *)
Definition list_of (item : pyval -> res pyval) (v : pyval) : res pyval :=
  match v with
  | PList xs =>
      match validate_items item 0 xs with
      | (vs, []) => Ok (PList vs)
      | (_, es) => Fail (Errors es)
      end
  | _ => Fail (Err "value is not a valid list")
  end.

(* ===================================================================== *)
(** ** ISO standard models (enumerations)                                 *)
(* ===================================================================== *)

Definition ISO639_1 : list string :=
  ["en"; "es"; "fr"; "de"; "it"; "pt"; "ru"; "ja"; "zh"; "ar";
   "hi"; "ko"; "nl"; "sv"; "no"; "da"; "fi"; "pl"; "cs"; "hu"].

Definition ISO3166_1 : list string :=
  ["US"; "USA"; "GB"; "UK"; "CA"; "AU"; "DE"; "FR"; "ES"; "IT"; "JP"; "CN";
   "IN"; "BR"; "MX"; "RU"; "EU"].

Definition DCMITypeVocabulary : list string :=
  ["Collection"; "Dataset"; "Event"; "Image"; "InteractiveResource";
   "MovingImage"; "PhysicalObject"; "Service"; "Software"; "Sound";
   "StillImage"; "Text"].

Definition SubjectScheme : list string :=
  ["LCSH"; "MeSH"; "DDC"; "UDC"; "LCC"; "AGROVOC"; "AAT"; "keyword"; "local"].

Definition DateScheme : list string := ["W3CDTF"; "DCMI Period"; "TGN"; "local"].

Definition IdentifierScheme : list string :=
  ["URI"; "URN"; "DOI"; "ISBN"; "ISSN"; "Handle"; "local"].

(* ===================================================================== *)
(** ** Class validators of the element models                             *)
(* ===================================================================== *)

(** What [re.match] and [len] do with a value that is not a string. *)
Definition not_a_string : res pyval := Fail (Err "expected string or bytes-like object").

Definition validate_orcid_format : validator := fun v _ =>
  match v with
  | PNone => Ok v
  | PStr s => if negb (validate_orcid s) then Fail (Err "Invalid ORCID format") else Ok v
  | _ => not_a_string
  end.

Definition validate_date_format : validator := fun v values =>
  let scheme := dict_get "scheme" values in
  if eq_str scheme "W3CDTF" then
    match v with
    | PStr s =>
        if negb (validate_iso8601_date s)
        then Fail (Err "Invalid ISO 8601 date format for W3CDTF scheme") else Ok v
    | _ => not_a_string
    end
  else Ok v.

Definition validate_dcmi_type : validator := fun v values =>
  let scheme := dict_get "scheme" values in
  if eq_str scheme "DCMI Type Vocabulary" then
    match v with
    | PStr s => if mem s DCMITypeVocabulary then Ok v
                else Fail (Err ("Invalid DCMI Type: " ++ s))
    | _ => Fail (Err "Invalid DCMI Type")
    end
  else Ok v.

Definition validate_identifier_format : validator := fun v values =>
  let id_type := dict_get "type" values in
  if eq_str id_type "DOI" then
    match v with
    | PStr s => if negb (validate_doi s) then Fail (Err "Invalid DOI format") else Ok v
    | _ => not_a_string
    end
  else if eq_str id_type "ISBN" then
    match v with
    | PStr s => if negb (validate_isbn s) then Fail (Err "Invalid ISBN format") else Ok v
    | _ => not_a_string
    end
  else if eq_str id_type "ISSN" then
    match v with
    | PStr s => if negb (validate_issn s) then Fail (Err "Invalid ISSN format") else Ok v
    | _ => not_a_string
    end
  else Ok v.

Definition validate_language_code : validator := fun v values =>
  let scheme := dict_get "scheme" values in
  match v with
  | PStr s =>
      if eq_str scheme "ISO 639-1" && negb (String.length s =? 2)%nat
      then Fail (Err "ISO 639-1 codes must be 2 characters")
      else if (eq_str scheme "ISO 639-2" || eq_str scheme "ISO 639-3")
              && negb (String.length s =? 3)%nat
      then Fail (Err (match scheme with Some (PStr n) => n | _ => "" end
                      ++ " codes must be 3 characters"))
      else Ok (PStr (lower s))
  | _ => not_a_string
  end.

Definition validate_coordinate_format : validator := fun v _ =>
  match v with
  | PNone => Ok v
  | PStr s => if negb (validate_coordinates s) then Fail (Err "Invalid coordinate format") else Ok v
  | _ => not_a_string
  end.

(** [DublinCore.validate_required_elements] *)
Definition validate_required_elements (values : dict) : res dict :=
  if negb (match dict_get "title" values with Some v => truthy v | None => false end)
  then Fail (Err "At least one title element is required")
  else if negb (match dict_get "identifier" values with Some v => truthy v | None => false end)
  then Fail (Err "At least one identifier element is required")
  else Ok values.

(* ===================================================================== *)
(** ** Pydantic models for the Dublin Core elements                       *)
(* ===================================================================== *)

Definition TitleElement : model := Model "TitleElement"
  [ required "value" (bounded 1 1000);
    optional "type" (one_of ["main"; "alternative"; "translated"; "subtitle";
                             "uniform"; "abbreviated"; "expanded"]);
    optional "language" (enum ISO639_1) ] [].

Definition CreatorElement : model := Model "CreatorElement"
  [ required "name" (bounded 1 500);
    optional "type" (one_of ["personal"; "corporate"; "conference"; "family"]);
    optional "affiliation" (max_length 500);
    Field "orcid" true str [validate_orcid_format];
    optional "role" (one_of ["author"; "principal investigator"; "co-investigator";
                             "researcher"; "analyst"; "institutional author"]) ] [].

Definition DescriptionElement : model := Model "DescriptionElement"
  [ required "value" (bounded 1 5000);
    optional "type" (one_of ["abstract"; "summary"; "tableOfContents"; "methods";
                             "purpose"; "scope"; "provenance"; "review"; "version";
                             "other"]);
    optional "language" (enum ISO639_1) ] [].

Definition ContributorElement : model := Model "ContributorElement"
  [ required "name" (bounded 1 500);
    optional "type" (one_of ["personal"; "corporate"; "conference"; "family"]);
    optional "role" (one_of ["editor"; "translator"; "illustrator"; "data collector";
                             "advisor"; "reviewer"; "sponsor"; "funder"; "distributor";
                             "graphics design"; "data analyst"; "peer reviewer";
                             "other"]);
    optional "affiliation" (max_length 500) ] [].

Definition DateElement : model := Model "DateElement"
  [ Field "value" false (constr (Some 1) None None) [validate_date_format];
    optional "type" (one_of ["created"; "valid"; "available"; "issued"; "modified";
                             "submitted"; "accepted"; "copyrighted"; "collected";
                             "published"; "temporal_coverage"]);
    optional "scheme" (enum DateScheme);
    optional "note" (max_length 200) ] [].

Definition FormatElement : model := Model "FormatElement"
  [ required "value" (bounded 1 200);
    optional "type" (one_of ["media_type"; "extent"; "medium"; "dimensions"; "file_size"]);
    optional "scheme" (one_of ["IMT"; "local"]) ] [].

Definition IdentifierElement : model := Model "IdentifierElement"
  [ Field "value" false (bounded 1 500) [validate_identifier_format];
    optional "type" (one_of ["DOI"; "ISBN"; "ISSN"; "URI"; "URL"; "URN"; "Handle";
                             "PMID"; "PMC"; "arXiv"; "local"]);
    optional "scheme" (enum IdentifierScheme);
    optional "note" (max_length 200) ] [].

Definition SourceElement : model := Model "SourceElement"
  [ required "value" (bounded 1 1000);
    optional "type" (one_of ["dataset"; "publication"; "website"; "database";
                             "collection"; "publication_series";
                             "conference_proceedings"; "report"; "thesis";
                             "remote_sensing_data"; "field_data"]);
    optional "identifier" (max_length 500) ] [].

Definition LanguageElement : model := Model "LanguageElement"
  [ Field "value" false (bounded 2 3) [validate_language_code];
    optional "scheme" (one_of ["ISO 639-1"; "ISO 639-2"; "ISO 639-3"; "RFC 3066"; "local"]);
    optional "name" (max_length 100);
    optional "note" (max_length 200) ] [].

Definition RelationElement : model := Model "RelationElement"
  [ required "value" (bounded 1 500);
    optional "type" (one_of ["isVersionOf"; "hasVersion"; "isReplacedBy"; "replaces";
                             "isRequiredBy"; "requires"; "isPartOf"; "hasPart";
                             "isReferencedBy"; "references"; "isFormatOf"; "hasFormat";
                             "conformsTo"; "isBasedOn"; "isBasisFor"; "continues";
                             "isContinuedBy"; "accompanies"; "isAccompaniedBy";
                             "isSupplementTo"; "isSupplementedBy"]);
    optional "description" (max_length 500) ] [].

Definition CoverageElement : model := Model "CoverageElement"
  [ required "value" (bounded 1 500);
    optional "type" (one_of ["spatial"; "temporal"; "jurisdiction"]);
    optional "scheme" (one_of ["TGN"; "LCSH"; "GeoNames"; "ISO 3166"; "WGS84";
                               "W3CDTF"; "local"]);
    Field "coordinates" true str [validate_coordinate_format];
    optional "description" (max_length 500) ] [].

(** Additional metadata models without URL fields. *)

Definition FundingElement : model := Model "FundingElement"
  [ required "agency" (bounded 1 300);
    optional "grant_number" (max_length 100);
    optional "country" (enum ISO3166_1) ] [].

Definition QualityElement : model := Model "QualityElement"
  [ optional "peer_review" bool_validator;
    optional "review_type" (one_of ["single-blind"; "double-blind"; "open";
                                    "post-publication"; "editorial"]);
    optional "editorial_board_approved" bool_validator ] [].

Definition TechnicalElement : model := Model "TechnicalElement"
  [ optional "creation_software" (max_length 200);
    optional "figures_software" (max_length 200);
    optional "data_analysis_software" (max_length 200) ] [].

Definition hex : cclass := Union (Range "a" "f") (Union (Range "A" "F") (Range "0" "9")).

Definition PreservationElement : model := Model "PreservationElement"
  [ optional "checksum"
      (matching (cat [Bol; words ["md5"; "sha1"; "sha256"; "sha512"]; lit ":";
                      plus hex; Eol]));
    optional "preservation_level" (one_of ["bit-level"; "logical"; "full"; "none"]);
    optional "migration_path" (max_length 200) ] [].

Definition AdditionalMetadata : model := Model "AdditionalMetadata"
  [ optional "funding" (list_of (model_type FundingElement));
    optional "quality" (model_type QualityElement);
    optional "technical" (model_type TechnicalElement);
    optional "preservation" (model_type PreservationElement) ] [].

Definition timestamp_re : regex := cat [Bol; date_re; time_re; lit "Z"; Eol].

Definition MetadataRecord : model := Model "MetadataRecord"
  [ optional "created_date" (matching timestamp_re);
    optional "created_by" (max_length 200);
    optional "last_modified" (matching timestamp_re);
    optional "modified_by" (max_length 200);
    optional "record_identifier" (max_length 100);
    optional "schema_version" (max_length 100);
    optional "encoding" (matching (cat [Bol; lit "UTF-8"; Eol])) ] [].

Section Models.

(** The models with URL fields depend on the library's URL types. *)
Variable lib : pydantic.

Definition SubjectElement : model := Model "SubjectElement"
  [ required "value" (bounded 1 500);
    optional "scheme" (enum SubjectScheme);
    optional "uri" (url (AnyUrl lib));
    optional "note" (max_length 200) ] [].

Definition PublisherElement : model := Model "PublisherElement"
  [ required "name" (bounded 1 500);
    optional "type" (one_of ["commercial"; "university"; "government"; "society";
                             "individual"; "other"]);
    optional "location" (max_length 200);
    optional "website" (url (HttpUrl lib));
    optional "role" (one_of ["publisher"; "co-publisher"; "distributor"; "sponsor"]) ] [].

Definition TypeElement : model := Model "TypeElement"
  [ Field "value" false (bounded 1 200) [validate_dcmi_type];
    optional "scheme" (one_of ["DCMI Type Vocabulary"; "local"; "AAT";
                               "MARC Genre Terms"]);
    optional "uri" (url (AnyUrl lib)) ] [].

Definition RightsElement : model := Model "RightsElement"
  [ required "value" (bounded 1 1000);
    optional "type" (one_of ["copyright"; "license"; "access_rights";
                             "use_restrictions"; "data_rights"; "embargo";
                             "terms_of_use"]);
    optional "uri" (url (AnyUrl lib));
    optional "description" (max_length 500);
    optional "note" (max_length 200) ] [].

(** The 15 element kinds with their models, in the order of [DublinCore]. *)
Definition element_models : list (string * model) :=
  [ ("title", TitleElement); ("creator", CreatorElement);
    ("subject", SubjectElement); ("description", DescriptionElement);
    ("publisher", PublisherElement); ("contributor", ContributorElement);
    ("date", DateElement); ("type", TypeElement); ("format", FormatElement);
    ("identifier", IdentifierElement); ("source", SourceElement);
    ("language", LanguageElement); ("relation", RelationElement);
    ("coverage", CoverageElement); ("rights", RightsElement) ].

(** [name: Optional[List[Element]] = None] *)
Definition element_list (km : string * model) : field :=
  optional (fst km) (list_of (model_type (snd km))).

Definition DublinCore : model := Model "DublinCore"
  (map element_list element_models) [validate_required_elements].

Definition DublinCoreDocument : model := Model "DublinCoreDocument"
  [ required "dublin_core" (model_type DublinCore);
    optional "additional_metadata" (model_type AdditionalMetadata);
    optional "metadata_record" (model_type MetadataRecord) ] [].

End Models.

(* ===================================================================== *)
(** ** Exceptions, reports and the world around a validation call         *)
(* ===================================================================== *)

(** An exception: the name of its class and its [str]. *)
Record exn : Type := Exn { exn_type : string; exn_str : string }.

Inductive exc (A : Type) : Type :=
| Return (a : A)
| Raise (e : exn).
Arguments Return {A} a.
Arguments Raise {A} e.

Definition bind (A B : Type) (m : exc A) (k : A -> exc B) : exc B :=
  match m with
  | Return a => k a
  | Raise e => Raise e
  end.

Notation "x <- m ;; k" := (bind m (fun x => k))
  (at level 61, m at next level, right associativity).

Fixpoint traverse (A B : Type) (f : A -> exc B) (xs : list A) : exc (list B) :=
  match xs with
  | [] => Return []
  | x :: xs' => y <- f x ;; ys <- traverse f xs' ;; Return (y :: ys)
  end.

(** Values stored in a report. *)
Inductive rval : Type :=
| RStr (s : string)
| RInt (z : Z)
| RFloat (f : PrimFloat.float)
| RBool (b : bool)
| RCounts (d : list (string * Z)).

Definition report : Type := list (string * rval).

(** What opening and loading a path gives. *)
Inductive file : Type :=
| Missing                  (* [open] raises [FileNotFoundError] *)
| Malformed (e : string)   (* [yaml.safe_load] raises a [YAMLError] printing as [e] *)
| Unreadable (e : exn)     (* another exception of [open] or of reading *)
| Parsed (data : pyval).

Record world : Type := World {
  lib : pydantic;
  Path : string -> string;        (* [str(Path(file_path))] *)
  fs : string -> file;
  stat_size : string -> exc Z     (* [path.stat().st_size] *)
}.

(** [getattr(o, name)] on a model instance, which is kept as the [dict] of
    its fields. *)
Definition getattr (o : pyval) (name : string) : exc pyval :=
  match o with
  | PDict d =>
      match dict_get name d with
      | Some v => Return v
      | None => Raise (Exn "AttributeError" name)
      end
  | _ => Raise (Exn "AttributeError" name)
  end.

(** [a or b] *)
Definition py_or (a b : pyval) : pyval := if truthy a then a else b.

(** [len(v)] *)
Definition len (v : pyval) : exc Z :=
  match v with
  | PList xs => Return (Z.of_nat (List.length xs))
  | PDict kvs => Return (Z.of_nat (List.length kvs))
  | PMap kvs => Return (Z.of_nat (List.length kvs))
  | PStr s => Return (Z.of_nat (String.length s))
  | _ => Raise (Exn "TypeError" "object has no len()")
  end.

(** [v is not None] *)
Definition is_not_None (v : pyval) : bool :=
  match v with PNone => false | _ => true end.

(** [sum(...)] over integers. *)
Definition sum (zs : list Z) : Z := fold_left Z.add zs 0%Z.

Definition float_of_Z (z : Z) : PrimFloat.float := PrimFloat.of_uint63 (Uint63.of_Z z).

(* ===================================================================== *)
(** ** Functional validation pipeline                                     *)
(* ===================================================================== *)

Definition load_yaml_file (w : world) (file_path : string) : exc pyval :=
  match fs w file_path with
  | Parsed data => Return data
  | Malformed e => Raise (Exn "ValueError" ("Invalid YAML format: " ++ e))
  | Missing => Raise (Exn "ValueError" ("File not found: " ++ file_path))
  | Unreadable e => Raise e
  end.

(** The call of [DublinCoreDocument] with [data] unpacked as keyword
    arguments: [data] must be a mapping whose keys are strings.  The
    [TypeError] of the call is not a [ValidationError] and passes through. *)
Definition validate_document (l : pydantic) (data : pyval) : exc pyval :=
  match data with
  | PDict d =>
      match validate_model (DublinCoreDocument l) d with
      | Ok values => Return (PDict values)
      | Fail e => Raise (Exn "ValueError" ("Validation failed: " ++ display_errors l e))
      end
  | PMap _ => Raise (Exn "TypeError" "keywords must be strings")
  | _ => Raise (Exn "TypeError" "argument after ** must be a mapping")
  end.

(** The keys of the [element_counts] literal, in its order. *)
Definition element_kinds : list string :=
  ["title"; "creator"; "subject"; "description"; "publisher"; "contributor";
   "date"; "type"; "format"; "identifier"; "source"; "language"; "relation";
   "coverage"; "rights"].

(** One entry of the literal: [kind: len(dc.kind or [])]. *)
Definition element_count (dc : pyval) (kind : string) : exc (string * Z) :=
  elements <- getattr dc kind ;;
  n <- len (py_or elements (PList [])) ;;
  Return (kind, n).

Definition create_validation_report (document : pyval) : exc report :=
  dc <- getattr document "dublin_core" ;;
  element_counts <- traverse (element_count dc) element_kinds ;;
  let total_elements := sum (map snd element_counts) in
  let populated_elements :=
    sum (map (fun _ => 1%Z) (filter (fun count => (0 <? count)%Z) (map snd element_counts))) in
  additional_metadata <- getattr document "additional_metadata" ;;
  metadata_record <- getattr document "metadata_record" ;;
  Return
    [ ("validation_status", RStr "PASSED");
      ("total_elements", RInt total_elements);
      ("populated_elements", RInt populated_elements);
      ("completeness_percentage",
         RFloat (float_of_Z populated_elements / 15 * 100)%float);
      ("element_counts", RCounts element_counts);
      ("has_additional_metadata", RBool (is_not_None additional_metadata));
      ("has_metadata_record", RBool (is_not_None metadata_record)) ].

(** The wrapper: every exception becomes a FAILED report. *)
Definition validation_decorator (A : Type) (func : A -> exc report) (a : A) : report :=
  match func a with
  | Return r => r
  | Raise e =>
      [ ("validation_status", RStr "FAILED");
        ("error", RStr (exn_str e));
        ("error_type", RStr (exn_type e)) ]
  end.

(** The body of [validate_dublin_core_yaml], before decoration. *)
Definition validate_dublin_core_yaml_body (w : world) (file_path : string) : exc report :=
  let path := Path w file_path in
  data <- load_yaml_file w path ;;
  document <- validate_document (lib w) data ;;
  report <- create_validation_report document ;;
  size <- stat_size w path ;;
  Return (dict_set "file_size_bytes" (RInt size)
            (dict_set "file_path" (RStr path) report)).

Definition validate_dublin_core_yaml (w : world) : string -> report :=
  validation_decorator (validate_dublin_core_yaml_body w).

(* ===================================================================== *)
(** ** The example document of [cli.py] ([example_yaml]), as loaded        *)
(* ===================================================================== *)

(** A mapping whose values are all quoted strings. *)
Definition strs (kvs : list (string * string)) : pyval :=
  PDict (map (fun kv => (fst kv, PStr (snd kv))) kvs).

(** A character by its code point. *)
Definition chr (n : nat) : string := String (ascii_of_nat n) EmptyString.

Definition example_dublin_core : pyval := PDict
  [ ("title", PList
      [ strs [("value", "Sample Research Dataset: Climate Change Impact on Coastal Ecosystems");
              ("type", "main"); ("language", "en")];
        strs [("value", ("Impacto del Cambio Clim" ++ chr 225 ++ "tico en Ecosistemas Costeros: Conjunto de Datos de Investigaci" ++ chr 243 ++ "n")%string);
              ("type", "translated"); ("language", "es")] ]);
    ("creator", PList
      [ strs [("name", "Dr. Jane Smith"); ("type", "personal");
              ("orcid", "0000-0002-1825-0097");
              ("affiliation", "University of Marine Sciences");
              ("role", "principal investigator")];
        strs [("name", "Dr. Robert Johnson"); ("type", "personal");
              ("affiliation", "Coastal Research Institute");
              ("role", "co-investigator")] ]);
    ("subject", PList
      [ strs [("value", "Climate change"); ("scheme", "LCSH")];
        strs [("value", "Coastal ecology"); ("scheme", "LCSH")];
        strs [("value", "Marine biology"); ("scheme", "LCSH")];
        strs [("value", "Environmental monitoring"); ("scheme", "keyword")] ]);
    ("description", PList
      [ strs [("value", "This dataset contains comprehensive measurements of coastal ecosystem parameters collected over a 5-year period to assess climate change impacts. Includes water temperature, salinity, pH levels, species abundance, and biodiversity indices from 15 monitoring stations along the Pacific coast.");
              ("type", "abstract"); ("language", "en")] ]);
    ("publisher", PList
      [ strs [("name", "University of Marine Sciences Data Repository");
              ("type", "university"); ("location", "California, USA");
              ("website", "https://data.umarine.edu")] ]);
    ("contributor", PList
      [ strs [("name", "Marine Data Consortium"); ("type", "corporate");
              ("role", "data collector")];
        strs [("name", "Dr. Maria Garcia"); ("type", "personal");
              ("role", "data analyst")] ]);
    ("date", PList
      [ strs [("value", "2024-01-15"); ("type", "created"); ("scheme", "W3CDTF")];
        strs [("value", "2024-02-01"); ("type", "available"); ("scheme", "W3CDTF")];
        strs [("value", "2019/2023"); ("type", "temporal_coverage"); ("scheme", "W3CDTF")] ]);
    ("type", PList
      [ strs [("value", "Dataset"); ("scheme", "DCMI Type Vocabulary")] ]);
    ("format", PList
      [ strs [("value", "text/csv"); ("type", "media_type"); ("scheme", "IMT")];
        strs [("value", "2.5 GB"); ("type", "file_size")] ]);
    ("identifier", PList
      [ strs [("value", "https://doi.org/10.5555/example.dataset.2024");
              ("type", "DOI"); ("scheme", "URI")];
        strs [("value", "UMDS-2024-001"); ("type", "local")] ]);
    ("language", PList
      [ strs [("value", "en"); ("scheme", "ISO 639-1"); ("name", "English")] ]);
    ("coverage", PList
      [ strs [("value", "Pacific Coast, California, USA"); ("type", "spatial");
              ("scheme", "TGN");
              ("coordinates", "lat: 32.7157-37.8044, lon: -117.1611--122.4194")];
        strs [("value", "2019-01-01/2023-12-31"); ("type", "temporal");
              ("scheme", "W3CDTF")] ]);
    ("rights", PList
      [ strs [("value", "Creative Commons Attribution 4.0 International License");
              ("type", "license");
              ("uri", "https://creativecommons.org/licenses/by/4.0/")] ]) ].

Definition example_additional_metadata : pyval := PDict
  [ ("funding", PList
      [ strs [("agency", "National Science Foundation");
              ("grant_number", "OCE-1234567"); ("country", "US")];
        strs [("agency", "California Ocean Protection Council");
              ("grant_number", "OPC-ENV-2019-05"); ("country", "US")] ]);
    ("quality", PDict
      [ ("peer_review", PBool true); ("review_type", PStr "double-blind") ]);
    ("technical", strs
      [ ("creation_software", "R 4.3.0, Python 3.9");
        ("data_analysis_software", "R packages: tidyverse, vegan, ggplot2") ]) ].

Definition example_metadata_record : pyval := strs
  [ ("created_date", "2024-01-15T10:30:00Z");
    ("created_by", "Dr. Jane Smith");
    ("record_identifier", "UMDS-META-2024-001");
    ("schema_version", "Dublin Core 1.1 Extended");
    ("encoding", "UTF-8") ].

Definition example_yaml : pyval := PDict
  [ ("dublin_core", example_dublin_core);
    ("additional_metadata", example_additional_metadata);
    ("metadata_record", example_metadata_record) ].

(** The two URLs of the example. *)
Definition example_urls_accepted (l : pydantic) : Prop :=
  HttpUrl l "https://data.umarine.edu" = true /\
  AnyUrl l "https://creativecommons.org/licenses/by/4.0/" = true.

(** A world for concrete runs: a stand-in for the URL types that asks for
    an [http://] or [https://] prefix (any scheme followed by [://] for
    [AnyUrl]), one file holding the example and nothing else. *)
Definition scheme_re : regex :=
  cat [Chr (Range "a" "z"); plus (Union (Range "a" "z") (Union Digit
         (Union (Lit "+") (Union (Lit "-") (Lit "."))))); lit "://";
       plus (Neg Space); Eol].

Definition sample_lib : pydantic := Pydantic
  (fun s => re_match_i (cat [Bol; scheme_re]) s)
  (fun s => re_match_i (cat [Bol; lit "http"; opt (lit "s"); lit "://"; plus (Neg Space); Eol]) s)
  (fun _ => "validation errors for DublinCoreDocument").

Definition sample_world (files : list (string * file)) : world := World
  sample_lib
  (fun p => p)
  (fun p => match dict_get p files with Some f => f | None => Missing end)
  (fun p => match dict_get p files with
            | Some (Parsed _) => Return 4096%Z
            | Some _ => Return 0%Z
            | None => Raise (Exn "FileNotFoundError" p)
            end).

(* ===================================================================== *)
(** ** Properties of the model machinery                                  *)
(* ===================================================================== *)

Unset Implicit Arguments.

Lemma mem_false_not_In (k : string) (ks : list string) :
  mem k ks = false -> ~ In k ks.
Proof.
  unfold mem. intros H Hin.
  assert (existsb (String.eqb k) ks = true) as E.
  { apply existsb_exists. exists k. split; [exact Hin | apply String.eqb_refl]. }
  congruence.
Qed.

Lemma mem_true_In (k : string) (ks : list string) :
  mem k ks = true -> In k ks.
Proof.
  unfold mem. intros H. apply existsb_exists in H as [x [Hin E]].
  apply String.eqb_eq in E. now subst.
Qed.

Lemma dict_get_app_some (A : Type) (k : string) (d d' : list (string * A)) (v : A) :
  dict_get k d = Some v -> dict_get k (d ++ d') = Some v.
Proof.
  induction d as [|[k' x] d IH]; simpl; [discriminate|].
  destruct (String.eqb k k'); auto.
Qed.

Lemma dict_get_app_none (A : Type) (k : string) (d d' : list (string * A)) :
  dict_get k d = None -> dict_get k (d ++ d') = dict_get k d'.
Proof.
  induction d as [|[k' x] d IH]; simpl; [reflexivity|].
  destruct (String.eqb k k'); [discriminate | auto].
Qed.

Lemma dict_get_In (A : Type) (k : string) (d : list (string * A)) (v : A) :
  dict_get k d = Some v -> In (k, v) d.
Proof.
  induction d as [|[k' x] d IH]; simpl; [discriminate|].
  destruct (String.eqb k k') eqn:E.
  - intros [= ->]. apply String.eqb_eq in E. subst. now left.
  - intros H. right. auto.
Qed.

Lemma dict_get_set_same (A : Type) (k : string) (v : A) (d : list (string * A)) :
  dict_get k (dict_set k v d) = Some v.
Proof.
  induction d as [|[k' x] d IH]; simpl.
  - now rewrite String.eqb_refl.
  - destruct (String.eqb k k') eqn:E; simpl.
    + now rewrite String.eqb_refl.
    + now rewrite E.
Qed.

Lemma dict_get_set_other (A : Type) (k k0 : string) (v : A) (d : list (string * A)) :
  k0 <> k -> dict_get k0 (dict_set k v d) = dict_get k0 d.
Proof.
  intros Hne. induction d as [|[k' x] d IH]; simpl.
  - destruct (String.eqb k0 k) eqn:E; [apply String.eqb_eq in E; contradiction | reflexivity].
  - destruct (String.eqb k k') eqn:E; simpl.
    + apply String.eqb_eq in E. subst k'.
      destruct (String.eqb k0 k) eqn:E'; [apply String.eqb_eq in E'; contradiction | reflexivity].
    + destruct (String.eqb k0 k'); auto.
Qed.

(** The loop over the fields only ever adds values and errors. *)
Lemma validate_fields_grows (fs : list field) (input values : dict) (errors : list error) :
  exists vs es,
    validate_fields fs input values errors = (values ++ vs, errors ++ es).
Proof.
  revert values errors. induction fs as [|f fs IH]; intros values errors; simpl.
  - exists [], []. now rewrite !app_nil_r.
  - destruct (dict_get (f_name f) input) as [v|].
    + destruct (field_validate f v values) as [v'|e].
      * destruct (IH (values ++ [(f_name f, v')]) errors) as (vs & es & E).
        rewrite E, <- app_assoc. eauto.
      * destruct (IH values (errors ++ [At (f_name f) e])) as (vs & es & E).
        rewrite E, <- app_assoc. eauto.
    + destruct (f_optional f).
      * destruct (IH (values ++ [(f_name f, PNone)]) errors) as (vs & es & E).
        rewrite E, <- app_assoc. eauto.
      * destruct (IH values (errors ++ [At (f_name f) (Err "field required")])) as (vs & es & E).
        rewrite E, <- app_assoc. eauto.
Qed.

Lemma validate_fields_errors_kept (fs : list field) (input values : dict) (errors : list error) :
  errors <> [] -> snd (validate_fields fs input values errors) <> [].
Proof.
  intros H. destruct (validate_fields_grows fs input values errors) as (vs & es & E).
  rewrite E. simpl. destruct errors; [congruence | discriminate].
Qed.

Lemma run_root_validators_grows (rs : list (dict -> res dict)) (values : dict)
      (errors : list error) :
  exists es, snd (run_root_validators rs values errors) = errors ++ es.
Proof.
  revert values errors. induction rs as [|r rs IH]; intros values errors; simpl.
  - exists []. now rewrite app_nil_r.
  - destruct (r values) as [values'|e].
    + apply IH.
    + destruct (IH values (errors ++ [At "__root__" e])) as (es & E).
      rewrite E, <- app_assoc. eauto.
Qed.

(** A successful [validate_model]: no field failed, no key was extra, and
    the root validators ran without an error. *)
Lemma validate_model_Ok_inv (m : model) (input values : dict) :
  validate_model m input = Ok values ->
  exists values0,
    validate_fields (m_fields m) input [] [] = (values0, [])
    /\ extra_keys m input = []
    /\ run_root_validators (m_root m) values0 [] = (values, []).
Proof.
  unfold validate_model.
  destruct (validate_fields (m_fields m) input [] []) as [values0 errors] eqn:EF.
  destruct (run_root_validators (m_root m) values0
              (errors ++ map (fun k => At k (Err "extra fields not permitted"))
                         (extra_keys m input))) as [values1 errors1] eqn:ER.
  destruct errors1 as [|e1 errors1]; [|discriminate].
  intros [= <-].
  destruct (run_root_validators_grows (m_root m) values0
              (errors ++ map (fun k => At k (Err "extra fields not permitted"))
                         (extra_keys m input))) as (es & E).
  rewrite ER in E. simpl in E. symmetry in E.
  apply app_eq_nil in E as [E _]. apply app_eq_nil in E as [E1 E2].
  apply map_eq_nil in E2. subst errors. rewrite E2 in ER. simpl in ER.
  exists values0. auto.
Qed.

(** Errors of the field loop make the model fail. *)
Lemma validate_model_field_errors (m : model) (input : dict) :
  snd (validate_fields (m_fields m) input [] []) <> [] ->
  exists e, validate_model m input = Fail e.
Proof.
  intros H. destruct (validate_model m input) as [values|e] eqn:E; [|eauto].
  apply validate_model_Ok_inv in E as (values0 & E & _). rewrite E in H. now elim H.
Qed.

(** Closed schema: a key that is not a field name makes the model fail. *)
Lemma validate_model_extra (m : model) (input : dict) (k : string) :
  In k (keys input) -> mem k (field_names m) = false ->
  exists e, validate_model m input = Fail e.
Proof.
  intros Hin Hk. destruct (validate_model m input) as [values|e] eqn:E; [|eauto].
  apply validate_model_Ok_inv in E as (values0 & _ & E & _).
  assert (In k (extra_keys m input)) as H.
  { unfold extra_keys. apply filter_In. split; [exact Hin | now rewrite Hk]. }
  rewrite E in H. destruct H.
Qed.

(** A field whose value is refused makes the model fail. *)
Lemma validate_fields_field_fails (fs : list field) (input values : dict)
      (errors : list error) (f : field) (v : pyval) :
  In f fs -> dict_get (f_name f) input = Some v ->
  (forall vs, exists e, field_validate f v vs = Fail e) ->
  snd (validate_fields fs input values errors) <> [].
Proof.
  revert values errors. induction fs as [|g fs IH]; intros values errors Hin Hget Hfail;
    [destruct Hin|].
  destruct Hin as [-> | Hin].
  - simpl. rewrite Hget. destruct (Hfail values) as (e & ->).
    apply validate_fields_errors_kept. destruct errors; discriminate.
  - simpl. destruct (dict_get (f_name g) input) as [x|].
    + destruct (field_validate g x values); auto.
    + destruct (f_optional g); auto.
Qed.

Lemma validate_model_field_fails (m : model) (input : dict) (f : field) (v : pyval) :
  In f (m_fields m) -> dict_get (f_name f) input = Some v ->
  (forall vs, exists e, field_validate f v vs = Fail e) ->
  exists e, validate_model m input = Fail e.
Proof.
  intros. apply validate_model_field_errors.
  eapply validate_fields_field_fails; eauto.
Qed.

Lemma field_validate_type_fails (f : field) (v : pyval) (e : error) :
  v <> PNone -> f_type f v = Fail e ->
  forall vs, exists e', field_validate f v vs = Fail e'.
Proof.
  intros Hv Ht vs. unfold field_validate.
  destruct v; try congruence; rewrite Ht; eauto.
Qed.

(** One refused item makes the list fail. *)
Lemma validate_items_item_fails (item : pyval -> res pyval) (i : nat)
      (xs : list pyval) (x : pyval) (e : error) :
  In x xs -> item x = Fail e -> snd (validate_items item i xs) <> [].
Proof.
  revert i. induction xs as [|y xs IH]; intros i Hin Hx; [destruct Hin|].
  simpl. destruct (validate_items item (S i) xs) as [vs es] eqn:E.
  destruct Hin as [-> | Hin].
  - destruct x; simpl; try discriminate; rewrite Hx; discriminate.
  - specialize (IH (S i) Hin Hx). rewrite E in IH. simpl in IH.
    clear Hx.
    destruct y; simpl; try discriminate;
      match goal with |- context [item ?z] => destruct (item z) end;
      simpl; try discriminate; exact IH.
Qed.

Lemma list_of_item_fails (item : pyval -> res pyval) (xs : list pyval)
      (x : pyval) (e : error) :
  In x xs -> item x = Fail e -> exists e', list_of item (PList xs) = Fail e'.
Proof.
  intros Hin Hx. unfold list_of.
  pose proof (validate_items_item_fails item 0 xs x e Hin Hx) as H.
  destruct (validate_items item 0 xs) as [vs [|e0 es]]; simpl in H; [congruence | eauto].
Qed.

Lemma field_validate_no_validators (f : field) (v : pyval) (vs : dict) :
  f_validators f = [] -> field_validate f v vs = field_validate f v [].
Proof.
  intros H. unfold field_validate. rewrite H. reflexivity.
Qed.

Lemma validate_fields_get_none (fs : list field) (input values : dict)
      (errors : list error) (k : string) :
  ~ In k (map f_name fs) -> dict_get k values = None ->
  dict_get k (fst (validate_fields fs input values errors)) = None.
Proof.
  revert values errors. induction fs as [|g fs IH]; intros values errors Hk Hv; simpl; [exact Hv|].
  simpl in Hk.
  assert (forall x, dict_get k (values ++ [(f_name g, x)]) = None) as Hadd.
  { intros x. rewrite dict_get_app_none by exact Hv. simpl.
    destruct (String.eqb k (f_name g)) eqn:E; [|reflexivity].
    apply String.eqb_eq in E. subst. tauto. }
  destruct (dict_get (f_name g) input) as [x|].
  - destruct (field_validate g x values); apply IH; auto.
  - destruct (f_optional g); apply IH; auto.
Qed.

Lemma validate_fields_get_old (fs : list field) (input values : dict)
      (errors : list error) (k : string) (v : pyval) :
  dict_get k values = Some v ->
  dict_get k (fst (validate_fields fs input values errors)) = Some v.
Proof.
  intros H. destruct (validate_fields_grows fs input values errors) as (vs & es & E).
  rewrite E. simpl. now apply dict_get_app_some.
Qed.

(** What the loop stores for a field without class validators. *)
Lemma validate_fields_get (fs : list field) (input values : dict)
      (errors : list error) (f : field) :
  NoDup (map f_name fs) -> In f fs -> dict_get (f_name f) values = None ->
  f_validators f = [] ->
  dict_get (f_name f) (fst (validate_fields fs input values errors)) =
    match dict_get (f_name f) input with
    | None => if f_optional f then Some PNone else None
    | Some v => match field_validate f v [] with Ok v' => Some v' | Fail _ => None end
    end.
Proof.
  revert values errors. induction fs as [|g fs IH]; intros values errors Hnd Hin Hv Hf;
    [destruct Hin|].
  simpl in Hnd. apply NoDup_cons_iff in Hnd as [Hg Hnd].
  assert (forall x, dict_get (f_name g) (values ++ [(f_name g, x)]) = Some x
                    \/ dict_get (f_name g) values <> None) as _.
  { intros x. destruct (dict_get (f_name g) values) eqn:E; [right; discriminate|].
    left. rewrite dict_get_app_none by exact E. simpl. now rewrite String.eqb_refl. }
  destruct Hin as [-> | Hin].
  - simpl. destruct (dict_get (f_name f) input) as [x|].
    + rewrite (field_validate_no_validators f x values Hf).
      destruct (field_validate f x []) as [x'|e].
      * apply validate_fields_get_old. rewrite dict_get_app_none by exact Hv.
        simpl. now rewrite String.eqb_refl.
      * now apply validate_fields_get_none.
    + destruct (f_optional f).
      * apply validate_fields_get_old. rewrite dict_get_app_none by exact Hv.
        simpl. now rewrite String.eqb_refl.
      * now apply validate_fields_get_none.
  - assert (f_name f <> f_name g) as Hne.
    { intros E. apply Hg. rewrite <- E. now apply in_map. }
    assert (forall x, dict_get (f_name f) (values ++ [(f_name g, x)]) = None) as Hadd.
    { intros x. rewrite dict_get_app_none by exact Hv. simpl.
      destruct (String.eqb (f_name f) (f_name g)) eqn:E; [|reflexivity].
      apply String.eqb_eq in E. contradiction. }
    simpl. destruct (dict_get (f_name g) input) as [x|].
    + destruct (field_validate g x values); apply IH; auto.
    + destruct (f_optional g); apply IH; auto.
Qed.

(* ===================================================================== *)
(** ** Properties of [DublinCore] and of the pipeline                     *)
(* ===================================================================== *)

Definition validation_status (r : report) : option rval := dict_get "validation_status" r.
Definition PASSED : option rval := Some (RStr "PASSED").
Definition FAILED : option rval := Some (RStr "FAILED").

(** The report the wrapper builds from an exception. *)
Definition failure (e : exn) : report :=
  [ ("validation_status", RStr "FAILED");
    ("error", RStr (exn_str e));
    ("error_type", RStr (exn_type e)) ].

Lemma DublinCore_names_NoDup (l : pydantic) :
  NoDup (map f_name (m_fields (DublinCore l))).
Proof.
  simpl. repeat (constructor; [simpl; intuition discriminate|]). constructor.
Qed.

Lemma element_list_In (l : pydantic) (km : string * model) :
  In km (element_models l) -> In (element_list km) (m_fields (DublinCore l)).
Proof. intros H. change (m_fields (DublinCore l)) with (map element_list (element_models l)).
  now apply in_map. Qed.

(** The value stored for an element kind after the field loop. *)
Lemma DublinCore_get (l : pydantic) (km : string * model) (dc : dict) :
  In km (element_models l) ->
  dict_get (fst km) (fst (validate_fields (m_fields (DublinCore l)) dc [] [])) =
    match dict_get (fst km) dc with
    | None => Some PNone
    | Some v => match field_validate (element_list km) v [] with
                | Ok v' => Some v'
                | Fail _ => None
                end
    end.
Proof.
  intros H.
  apply (validate_fields_get (m_fields (DublinCore l)) dc [] [] (element_list km)
           (DublinCore_names_NoDup l) (element_list_In l km H)); reflexivity.
Qed.

(** A validated list of elements is [None] or a list. *)
Definition listish (v : pyval) : Prop := v = PNone \/ exists xs, v = PList xs.

Lemma element_list_listish (km : string * model) (v v' : pyval) :
  field_validate (element_list km) v [] = Ok v' -> listish v'.
Proof.
  unfold field_validate, element_list. simpl.
  destruct v; simpl; try discriminate.
  - intros [= <-]. now left.
  - destruct (validate_items (model_type (snd km)) 0 xs) as [vs [|e es]]; [|discriminate].
    intros [= <-]. right. eauto.
Qed.

(** [DublinCore] only validates with a non-empty list under [kind], for
    the two kinds the root validator asks for. *)
Lemma DublinCore_required (l : pydantic) (dc values : dict) (km : string * model) :
  In km [("title", TitleElement); ("identifier", IdentifierElement)] ->
  validate_model (DublinCore l) dc = Ok values ->
  exists x xs, dict_get (fst km) values = Some (PList (x :: xs)).
Proof.
  intros Hkm H. apply validate_model_Ok_inv in H as (values0 & EF & _ & ER).
  assert (In km (element_models l)) as Hin.
  { simpl in Hkm. simpl. intuition (subst; auto 20). }
  pose proof (DublinCore_get l km dc Hin) as G. rewrite EF in G. cbn [fst] in G.
  assert (forall v, dict_get (fst km) values0 = Some v -> listish v) as Hl.
  { intros v Hv. rewrite Hv in G. destruct (dict_get (fst km) dc) as [x|].
    - destruct (field_validate (element_list km) x []) eqn:E; [|discriminate].
      injection G as ->. eapply element_list_listish; eauto.
    - injection G as ->. now left. }
  simpl in ER. unfold validate_required_elements in ER.
  destruct (dict_get "title" values0) as [t|] eqn:Et; simpl in ER;
    [destruct (truthy t) eqn:Tt; simpl in ER|]; try discriminate.
  destruct (dict_get "identifier" values0) as [i|] eqn:Ei; simpl in ER;
    [destruct (truthy i) eqn:Ti; simpl in ER|]; try discriminate.
  injection ER as <-.
  destruct Hkm as [<- | [<- | []]].
  - destruct (Hl t Et) as [-> | [[|x xs] ->]]; try discriminate.
    exists x, xs. exact Et.
  - destruct (Hl i Ei) as [-> | [[|x xs] ->]]; try discriminate.
    exists x, xs. exact Ei.
Qed.



(** A document whose [dublin_core] does not validate does not validate. *)
Lemma Document_dublin_core_fails (l : pydantic) (top dc : dict) (e : error) :
  dict_get "dublin_core" top = Some (PDict dc) ->
  validate_model (DublinCore l) dc = Fail e ->
  exists e', validate_model (DublinCoreDocument l) top = Fail e'.
Proof.
  intros Hget Hdc.
  apply (validate_model_field_fails (DublinCoreDocument l) top
           (required "dublin_core" (model_type (DublinCore l))) (PDict dc)).
  - simpl. auto.
  - exact Hget.
  - apply field_validate_type_fails with (e := e); [discriminate|].
    simpl. unfold model_type. simpl. now rewrite Hdc.
Qed.

(** What the pipeline returns for a mapping that does not validate. *)
Lemma pipeline_invalid (w : world) (file_path : string) (top : dict) (e : error) :
  fs w (Path w file_path) = Parsed (PDict top) ->
  validate_model (DublinCoreDocument (lib w)) top = Fail e ->
  validate_dublin_core_yaml w file_path =
    failure (Exn "ValueError" ("Validation failed: " ++ display_errors (lib w) e)).
Proof.
  intros Hfs Hv.
  unfold validate_dublin_core_yaml, validation_decorator, validate_dublin_core_yaml_body,
    load_yaml_file.
  rewrite Hfs. simpl. rewrite Hv. reflexivity.
Qed.

(** The report of [create_validation_report], when it returns. *)
Lemma create_validation_report_inv (document : pyval) (r : report) :
  create_validation_report document = Return r ->
  exists dc element_counts am mr,
    getattr document "dublin_core" = Return dc
    /\ traverse (element_count dc) element_kinds = Return element_counts
    /\ getattr document "additional_metadata" = Return am
    /\ getattr document "metadata_record" = Return mr
    /\ r = [ ("validation_status", RStr "PASSED");
             ("total_elements", RInt (sum (map snd element_counts)));
             ("populated_elements",
                RInt (sum (map (fun _ => 1%Z)
                             (filter (fun count => (0 <? count)%Z) (map snd element_counts)))));
             ("completeness_percentage",
                RFloat (float_of_Z
                          (sum (map (fun _ => 1%Z)
                                  (filter (fun count => (0 <? count)%Z)
                                     (map snd element_counts)))) / 15 * 100)%float);
             ("element_counts", RCounts element_counts);
             ("has_additional_metadata", RBool (is_not_None am));
             ("has_metadata_record", RBool (is_not_None mr)) ].
Proof.
  unfold create_validation_report, bind.
  destruct (getattr document "dublin_core") as [dc|] eqn:E1; [|discriminate].
  destruct (traverse (element_count dc) element_kinds) as [ec|] eqn:E2; [|discriminate].
  destruct (getattr document "additional_metadata") as [am|] eqn:E3; [|discriminate].
  destruct (getattr document "metadata_record") as [mr|] eqn:E4; [|discriminate].
  intros [= <-]. exists dc, ec, am, mr. repeat split; auto.
Qed.

(** The report of the pipeline, when its body returns. *)
Lemma body_Return_inv (w : world) (file_path : string) (r : report) :
  validate_dublin_core_yaml_body w file_path = Return r ->
  exists data document r0 size,
    load_yaml_file w (Path w file_path) = Return data
    /\ validate_document (lib w) data = Return document
    /\ create_validation_report document = Return r0
    /\ stat_size w (Path w file_path) = Return size
    /\ r = dict_set "file_size_bytes" (RInt size)
             (dict_set "file_path" (RStr (Path w file_path)) r0).
Proof.
  unfold validate_dublin_core_yaml_body, bind.
  destruct (load_yaml_file w (Path w file_path)) as [data|] eqn:E1; [|discriminate].
  destruct (validate_document (lib w) data) as [document|] eqn:E2; [|discriminate].
  destruct (create_validation_report document) as [r0|] eqn:E3; [|discriminate].
  destruct (stat_size w (Path w file_path)) as [size|] eqn:E4; [|discriminate].
  intros [= <-]. exists data, document, r0, size. repeat split; auto.
Qed.

(** The two keys added by the pipeline leave the other entries alone. *)
Lemma pipeline_keeps (k : string) (size : Z) (path : string) (r0 : report) :
  k <> "file_size_bytes" -> k <> "file_path" ->
  dict_get k (dict_set "file_size_bytes" (RInt size) (dict_set "file_path" (RStr path) r0))
  = dict_get k r0.
Proof.
  intros H1 H2. now rewrite !dict_get_set_other.
Qed.

(** A report whose status is PASSED comes from a body that returned. *)
Lemma PASSED_inv (w : world) (file_path : string) :
  validation_status (validate_dublin_core_yaml w file_path) = PASSED ->
  validate_dublin_core_yaml_body w file_path = Return (validate_dublin_core_yaml w file_path).
Proof.
  unfold validate_dublin_core_yaml, validation_decorator.
  destruct (validate_dublin_core_yaml_body w file_path) as [r|e]; [reflexivity|].
  discriminate.
Qed.

(** C2: the entry point always returns a report whose status is PASSED or
    FAILED; an exception raised by the body, that is by the load, the
    validation, the report or the size step, becomes the FAILED report that
    carries the exception's class name and message. *)
Theorem validate_dublin_core_yaml_never_raises (w : world) (file_path : string) :
  (validation_status (validate_dublin_core_yaml w file_path) = PASSED
   \/ validation_status (validate_dublin_core_yaml w file_path) = FAILED)
  /\ (forall e, validate_dublin_core_yaml_body w file_path = Raise e ->
        validate_dublin_core_yaml w file_path
        = [ ("validation_status", RStr "FAILED");
            ("error", RStr (exn_str e));
            ("error_type", RStr (exn_type e)) ])
  /\ (forall e, load_yaml_file w (Path w file_path) = Raise e ->
        validate_dublin_core_yaml_body w file_path = Raise e)
  /\ (forall data e,
        load_yaml_file w (Path w file_path) = Return data ->
        validate_document (lib w) data = Raise e ->
        validate_dublin_core_yaml_body w file_path = Raise e)
  /\ (forall data document e,
        load_yaml_file w (Path w file_path) = Return data ->
        validate_document (lib w) data = Return document ->
        create_validation_report document = Raise e ->
        validate_dublin_core_yaml_body w file_path = Raise e)
  /\ (forall data document r e,
        load_yaml_file w (Path w file_path) = Return data ->
        validate_document (lib w) data = Return document ->
        create_validation_report document = Return r ->
        stat_size w (Path w file_path) = Raise e ->
        validate_dublin_core_yaml_body w file_path = Raise e).
Proof.
  split; [|split; [|repeat split]].
  - unfold validate_dublin_core_yaml, validation_decorator.
    destruct (validate_dublin_core_yaml_body w file_path) as [r|e] eqn:E.
    + left. apply body_Return_inv in E as (data & document & r0 & size & _ & _ & E & _ & ->).
      apply create_validation_report_inv in E as (dc & ec & am & mr & _ & _ & _ & _ & ->).
      reflexivity.
    + right. reflexivity.
  - intros e E. unfold validate_dublin_core_yaml, validation_decorator. now rewrite E.
  - intros e E. unfold validate_dublin_core_yaml_body. now rewrite E.
  - intros data e E1 E2. unfold validate_dublin_core_yaml_body. rewrite E1. simpl. now rewrite E2.
  - intros data document e E1 E2 E3. unfold validate_dublin_core_yaml_body.
    rewrite E1. simpl. rewrite E2. simpl. now rewrite E3.
  - intros data document r e E1 E2 E3 E4. unfold validate_dublin_core_yaml_body.
    rewrite E1. simpl. rewrite E2. simpl. rewrite E3. simpl. now rewrite E4.
Qed.



(** An item with an unknown key is refused by its model. *)
Lemma model_type_extra (M : model) (inst : dict) (key : string) :
  In key (keys inst) -> mem key (field_names M) = false ->
  exists e, model_type M (PDict inst) = Fail e.
Proof.
  intros H1 H2. destruct (validate_model_extra M inst key H1 H2) as (e & E).
  exists e. unfold model_type. simpl. now rewrite E.
Qed.

(** C6: closed schema.  For each of the 15 element kinds, an instance that
    carries a key outside the field names of its model makes the validation
    of the document it belongs to FAILED. *)
Theorem unknown_field_rejected (w : world) (file_path : string) (top dc : dict)
        (kind : string) (M : model) (items : list pyval) (inst : dict) (key : string) :
  fs w (Path w file_path) = Parsed (PDict top) ->
  dict_get "dublin_core" top = Some (PDict dc) ->
  In (kind, M) (element_models (lib w)) ->
  dict_get kind dc = Some (PList items) ->
  In (PDict inst) items ->
  In key (keys inst) ->
  mem key (field_names M) = false ->
  validation_status (validate_dublin_core_yaml w file_path) = FAILED.
Proof.
  intros Hfs Hdc HM Hkind Hitem Hkey Hextra.
  destruct (model_type_extra M inst key Hkey Hextra) as (e1 & E1).
  destruct (list_of_item_fails (model_type M) items (PDict inst) e1 Hitem E1) as (e2 & E2).
  destruct (validate_model_field_fails (DublinCore (lib w)) dc (element_list (kind, M))
              (PList items) (element_list_In (lib w) (kind, M) HM) Hkind) as (e3 & E3).
  { apply field_validate_type_fails with (e := e2); [discriminate | exact E2]. }
  destruct (Document_dublin_core_fails (lib w) top dc e3 Hdc E3) as (e4 & E4).
  now rewrite (pipeline_invalid w file_path top e4 Hfs E4).
Qed.

(** A valid document but for the key [isbn] on its title. *)
Definition extra_key_yaml : pyval := PDict
  [ ("dublin_core", PDict
      [ ("title", PList [ strs [("value", "A title"); ("isbn", "0-306-40615-2")] ]);
        ("identifier", PList [ strs [("value", "UMDS-2024-001")] ]) ]) ].

Lemma unknown_field_rejected_witness :
  validation_status
    (validate_dublin_core_yaml (sample_world [("extra.yaml", Parsed extra_key_yaml)])
       "extra.yaml") = FAILED.
Proof.
  apply (unknown_field_rejected
           (sample_world [("extra.yaml", Parsed extra_key_yaml)]) "extra.yaml"
           [ ("dublin_core", PDict
               [ ("title", PList [ strs [("value", "A title"); ("isbn", "0-306-40615-2")] ]);
                 ("identifier", PList [ strs [("value", "UMDS-2024-001")] ]) ]) ]
           [ ("title", PList [ strs [("value", "A title"); ("isbn", "0-306-40615-2")] ]);
             ("identifier", PList [ strs [("value", "UMDS-2024-001")] ]) ]
           "title" TitleElement
           [ strs [("value", "A title"); ("isbn", "0-306-40615-2")] ]
           [("value", PStr "A title"); ("isbn", PStr "0-306-40615-2")]
           "isbn").
  - reflexivity.
  - reflexivity.
  - simpl. left. reflexivity.
  - reflexivity.
  - simpl. left. reflexivity.
  - simpl. right. left. reflexivity.
  - reflexivity.
Defined.

(* ===================================================================== *)
(** ** Properties of the report                                            *)
(* ===================================================================== *)

Lemma fold_left_add_shift (zs : list Z) (a : Z) :
  fold_left Z.add zs a = (a + fold_left Z.add zs 0)%Z.
Proof.
  revert a. induction zs as [|z zs IH]; intros a; simpl; [lia|].
  rewrite (IH (a + z)%Z), (IH z). lia.
Qed.

Lemma sum_cons (z : Z) (zs : list Z) : sum (z :: zs) = (z + sum zs)%Z.
Proof. unfold sum. simpl. apply fold_left_add_shift. Qed.

Lemma sum_nonneg (zs : list Z) : Forall (fun z => 0 <= z)%Z zs -> (0 <= sum zs)%Z.
Proof.
  induction 1 as [|z zs Hz _ IH]; [unfold sum; simpl; lia|].
  rewrite sum_cons. lia.
Qed.

(** The number of populated kinds among a list of counts. *)
Definition populated (counts : list Z) : Z :=
  sum (map (fun _ => 1%Z) (filter (fun count => (0 <? count)%Z) counts)).

Lemma populated_cons (z : Z) (zs : list Z) :
  populated (z :: zs) = ((if (0 <? z)%Z then 1 else 0) + populated zs)%Z.
Proof.
  unfold populated. simpl. destruct (0 <? z)%Z; simpl; [apply sum_cons | lia].
Qed.

Lemma populated_bounds (zs : list Z) :
  (0 <= populated zs <= Z.of_nat (List.length zs))%Z.
Proof.
  induction zs as [|z zs IH]; [unfold populated, sum; simpl; lia|].
  rewrite populated_cons. simpl List.length. destruct (0 <? z)%Z; lia.
Qed.

Lemma populated_length (zs : list Z) :
  populated zs = Z.of_nat (List.length (filter (fun count => (0 <? count)%Z) zs)).
Proof.
  induction zs as [|z zs IH]; [reflexivity|].
  rewrite populated_cons. simpl. destruct (0 <? z)%Z; simpl List.length; lia.
Qed.

Lemma traverse_Forall2 (A B : Type) (f : A -> exc B) (xs : list A) (ys : list B) :
  traverse f xs = Return ys -> Forall2 (fun x y => f x = Return y) xs ys.
Proof.
  revert ys. induction xs as [|x xs IH]; intros ys; simpl.
  - intros [= <-]. constructor.
  - unfold bind. destruct (f x) as [y|] eqn:E; [|discriminate].
    destruct (traverse f xs) as [ys'|]; [|discriminate].
    intros [= <-]. constructor; auto.
Qed.

Lemma len_nonneg (v : pyval) (n : Z) : len v = Return n -> (0 <= n)%Z.
Proof. destruct v; simpl; intros [= <-]; lia. Qed.

(** One entry of [element_counts]. *)
Definition counts_kind (dc : pyval) (kind : string) (entry : string * Z) : Prop :=
  exists elements,
    getattr dc kind = Return elements
    /\ len (py_or elements (PList [])) = Return (snd entry)
    /\ fst entry = kind.

Lemma element_count_inv (dc : pyval) (kind : string) (entry : string * Z) :
  element_count dc kind = Return entry -> counts_kind dc kind entry.
Proof.
  unfold element_count, bind, counts_kind.
  destruct (getattr dc kind) as [elements|]; [|discriminate].
  destruct (len (py_or elements (PList []))) as [n|] eqn:E; [|discriminate].
  intros [= <-]. exists elements. auto.
Qed.

Lemma counts_Forall2 (dc : pyval) (kinds : list string) (ec : list (string * Z)) :
  traverse (element_count dc) kinds = Return ec ->
  Forall2 (counts_kind dc) kinds ec.
Proof.
  intros H. apply traverse_Forall2 in H.
  induction H; constructor; auto using element_count_inv.
Qed.

Lemma counts_keys (dc : pyval) (kinds : list string) (ec : list (string * Z)) :
  Forall2 (counts_kind dc) kinds ec -> map fst ec = kinds.
Proof.
  induction 1 as [|k kc ks ec (el & _ & _ & E) _ IH]; simpl; congruence.
Qed.

Lemma counts_nonneg (dc : pyval) (kinds : list string) (ec : list (string * Z)) :
  Forall2 (counts_kind dc) kinds ec -> Forall (fun z => 0 <= z)%Z (map snd ec).
Proof.
  induction 1 as [|k kc ks ec (el & _ & L & _) _ IH]; simpl; constructor; auto.
  eapply len_nonneg; eauto.
Qed.

(** Looking a kind up in [element_counts] gives its own entry. *)
Lemma counts_get (dc : pyval) (kinds : list string) (ec : list (string * Z)) (kind : string) :
  Forall2 (counts_kind dc) kinds ec -> In kind kinds ->
  exists n, dict_get kind ec = Some n /\ counts_kind dc kind (kind, n).
Proof.
  induction 1 as [|k [k' n] ks ec Hk _ IH]; intros Hin; [destruct Hin|].
  pose proof Hk as (el & G & L & E). simpl in E. subst k'.
  simpl. destruct (String.eqb kind k) eqn:Ek.
  - apply String.eqb_eq in Ek. subst k. exists n. split; [reflexivity|].
    exists el. auto.
  - destruct Hin as [-> | Hin]; [now rewrite String.eqb_refl in Ek | auto].
Qed.

(** [dc.kind] is [None] or an empty list. *)
Definition no_instance (dc : pyval) (kind : string) : Prop :=
  getattr dc kind = Return PNone \/ getattr dc kind = Return (PList []).

Lemma counts_no_instance (dc : pyval) (kind : string) (n : Z) :
  counts_kind dc kind (kind, n) -> no_instance dc kind -> n = 0%Z.
Proof.
  intros (el & G & L & _) [H | H]; rewrite H in G; injection G as <-;
    simpl in L; now injection L.
Qed.

Lemma counts_all_zero (dc : pyval) (kinds : list string) (ec : list (string * Z)) :
  Forall2 (counts_kind dc) kinds ec ->
  (forall kind, In kind kinds -> no_instance dc kind) ->
  ec = map (fun kind => (kind, 0%Z)) kinds.
Proof.
  induction 1 as [|k [k' n] ks ec Hk _ IH]; intros Hall; [reflexivity|].
  pose proof Hk as (el & _ & _ & E). simpl in E. subst k'.
  simpl. rewrite (counts_no_instance dc k n Hk (Hall k (or_introl eq_refl))).
  f_equal. apply IH. intros kind Hin. apply Hall. now right.
Qed.

Lemma element_kinds_length : List.length element_kinds = 15%nat.
Proof. reflexivity. Qed.

(** A document whose first [n] kinds hold one (empty) instance each. *)
Definition document_with (n : nat) : pyval := PDict
  [ ("dublin_core",
       PDict (map (fun ik => (snd ik, if (fst ik <? n)%nat then PList [PDict []] else PNone))
                  (combine (seq 0 15) element_kinds)));
    ("additional_metadata", PNone);
    ("metadata_record", PNone) ].

(** C7: in every report that [create_validation_report] returns, and so in
    every PASSED report of the pipeline, the completeness is
    [(populated_elements / 15) * 100] in floating point, where
    [populated_elements] counts the entries of [element_counts] that are
    positive, one entry [len(dc.kind or [])] for each of the 15 kinds; it
    lies between 0 and 15, and each of these values is attained. *)
Theorem completeness_formula :
  (forall document r, create_validation_report document = Return r ->
     exists dc ec p,
       getattr document "dublin_core" = Return dc
       /\ Forall2 (counts_kind dc) element_kinds ec
       /\ dict_get "element_counts" r = Some (RCounts ec)
       /\ dict_get "populated_elements" r = Some (RInt p)
       /\ p = Z.of_nat (List.length (filter (fun count => (0 <? count)%Z) (map snd ec)))
       /\ (0 <= p <= 15)%Z
       /\ dict_get "completeness_percentage" r
          = Some (RFloat (float_of_Z p / 15 * 100)%float))
  /\ (forall w file_path,
        validation_status (validate_dublin_core_yaml w file_path) = PASSED ->
        exists p,
          dict_get "populated_elements" (validate_dublin_core_yaml w file_path)
          = Some (RInt p)
          /\ (0 <= p <= 15)%Z
          /\ dict_get "completeness_percentage" (validate_dublin_core_yaml w file_path)
             = Some (RFloat (float_of_Z p / 15 * 100)%float))
  /\ (forall n, (n <= 15)%nat ->
        exists r,
          create_validation_report (document_with n) = Return r
          /\ dict_get "populated_elements" r = Some (RInt (Z.of_nat n))
          /\ dict_get "completeness_percentage" r
             = Some (RFloat (float_of_Z (Z.of_nat n) / 15 * 100)%float)).
Proof.
  assert (forall document r, create_validation_report document = Return r ->
     exists dc ec p,
       getattr document "dublin_core" = Return dc
       /\ Forall2 (counts_kind dc) element_kinds ec
       /\ dict_get "element_counts" r = Some (RCounts ec)
       /\ dict_get "populated_elements" r = Some (RInt p)
       /\ p = Z.of_nat (List.length (filter (fun count => (0 <? count)%Z) (map snd ec)))
       /\ (0 <= p <= 15)%Z
       /\ dict_get "completeness_percentage" r
          = Some (RFloat (float_of_Z p / 15 * 100)%float)) as Hcreate.
  { intros document r H.
    apply create_validation_report_inv in H as (dc & ec & am & mr & Hdc & Hec & _ & _ & ->).
    apply counts_Forall2 in Hec.
    exists dc, ec, (populated (map snd ec)).
    repeat split; auto.
    - apply populated_length.
    - apply populated_bounds.
    - pose proof (populated_bounds (map snd ec)) as B.
      rewrite length_map, <- (Forall2_length Hec), element_kinds_length in B. lia. }
  split; [exact Hcreate | split].
  - intros w file_path H. apply PASSED_inv in H.
    apply body_Return_inv in H as (data & document & r0 & size & _ & _ & Hr0 & _ & ->).
    destruct (Hcreate document r0 Hr0) as (dc & ec & p & _ & _ & _ & Hp & _ & Hb & Hc).
    exists p. rewrite !pipeline_keeps by discriminate. auto.
  - intros n Hn.
    do 16 (destruct n as [|n];
           [eexists; split; [vm_compute; reflexivity | split; vm_compute; reflexivity]|]).
    lia.
Qed.

(** C8: the [element_counts] of a report holds exactly the 15 kinds, each
    with a count that is not negative and that is 0 for a kind without an
    instance; when no kind has an instance all counts, the total and the
    populated number are 0 and the completeness is 0.0. *)
Theorem element_counts_all_kinds :
  (forall document r, create_validation_report document = Return r ->
     exists dc ec,
       getattr document "dublin_core" = Return dc
       /\ dict_get "element_counts" r = Some (RCounts ec)
       /\ map fst ec = element_kinds
       /\ (forall kind, In kind element_kinds ->
             exists n, dict_get kind ec = Some n /\ (0 <= n)%Z
                       /\ (no_instance dc kind -> n = 0%Z))
       /\ ((forall kind, In kind element_kinds -> no_instance dc kind) ->
             ec = map (fun kind => (kind, 0%Z)) element_kinds
             /\ dict_get "populated_elements" r = Some (RInt 0)
             /\ dict_get "total_elements" r = Some (RInt 0)
             /\ dict_get "completeness_percentage" r = Some (RFloat 0%float)))
  /\ (forall w file_path,
        validation_status (validate_dublin_core_yaml w file_path) = PASSED ->
        exists ec,
          dict_get "element_counts" (validate_dublin_core_yaml w file_path)
          = Some (RCounts ec)
          /\ map fst ec = element_kinds
          /\ Forall (fun n => 0 <= n)%Z (map snd ec)).
Proof.
  split.
  - intros document r H.
    apply create_validation_report_inv in H as (dc & ec & am & mr & Hdc & Hec & _ & _ & ->).
    apply counts_Forall2 in Hec.
    exists dc, ec. repeat split; auto.
    + now apply counts_keys with (dc := dc).
    + intros kind Hin. destruct (counts_get dc element_kinds ec kind Hec Hin) as (n & G & C).
      exists n. repeat split; auto.
      * destruct C as (el & _ & L & _). eapply len_nonneg; eauto.
      * now apply counts_no_instance.
    + now apply counts_all_zero with (dc := dc).
    + rewrite (counts_all_zero dc element_kinds ec Hec H). reflexivity.
    + rewrite (counts_all_zero dc element_kinds ec Hec H). reflexivity.
    + rewrite (counts_all_zero dc element_kinds ec Hec H). reflexivity.
  - intros w file_path H. apply PASSED_inv in H.
    apply body_Return_inv in H as (data & document & r0 & size & _ & _ & Hr0 & _ & ->).
    apply create_validation_report_inv in Hr0 as (dc & ec & am & mr & _ & Hec & _ & _ & ->).
    apply counts_Forall2 in Hec.
    exists ec. rewrite pipeline_keeps by discriminate. repeat split.
    + now apply counts_keys with (dc := dc).
    + now apply counts_nonneg with (dc := dc) (kinds := element_kinds).
Qed.

Lemma validate_fields_cons (f : field) (fs : list field) (input values : dict)
      (errors : list error) :
  validate_fields (f :: fs) input values errors =
    match dict_get (f_name f) input with
    | None =>
        if f_optional f
        then validate_fields fs input (values ++ [(f_name f, PNone)]) errors
        else validate_fields fs input values
               (errors ++ [At (f_name f) (Err "field required")])
    | Some v =>
        match field_validate f v values with
        | Ok v' => validate_fields fs input (values ++ [(f_name f, v')]) errors
        | Fail e => validate_fields fs input values (errors ++ [At (f_name f) e])
        end
    end.
Proof. reflexivity. Qed.

(** A validated document: its [dublin_core] attribute is a validated
    [DublinCore]. *)
Lemma validate_document_inv (l : pydantic) (data document : pyval) :
  validate_document l data = Return document ->
  exists top values v dc dcvalues,
    data = PDict top /\ document = PDict values
    /\ validate_model (DublinCoreDocument l) top = Ok values
    /\ dict_get "dublin_core" top = Some v
    /\ as_kwargs v = Some dc
    /\ validate_model (DublinCore l) dc = Ok dcvalues
    /\ dict_get "dublin_core" values = Some (PDict dcvalues).
Proof.
  unfold validate_document. destruct data as [| | | | | | |top|]; try discriminate.
  destruct (validate_model (DublinCoreDocument l) top) as [values|e] eqn:E; [|discriminate].
  intros [= <-]. pose proof E as E0.
  apply validate_model_Ok_inv in E as (values0 & EF & _ & ER).
  simpl in ER. injection ER as ->.
  change (m_fields (DublinCoreDocument l))
    with (required "dublin_core" (model_type (DublinCore l))
          :: [ optional "additional_metadata" (model_type AdditionalMetadata);
               optional "metadata_record" (model_type MetadataRecord) ]) in EF.
  rewrite validate_fields_cons in EF. cbn [f_name f_optional required] in EF.
  set (rest := [ optional "additional_metadata" (model_type AdditionalMetadata);
                 optional "metadata_record" (model_type MetadataRecord) ]) in EF.
  destruct (dict_get "dublin_core" top) as [v|] eqn:Ev.
  - destruct (field_validate (required "dublin_core" (model_type (DublinCore l))) v [])
      as [v'|e] eqn:Ef.
    + unfold field_validate in Ef. cbn [f_optional f_type f_validators required] in Ef.
      assert (model_type (DublinCore l) v = Ok v') as Em.
      { destruct v; try discriminate;
          destruct (model_type (DublinCore l) _); simpl in Ef; congruence. }
      unfold model_type in Em.
      destruct (as_kwargs v) as [dc|] eqn:Ek; [|discriminate].
      destruct (validate_model (DublinCore l) dc) as [dcvalues|] eqn:Edc; [|discriminate].
      injection Em as <-.
      exists top, values, v, dc, dcvalues. repeat split; auto.
      pose proof (validate_fields_get_old rest top ([] ++ [("dublin_core", PDict dcvalues)]) []
                    "dublin_core" (PDict dcvalues) eq_refl) as G.
      now rewrite EF in G.
    + pose proof (validate_fields_errors_kept rest top [] ([] ++ [At "dublin_core" e])) as K.
      rewrite EF in K. now elim K.
  - pose proof (validate_fields_errors_kept rest top []
                  ([] ++ [At "dublin_core" (Err "field required")])) as K.
    rewrite EF in K. now elim K.
Qed.

(** What C10 says of a report. *)
Definition counts_title_and_identifier (r : report) : Prop :=
  exists ec titles identifiers populated_elements total_elements completeness,
    dict_get "element_counts" r = Some (RCounts ec)
    /\ dict_get "title" ec = Some titles /\ (1 <= titles)%Z
    /\ dict_get "identifier" ec = Some identifiers /\ (1 <= identifiers)%Z
    /\ dict_get "populated_elements" r = Some (RInt populated_elements)
    /\ (2 <= populated_elements)%Z
    /\ dict_get "total_elements" r = Some (RInt total_elements)
    /\ (2 <= total_elements)%Z
    /\ dict_get "completeness_percentage" r = Some (RFloat completeness)
    /\ PrimFloat.leb (2 / 15 * 100)%float completeness = true.

(** C10: a PASSED report counts at least one title and one identifier, so
    at least two populated kinds and two elements, and its completeness is
    at least [(2 / 15) * 100]. *)
Theorem passed_has_title_and_identifier (w : world) (file_path : string) :
  validation_status (validate_dublin_core_yaml w file_path) = PASSED ->
  counts_title_and_identifier (validate_dublin_core_yaml w file_path).
Proof.
  intros H. unfold counts_title_and_identifier. apply PASSED_inv in H.
  apply body_Return_inv in H as (data & document & r0 & size & _ & Hdoc & Hr0 & _ & ->).
  apply validate_document_inv in Hdoc
    as (top & values & v & dc & dcvalues & -> & -> & _ & _ & _ & Hdc & Hget).
  apply create_validation_report_inv in Hr0 as (dc' & ec & am & mr & Hdc' & Hec & _ & _ & ->).
  simpl in Hdc'. rewrite Hget in Hdc'. injection Hdc' as <-.
  apply counts_Forall2 in Hec.
  destruct (DublinCore_required (lib w) dc dcvalues ("title", TitleElement)
              (or_introl eq_refl) Hdc) as (t & ts & Ht).
  destruct (DublinCore_required (lib w) dc dcvalues ("identifier", IdentifierElement)
              (or_intror (or_introl eq_refl)) Hdc) as (i & ids & Hi).
  cbn [fst] in Ht, Hi.
  pose proof (counts_nonneg _ _ _ Hec) as Hnn.
  pose proof (counts_keys _ _ _ Hec) as Hkeys.
  assert (forall kind x xs, dict_get kind dcvalues = Some (PList (x :: xs)) ->
            forall n, counts_kind (PDict dcvalues) kind (kind, n) -> (1 <= n)%Z) as Hpos.
  { intros kind x xs G n (el & G' & L & _). simpl in G'. rewrite G in G'.
    injection G' as <-. simpl in L. injection L as <-. lia. }
  do 16 (destruct ec as [|[? ?] ec]; try discriminate Hkeys).
  simpl in Hkeys. injection Hkeys as -> -> -> -> -> -> -> -> -> -> -> -> -> -> ->.
  cbn [map snd] in Hnn.
  repeat match goal with H : Forall2 _ _ _ |- _ => inversion H; clear H; subst end.
  repeat match goal with H : Forall _ (_ :: _) |- _ => inversion H; clear H; subst end.
  match goal with H : counts_kind _ "title" (_, ?n) |- _ =>
    pose proof (Hpos _ _ _ Ht _ H) end.
  match goal with H : counts_kind _ "identifier" (_, ?n) |- _ =>
    pose proof (Hpos _ _ _ Hi _ H) end.
  rewrite !pipeline_keeps by discriminate.
  cbn [map snd].
  match goal with |- context [RInt (sum (map (fun _ => 1%Z) (filter _ ?L)))] =>
    fold (populated L);
    assert (2 <= populated L <= 15)%Z as Hp;
    [| assert (2 <= sum L)%Z as Hs; [| set (p := populated L) in * ] ]
  end.
  - rewrite !populated_cons.
    repeat match goal with |- context [if (0 <? ?n)%Z then 1%Z else 0%Z] =>
      let c := fresh "c" in
      set (c := if (0 <? n)%Z then 1%Z else 0%Z);
      first
        [ assert (c = 1%Z)
            by (subst c; replace (0 <? n)%Z with true;
                [reflexivity | symmetry; apply Z.ltb_lt; assumption || lia])
        | assert (0 <= c <= 1)%Z by (subst c; destruct (0 <? n)%Z; lia) ];
      clearbody c
    end.
    unfold populated, sum. simpl. lia.
  - rewrite !sum_cons. unfold sum. simpl. lia.
  - do 6 eexists. cbn [dict_get String.eqb Ascii.eqb Bool.eqb].
    split; [reflexivity|]. split; [reflexivity|]. split; [eassumption|].
    split; [reflexivity|]. split; [eassumption|].
    split; [reflexivity|]. split; [lia|]. split; [reflexivity|].
    split; [exact Hs|]. split; [reflexivity|].
    assert (p = 2 \/ p = 3 \/ p = 4 \/ p = 5 \/ p = 6 \/ p = 7 \/ p = 8 \/ p = 9
            \/ p = 10 \/ p = 11 \/ p = 12 \/ p = 13 \/ p = 14 \/ p = 15)%Z as Hcases by lia.
    clearbody p.
    repeat (destruct Hcases as [-> | Hcases]; [vm_compute; reflexivity|]).
    subst p. vm_compute. reflexivity.
Qed.

Lemma passed_has_title_and_identifier_witness :
  counts_title_and_identifier
    (validate_dublin_core_yaml (sample_world [("example.yaml", Parsed example_yaml)])
       "example.yaml").
Proof.
  apply (passed_has_title_and_identifier
           (sample_world [("example.yaml", Parsed example_yaml)]) "example.yaml").
  vm_compute. reflexivity.
Defined.

(* ===================================================================== *)
(** ** The shape of an ORCID                                               *)
(* ===================================================================== *)

(** The shape [0000-000[1-3]-DDDD-DDD[DX]], position by position; [D] is
    what [\d] matches. *)
Definition orcid_shape : list cclass :=
  [ Lit "0"; Lit "0"; Lit "0"; Lit "0"; Lit "-";
    Lit "0"; Lit "0"; Lit "0"; Range "1" "3"; Lit "-";
    Digit; Digit; Digit; Digit; Lit "-";
    Digit; Digit; Digit; Union Digit (Lit "X") ].

(* ===================================================================== *)
(** ** Cross-field rules                                                   *)
(* ===================================================================== *)

(** A document that is valid but for its DOI. *)
Definition bad_doi_yaml : pyval := PDict
  [ ("dublin_core", PDict
      [ ("title", PList [ strs [("value", "A title")] ]);
        ("identifier", PList [ strs [("value", "not-a-doi"); ("type", "DOI")] ]) ]) ].

(** C4 at a failing input: the class validator refuses ["not-a-doi"] when
    it is handed a [type] of [DOI], but the document that holds this
    identifier is PASSED: [value] is validated before [type], so the
    validator never sees the type. *)
Lemma identifier_type_not_checked :
  validate_doi "not-a-doi" = false
  /\ validate_identifier_format (PStr "not-a-doi") [("type", PStr "DOI")]
     = Fail (Err "Invalid DOI format")
  /\ validate_model IdentifierElement [("value", PStr "not-a-doi"); ("type", PStr "DOI")]
     = Ok [("value", PStr "not-a-doi"); ("type", PStr "DOI"); ("scheme", PNone);
           ("note", PNone)]
  /\ validation_status
       (validate_dublin_core_yaml (sample_world [("bad_doi.yaml", Parsed bad_doi_yaml)])
          "bad_doi.yaml") = PASSED.
Proof. repeat split; vm_compute; reflexivity. Qed.

Definition is_ok (A : Type) (r : res A) : bool :=
  match r with Ok _ => true | Fail _ => false end.

Lemma validate_model_is_ok (m : model) (input : dict) :
  m_root m = [] ->
  is_ok _ (validate_model m input) =
    match snd (validate_fields (m_fields m) input [] [])
          ++ map (fun k => At k (Err "extra fields not permitted")) (extra_keys m input)
    with [] => true | _ => false end.
Proof.
  intros H. unfold validate_model. rewrite H.
  destruct (validate_fields (m_fields m) input [] []) as [values errors]. simpl.
  destruct (errors ++ _); reflexivity.
Qed.

(** Without class validators the errors of the loop depend on the input
    only through the values of the fields. *)
Lemma validate_fields_errors_indep (fs : list field) (input input' values values' : dict)
      (errors : list error) :
  (forall f, In f fs -> f_validators f = []) ->
  (forall f, In f fs -> dict_get (f_name f) input = dict_get (f_name f) input') ->
  snd (validate_fields fs input values errors)
  = snd (validate_fields fs input' values' errors).
Proof.
  revert values values' errors. induction fs as [|f fs IH]; intros values values' errors Hv Hg;
    [reflexivity|].
  simpl. rewrite <- (Hg f (or_introl eq_refl)).
  assert (forall f, In f fs -> f_validators f = []) as Hv' by (intros; apply Hv; now right).
  assert (forall f, In f fs -> dict_get (f_name f) input = dict_get (f_name f) input') as Hg'
      by (intros; apply Hg; now right).
  destruct (dict_get (f_name f) input) as [x|].
  - rewrite (field_validate_no_validators f x values (Hv f (or_introl eq_refl))).
    rewrite (field_validate_no_validators f x values' (Hv f (or_introl eq_refl))).
    destruct (field_validate f x []); auto.
  - destruct (f_optional f); auto.
Qed.

Lemma keys_dict_set (A : Type) (k : string) (v v' : A) (d : list (string * A)) :
  keys (dict_set k v d) = keys (dict_set k v' d).
Proof.
  unfold keys. induction d as [|[k0 x] d IH]; simpl; [reflexivity|].
  destruct (String.eqb k k0); simpl; [reflexivity | now rewrite IH].
Qed.

(** The value of a date is accepted whatever it is, once it is not empty:
    at that point no other field has been validated. *)
Lemma date_value_accepted (v : string) :
  (1 <= String.length v)%nat ->
  field_validate (Field "value" false (constr (Some 1) None None) [validate_date_format])
    (PStr v) [] = Ok (PStr v).
Proof.
  intros H. unfold field_validate, constr. simpl.
  replace (String.length v <? 1)%nat with false; [reflexivity|].
  symmetry. apply Nat.ltb_ge. exact H.
Qed.

(** C3, as stated, fails: the instance with the value ["2024-13-40"] and
    the scheme [W3CDTF] validates. *)
Lemma date_cross_field_counterexample :
  validate_model DateElement [("value", PStr "2024-13-40"); ("scheme", PStr "W3CDTF")]
  = Ok [("value", PStr "2024-13-40"); ("type", PNone); ("scheme", PStr "W3CDTF");
        ("note", PNone)].
Proof. vm_compute. reflexivity. Qed.

(** C3, amended: the class validator returns the value unchanged when the
    scheme it is handed is absent or not [W3CDTF]; for an instance whose
    scheme is absent or not [W3CDTF], whether it validates does not depend
    on what the (non-empty) value is; the date validator checks digits and
    separators only and accepts ["2024-13-40"], and that value validates
    with the scheme [W3CDTF] as well as with the scheme [local]. *)
Theorem date_format_skipped_without_W3CDTF :
  (forall v values, eq_str (dict_get "scheme" values) "W3CDTF" = false ->
     validate_date_format v values = Ok v)
  /\ (forall inst v v',
        eq_str (dict_get "scheme" inst) "W3CDTF" = false ->
        (1 <= String.length v)%nat -> (1 <= String.length v')%nat ->
        is_ok _ (validate_model DateElement (dict_set "value" (PStr v) inst))
        = is_ok _ (validate_model DateElement (dict_set "value" (PStr v') inst)))
  /\ validate_iso8601_date "2024-13-40" = true
  /\ is_ok _ (validate_model DateElement
                [("value", PStr "2024-13-40"); ("scheme", PStr "W3CDTF")]) = true
  /\ is_ok _ (validate_model DateElement
                [("value", PStr "2024-13-40"); ("scheme", PStr "local")]) = true.
Proof.
  split; [|split; [|repeat split; vm_compute; reflexivity]].
  - intros v values H. unfold validate_date_format. now rewrite H.
  - intros inst v v' _ Hv Hv'.
    rewrite !validate_model_is_ok by reflexivity.
    unfold extra_keys. rewrite (keys_dict_set pyval "value" (PStr v) (PStr v') inst).
    change (m_fields DateElement)
      with (Field "value" false (constr (Some 1) None None) [validate_date_format]
            :: [ optional "type" (one_of ["created"; "valid"; "available"; "issued";
                                          "modified"; "submitted"; "accepted";
                                          "copyrighted"; "collected"; "published";
                                          "temporal_coverage"]);
                 optional "scheme" (enum DateScheme);
                 optional "note" (max_length 200) ]).
    rewrite !validate_fields_cons. cbn [f_name].
    rewrite !dict_get_set_same, (date_value_accepted v Hv), (date_value_accepted v' Hv').
    match goal with
    | |- context [validate_fields ?fs (dict_set "value" (PStr v) inst) ?vals ?errs] =>
        rewrite (validate_fields_errors_indep fs
                   (dict_set "value" (PStr v) inst) (dict_set "value" (PStr v') inst)
                   vals ([] ++ [("value", PStr v')]) errs)
    end.
    + reflexivity.
    + intros f [<- | [<- | [<- | []]]]; reflexivity.
    + intros f [<- | [<- | [<- | []]]]; cbn [f_name optional];
        rewrite !dict_get_set_other by discriminate; reflexivity.
Qed.

(* ===================================================================== *)
(** ** The example document                                                *)
(* ===================================================================== *)

(** The report of the example: 13 of the 15 kinds are populated (there is
    no [source] and no [relation]). *)
Definition example_report (path : string) (size : Z) : report :=
  [ ("validation_status", RStr "PASSED");
    ("total_elements", RInt 24);
    ("populated_elements", RInt 13);
    ("completeness_percentage", RFloat (13 / 15 * 100)%float);
    ("element_counts", RCounts
       [ ("title", 2%Z); ("creator", 2%Z); ("subject", 4%Z); ("description", 1%Z);
         ("publisher", 1%Z); ("contributor", 2%Z); ("date", 3%Z); ("type", 1%Z);
         ("format", 2%Z); ("identifier", 2%Z); ("source", 0%Z); ("language", 1%Z);
         ("relation", 0%Z); ("coverage", 2%Z); ("rights", 1%Z) ]);
    ("has_additional_metadata", RBool true);
    ("has_metadata_record", RBool true);
    ("file_path", RStr path);
    ("file_size_bytes", RInt size) ].

Lemma example_report_without_file (l : pydantic) :
  example_urls_accepted l ->
  bind (validate_document l example_yaml) create_validation_report
  = Return [ ("validation_status", RStr "PASSED");
             ("total_elements", RInt 24);
             ("populated_elements", RInt 13);
             ("completeness_percentage", RFloat (13 / 15 * 100)%float);
             ("element_counts", RCounts
                [ ("title", 2%Z); ("creator", 2%Z); ("subject", 4%Z); ("description", 1%Z);
                  ("publisher", 1%Z); ("contributor", 2%Z); ("date", 3%Z); ("type", 1%Z);
                  ("format", 2%Z); ("identifier", 2%Z); ("source", 0%Z); ("language", 1%Z);
                  ("relation", 0%Z); ("coverage", 2%Z); ("rights", 1%Z) ]);
             ("has_additional_metadata", RBool true);
             ("has_metadata_record", RBool true) ].
Proof.
  destruct l as [any http disp]. unfold example_urls_accepted. simpl.
  intros [H1 H2]. vm_compute in H1, H2. vm_compute.
  match type of H1 with ?x = _ =>
    revert H1; destruct x; intros H1; [|discriminate H1] end.
  vm_compute.
  match type of H2 with ?x = _ =>
    revert H2; destruct x; intros H2; [|discriminate H2] end.
  vm_compute. reflexivity.
Qed.

Lemma example_document_report (l : pydantic) :
  example_urls_accepted l ->
  exists document,
    validate_document l example_yaml = Return document
    /\ create_validation_report document
       = Return [ ("validation_status", RStr "PASSED");
                  ("total_elements", RInt 24);
                  ("populated_elements", RInt 13);
                  ("completeness_percentage", RFloat (13 / 15 * 100)%float);
                  ("element_counts", RCounts
                     [ ("title", 2%Z); ("creator", 2%Z); ("subject", 4%Z);
                       ("description", 1%Z); ("publisher", 1%Z); ("contributor", 2%Z);
                       ("date", 3%Z); ("type", 1%Z); ("format", 2%Z);
                       ("identifier", 2%Z); ("source", 0%Z); ("language", 1%Z);
                       ("relation", 0%Z); ("coverage", 2%Z); ("rights", 1%Z) ]);
                  ("has_additional_metadata", RBool true);
                  ("has_metadata_record", RBool true) ].
Proof.
  intros H. pose proof (example_report_without_file l H) as E.
  destruct (validate_document l example_yaml) as [document|e]; [|discriminate E].
  exists document. split; [reflexivity | exact E].
Qed.

(** C5, as stated, fails: the example validates, but with 13 populated
    kinds and a completeness below 100. *)
Lemma example_counterexample :
  let r := validate_dublin_core_yaml
             (sample_world [("example.yaml", Parsed example_yaml)]) "example.yaml" in
  validation_status r = PASSED
  /\ dict_get "populated_elements" r = Some (RInt 13)
  /\ dict_get "completeness_percentage" r = Some (RFloat (13 / 15 * 100)%float)
  /\ PrimFloat.eqb (13 / 15 * 100)%float 100%float = false.
Proof.
  cbv zeta. split; [|split; [|split]]; vm_compute; reflexivity.
Qed.

(** C5, amended: wherever the two URLs of the example are accepted by the
    URL types, the example validates to a PASSED report with 13 populated
    kinds, a completeness of [(13 / 15) * 100], 24 elements and both
    side-records present. *)
Theorem example_validates (w : world) (file_path : string) (size : Z) :
  fs w (Path w file_path) = Parsed example_yaml ->
  example_urls_accepted (lib w) ->
  stat_size w (Path w file_path) = Return size ->
  validate_dublin_core_yaml w file_path = example_report (Path w file_path) size.
Proof.
  intros Hfs Hurls Hsize.
  destruct (example_document_report (lib w) Hurls) as (document & Hd & Hr).
  unfold validate_dublin_core_yaml, validation_decorator, validate_dublin_core_yaml_body,
    load_yaml_file.
  rewrite Hfs. cbn [bind]. rewrite Hd. cbn [bind]. rewrite Hr. cbn [bind].
  rewrite Hsize. reflexivity.
Qed.

Lemma example_validates_witness :
  validate_dublin_core_yaml (sample_world [("example.yaml", Parsed example_yaml)])
    "example.yaml" = example_report "example.yaml" 4096.
Proof.
  apply (example_validates (sample_world [("example.yaml", Parsed example_yaml)])
           "example.yaml" 4096).
  - reflexivity.
  - split; vm_compute; reflexivity.
  - reflexivity.
Defined.

(* ===================================================================== *)
(** ** Shapes: the characters a pattern asks for, place by place          *)
(* ===================================================================== *)

(** [s] has exactly the characters a shape asks for ([ic]: ignoring case). *)
Fixpoint fits (ic : bool) (shape : list cclass) (s : string) : bool :=
  match shape, s with
  | [], EmptyString => true
  | cl :: shape', String c s' => if cmem ic cl c then fits ic shape' s' else false
  | _, _ => false
  end.

(** The same, where the end may also be a single line feed. *)
Fixpoint fits_eol (ic : bool) (shape : list cclass) (s : string) : bool :=
  match shape, s with
  | [], EmptyString => true
  | [], String c EmptyString => Ascii.eqb c LF
  | cl :: shape', String c s' => if cmem ic cl c then fits_eol ic shape' s' else false
  | _, _ => false
  end.

(** [s] fits the shape, or is such a string followed by one line feed. *)
Definition fits_or_newline (ic : bool) (shape : list cclass) (s : string) : Prop :=
  fits ic shape s = true
  \/ exists s0, s = (s0 ++ String LF EmptyString)%string /\ fits ic shape s0 = true.

Lemma fits_eol_spec (ic : bool) (shape : list cclass) (s : string) :
  fits_eol ic shape s = true <-> fits_or_newline ic shape s.
Proof.
  unfold fits_or_newline. revert s. induction shape as [|cl shape IH]; intros s.
  - destruct s as [|c [|c' s]]; simpl.
    + tauto.
    + split.
      * intros E. apply Ascii.eqb_eq in E. subst c. right. exists EmptyString. auto.
      * intros [E | (s0 & E & Hs)]; [discriminate|].
        destruct s0 as [|c0 s0]; [|discriminate].
        simpl in E. injection E as ->. apply Ascii.eqb_refl.
    + split; [discriminate|].
      intros [E | (s0 & E & Hs)]; [discriminate|].
      destruct s0 as [|c0 s0]; discriminate.
  - destruct s as [|c s]; simpl.
    + split; [discriminate|].
      intros [E | (s0 & E & Hs)]; [discriminate|].
      destruct s0; discriminate.
    + destruct (cmem ic cl c) eqn:Ec.
      * rewrite IH. split.
        -- intros [E | (s0 & -> & Hs)]; [now left|].
           right. exists (String c s0). simpl. now rewrite Ec.
        -- intros [E | (s0 & E & Hs)]; [now left|].
           destruct s0 as [|c0 s0]; [discriminate|].
           simpl in E, Hs. injection E as <- ->. rewrite Ec in Hs. right. eauto.
      * split; [discriminate|].
        intros [E | (s0 & E & Hs)]; [discriminate|].
        destruct s0 as [|c0 s0]; [discriminate|].
        simpl in E, Hs. injection E as <- ->. now rewrite Ec in Hs.
Qed.

(** The literal characters of a string, and [n] digits. *)
Definition lits (s : string) : list cclass := map Lit (list_ascii_of_string s).
Definition D (n : nat) : list cclass := repeat Digit n.

(** The shapes of the five date patterns ([Z?] gives two shapes). *)
Definition date_shape : list cclass := D 4 ++ lits "-" ++ D 2 ++ lits "-" ++ D 2.
Definition time_shape : list cclass :=
  lits "T" ++ D 2 ++ lits ":" ++ D 2 ++ lits ":" ++ D 2.

Definition iso8601_shapes : list (list cclass) :=
  [ date_shape;
    date_shape ++ time_shape;
    date_shape ++ time_shape ++ lits "Z";
    date_shape ++ time_shape ++ lits "." ++ D 3;
    date_shape ++ time_shape ++ lits "." ++ D 3 ++ lits "Z";
    D 4 ++ lits "/" ++ D 4;
    date_shape ++ lits "/" ++ date_shape ].

(** *** ISBN *)

(** What [validate_isbn] removes first: hyphens and white space. *)
Definition isbn_separators : cclass := Union (Lit "-") Space.

Definition isbn10_shape : list cclass := D 9 ++ [Union Digit (Lit "X")].
Definition isbn13_shape : list cclass :=
  lits "97" ++ [Union (Lit "8") (Lit "9")] ++ D 9 ++ [Union Digit (Lit "X")].

Lemma delete_app (cl : cclass) (a b : string) :
  delete cl (a ++ b) = (delete cl a ++ delete cl b)%string.
Proof.
  induction a as [|c a IH]; simpl; [reflexivity|].
  destruct (cmem false cl c); simpl; now rewrite IH.
Qed.

(** Hyphens and white space do not matter to [validate_isbn], wherever
    they stand. *)
Theorem validate_isbn_ignores_separators (a b : string) (c : ascii) :
  cmem false isbn_separators c = true ->
  validate_isbn (a ++ String c b) = validate_isbn (a ++ b).
Proof.
  intros Hc. unfold validate_isbn. fold isbn_separators.
  rewrite !delete_app. cbn [delete]. now rewrite Hc.
Qed.

Lemma validate_isbn_ignores_separators_witness :
  validate_isbn ("978-0" ++ String "-" "306406157") = validate_isbn ("978-0" ++ "306406157").
Proof.
  apply (validate_isbn_ignores_separators "978-0" "306406157" "-"). reflexivity.
Defined.

(** *** ISSN *)

Definition issn_digits : list cclass :=
  D 4 ++ lits "-" ++ D 3 ++ [Union Digit (Lit "X")].

(** *** Closed vocabularies: [regex=r'^(w1|w2|...)$'] *)

(** A shape followed by a continuation. *)
Fixpoint fits_then (ic : bool) (shape : list cclass) (b : bool) (s : string)
         (k : bool -> string -> bool) : bool :=
  match shape with
  | [] => k b s
  | cl :: shape' =>
      match s with
      | String c s' => if cmem ic cl c then fits_then ic shape' false s' k else false
      | EmptyString => false
      end
  end.

Lemma rmatch_lit (ic : bool) (w : string) (b : bool) (s : string)
      (k : bool -> string -> bool) :
  rmatch ic (lit w) b s k = fits_then ic (lits w) b s k.
Proof.
  revert b s. induction w as [|c w IH]; intros b s; [reflexivity|].
  destruct s as [|c0 s]; [reflexivity|].
  cbn -[cmem]. destruct (cmem ic (Lit c) c0); [apply IH | reflexivity].
Qed.

(** What [$] and the end of the pattern leave to check. *)
Definition at_end (s : string) : bool :=
  match s with
  | EmptyString => true
  | String c EmptyString => if Ascii.eqb c LF then true else false
  | _ => false
  end.

Lemma fits_then_at_end (ic : bool) (shape : list cclass) (b : bool) (s : string) :
  fits_then ic shape b s (fun _ s' => at_end s') = fits_eol ic shape s.
Proof.
  revert b s. induction shape as [|cl shape IH]; intros b s.
  - destruct s as [|c [|c' s]]; simpl; try reflexivity. destruct (Ascii.eqb c LF); reflexivity.
  - destruct s as [|c s]; simpl; [reflexivity|].
    destruct (cmem ic cl c); [apply IH | reflexivity].
Qed.

Lemma re_match_anchored (r : regex) (s : string) :
  re_match (anchored r) s = rmatch false r true s (fun _ s' => at_end s').
Proof. reflexivity. Qed.

Lemma words_match (ws : list string) (s : string) :
  ws <> [] ->
  re_match (anchored (words ws)) s = existsb (fun w => fits_eol false (lits w) s) ws.
Proof.
  intros Hws. rewrite re_match_anchored. generalize true as b.
  induction ws as [|w ws IH]; [congruence|]. intros b.
  destruct ws as [|w' ws].
  - cbn [words existsb]. rewrite rmatch_lit, fits_then_at_end. now rewrite orb_false_r.
  - change (words (w :: w' :: ws)) with (Alt (lit w) (words (w' :: ws))).
    cbn [rmatch existsb]. rewrite rmatch_lit, fits_then_at_end.
    rewrite (IH ltac:(discriminate) b).
    destruct (fits_eol false (lits w) s); reflexivity.
Qed.

Lemma fits_lits (w s : string) : fits false (lits w) s = true <-> s = w.
Proof.
  revert s. induction w as [|c w IH]; intros s.
  - destruct s; simpl; split; congruence.
  - destruct s as [|c0 s]; [simpl; split; congruence|].
    change (fits false (lits (String c w)) (String c0 s))
      with (if cmem false (Lit c) c0 then fits false (lits w) s else false).
    simpl cmem. rewrite orb_false_r.
    destruct (Ascii.eqb c0 c) eqn:E.
    + apply Ascii.eqb_eq in E. subst c0. rewrite IH. split; congruence.
    + apply Ascii.eqb_neq in E. split; [discriminate | congruence].
Qed.

(** A field declared with [regex=r'^(w1|...|wn)$'] accepts a string
    exactly when it is one of the words, or one of the words followed by a
    single line feed. *)
Theorem one_of_accepts (ws : list string) (s : string) :
  ws <> [] ->
  (one_of ws (PStr s) = Ok (PStr s) <->
   In s ws \/ exists w, In w ws /\ s = (w ++ String LF EmptyString)%string)
  /\ (one_of ws (PStr s) = Ok (PStr s)
      \/ one_of ws (PStr s) = Fail (Err "string does not match regex")).
Proof.
  intros Hws. unfold one_of, matching, constr. simpl str_validator. cbv iota.
  rewrite (words_match ws s Hws).
  destruct (existsb (fun w => fits_eol false (lits w) s) ws) eqn:E; simpl.
  - split; [|now left]. split; [intros _ | reflexivity].
    apply existsb_exists in E as (w & Hin & Hw).
    apply fits_eol_spec in Hw as [Hw | (s0 & -> & Hw)]; apply fits_lits in Hw; subst.
    + now left.
    + right. eauto.
  - split; [|now right]. split; [discriminate|].
    intros H. assert (existsb (fun w => fits_eol false (lits w) s) ws = true) as E'; [|congruence].
    apply existsb_exists. destruct H as [H | (w & Hin & ->)].
    + exists s. split; [exact H|]. apply fits_eol_spec. left. now apply fits_lits.
    + exists w. split; [exact Hin|]. apply fits_eol_spec. right.
      exists w. split; [reflexivity|]. now apply fits_lits.
Qed.

Lemma one_of_accepts_witness :
  (one_of ["IMT"; "local"] (PStr "local") = Ok (PStr "local") <->
   In "local" ["IMT"; "local"]
   \/ exists w, In w ["IMT"; "local"] /\ "local" = (w ++ String LF EmptyString)%string)
  /\ (one_of ["IMT"; "local"] (PStr "local") = Ok (PStr "local")
      \/ one_of ["IMT"; "local"] (PStr "local") = Fail (Err "string does not match regex")).
Proof.
  apply (one_of_accepts ["IMT"; "local"] "local"). discriminate.
Defined.

(** *** The parts of the DOI pattern *)

(** The second alternative of [doi_pattern], without its anchors and with
    the case kept: none of its characters is a letter. *)
Definition doi_core_re : regex :=
  cat [lit "10."; atleast 4 Digit; lit "/"; plus (Neg Space)].

(** *** Patterns without letters, and finite patterns *)

(** Sets without letters: [re.IGNORECASE] changes nothing. *)
Fixpoint caseless (cl : cclass) : bool :=
  match cl with
  | Lit x => negb (is_upper x || is_lower x)
  | Digit | Space => true
  | Range _ _ => false
  | Union a b => caseless a && caseless b
  | Neg a => caseless a
  end.

(** Patterns made of characters, sequences and alternatives only, and the
    shapes they stand for. *)
Fixpoint finite_re (r : regex) : bool :=
  match r with
  | Eps | Chr _ => true
  | Seq a b | Alt a b => finite_re a && finite_re b
  | _ => false
  end.

Fixpoint shapes (r : regex) : list (list cclass) :=
  match r with
  | Eps => [[]]
  | Chr cl => [[cl]]
  | Seq a b => flat_map (fun x => map (fun y => x ++ y) (shapes b)) (shapes a)
  | Alt a b => shapes a ++ shapes b
  | _ => []
  end.

(** The resolver prefixes a DOI may carry (the empty one: a bare DOI). *)
Definition doi_prefixes : list string :=
  [ "https://dx.doi.org/"; "https://doi.org/"; "http://dx.doi.org/"; "http://doi.org/";
    "dx.doi.org/"; "doi.org/"; "" ].

(** The prefix part of the first alternative of [doi_pattern]. *)
Definition doi_prefix_re : regex :=
  cat [opt (cat [lit "http"; opt (lit "s"); lit "://"]); opt (lit "dx."); lit "doi.org/"].

Lemma doi_prefix_shapes :
  shapes doi_prefix_re ++ [[]] = map lits doi_prefixes.
Proof. reflexivity. Qed.

(* ===================================================================== *)
(** ** The report of a file that validates                                *)
(* ===================================================================== *)

(** Every item of a list that validates is kept. *)
Lemma validate_items_length (item : pyval -> res pyval) (i : nat) (xs vs : list pyval) :
  validate_items item i xs = (vs, []) -> List.length vs = List.length xs.
Proof.
  revert i vs. induction xs as [|x xs IH]; intros i vs; simpl.
  - intros [= <-]. reflexivity.
  - destruct (validate_items item (S i) xs) as [vs' es] eqn:E.
    destruct x; try discriminate;
      match goal with |- context [item ?z] => destruct (item z) end;
      try discriminate; intros [= <- ->]; simpl; f_equal; eauto.
Qed.

(** The number of instances a mapping gives for a kind: the length of the
    sequence under the key, 0 without the key or for [null]. *)
Definition instances (elements : option pyval) : Z :=
  match elements with
  | Some (PList xs) => Z.of_nat (List.length xs)
  | _ => 0%Z
  end.

Lemma element_list_count (km : string * model) (v v' : pyval) :
  field_validate (element_list km) v [] = Ok v' ->
  len (py_or v' (PList [])) = Return (instances (Some v)).
Proof.
  unfold field_validate, element_list. simpl.
  destruct v; simpl; try discriminate.
  - intros [= <-]. reflexivity.
  - destruct (validate_items (model_type (snd km)) 0 xs) as [vs [|e es]] eqn:E; [|discriminate].
    intros [= <-]. apply validate_items_length in E. rewrite <- E.
    now destruct vs.
Qed.

(** The root validator of [DublinCore] returns the values it is given. *)
Lemma validate_required_elements_keeps (values0 values : dict) :
  run_root_validators [validate_required_elements] values0 [] = (values, []) ->
  values = values0.
Proof.
  simpl. destruct (validate_required_elements values0) eqn:V; [|discriminate].
  unfold validate_required_elements in V.
  repeat match type of V with (if ?b then _ else _) = _ => destruct b end;
    try discriminate. injection V as <-. intros ER. now injection ER.
Qed.

(** What a field loop without error stores for a field without class
    validators. *)
Lemma validate_fields_get_ok (fs : list field) (input values : dict) (f : field) :
  NoDup (map f_name fs) -> In f fs -> f_validators f = [] ->
  validate_fields fs input [] [] = (values, []) ->
  match dict_get (f_name f) input with
  | Some v => exists v', field_validate f v [] = Ok v' /\ dict_get (f_name f) values = Some v'
  | None => dict_get (f_name f) values = if f_optional f then Some PNone else None
  end.
Proof.
  intros Hnd Hin Hf EF.
  pose proof (validate_fields_get fs input [] [] f Hnd Hin eq_refl Hf) as G.
  rewrite EF in G. cbn [fst] in G.
  destruct (dict_get (f_name f) input) as [v|] eqn:Ev; [|exact G].
  destruct (field_validate f v []) as [v'|e] eqn:E; [eauto|].
  exfalso.
  assert (snd (validate_fields fs input [] []) <> []) as K; [|now rewrite EF in K].
  apply (validate_fields_field_fails fs input [] [] f v Hin Ev).
  intros vs. exists e. now rewrite (field_validate_no_validators f v vs Hf).
Qed.

(** The attribute of a validated [DublinCore] for a kind has as many
    instances as the input. *)
Lemma DublinCore_count (l : pydantic) (dc dcvalues : dict) (km : string * model) :
  validate_model (DublinCore l) dc = Ok dcvalues ->
  In km (element_models l) ->
  element_count (PDict dcvalues) (fst km)
  = Return (fst km, instances (dict_get (fst km) dc)).
Proof.
  intros H Hin. apply validate_model_Ok_inv in H as (values0 & EF & _ & ER).
  apply validate_required_elements_keeps in ER. subst values0.
  pose proof (validate_fields_get_ok (m_fields (DublinCore l)) dc dcvalues (element_list km)
                (DublinCore_names_NoDup l) (element_list_In l km Hin) eq_refl EF) as G.
  cbn [f_name f_optional element_list optional] in G.
  unfold element_count, getattr, bind.
  destruct (dict_get (fst km) dc) as [v|].
  - destruct G as (v' & E & ->). now rewrite (element_list_count km v v' E).
  - rewrite G. reflexivity.
Qed.

Lemma traverse_map (A B : Type) (f : A -> exc B) (g : A -> B) (xs : list A) :
  (forall x, In x xs -> f x = Return (g x)) -> traverse f xs = Return (map g xs).
Proof.
  induction xs as [|x xs IH]; intros H; [reflexivity|].
  simpl. rewrite (H x (or_introl eq_refl)). simpl.
  rewrite IH; [reflexivity|]. intros y Hy. apply H. now right.
Qed.

(** The [element_counts] of an input mapping. *)
Definition input_counts (dc : dict) : list (string * Z) :=
  map (fun kind => (kind, instances (dict_get kind dc))) element_kinds.

Lemma DublinCore_counts (l : pydantic) (dc dcvalues : dict) :
  validate_model (DublinCore l) dc = Ok dcvalues ->
  traverse (element_count (PDict dcvalues)) element_kinds = Return (input_counts dc).
Proof.
  intros H. apply traverse_map. intros kind Hin.
  assert (exists M, In (kind, M) (element_models l)) as (M & HM).
  { change element_kinds with (map fst (element_models l)) in Hin.
    apply in_map_iff in Hin as ([k M] & <- & Hin). eauto. }
  apply (DublinCore_count l dc dcvalues (kind, M) H HM).
Qed.

(** Whether a key is present with a value other than [null]. *)
Definition given (k : string) (d : dict) : bool :=
  match dict_get k d with
  | Some v => is_not_None v
  | None => false
  end.

Lemma model_type_not_None (m : model) (v v' : pyval) :
  model_type m v = Ok v' -> is_not_None v' = true.
Proof.
  unfold model_type. destruct (as_kwargs v); [|discriminate].
  destruct (validate_model m d); [|discriminate]. now intros [= <-].
Qed.

(** An optional field of model type, after a validation without error. *)
Lemma optional_model_get (fs : list field) (input values : dict) (k : string) (m : model) :
  NoDup (map f_name fs) -> In (optional k (model_type m)) fs ->
  validate_fields fs input [] [] = (values, []) ->
  exists v, dict_get k values = Some v /\ is_not_None v = given k input.
Proof.
  intros Hnd Hin EF.
  pose proof (validate_fields_get_ok fs input values (optional k (model_type m)) Hnd Hin
                eq_refl EF) as G.
  cbn [f_name f_optional optional] in G. unfold given.
  destruct (dict_get k input) as [v|] eqn:Ev; [|exists PNone; auto].
  destruct G as (v' & E & G). exists v'. split; [exact G|].
  unfold field_validate in E. cbn [f_optional f_type f_validators optional] in E.
  destruct v; cbn -[model_type] in E;
    [ injection E as <-; reflexivity | .. ];
    match type of E with
    | context [model_type m ?z] => destruct (model_type m z) as [u|] eqn:Em
    end;
    try discriminate; injection E as <-;
    match type of Em with
    | model_type m ?z = _ => now rewrite (model_type_not_None m z u Em)
    end.
Qed.

(** The report of a validated document, from the input mapping. *)
Definition passed_report (top dc : dict) : report :=
  [ ("validation_status", RStr "PASSED");
    ("total_elements", RInt (sum (map snd (input_counts dc))));
    ("populated_elements", RInt (populated (map snd (input_counts dc))));
    ("completeness_percentage",
       RFloat (float_of_Z (populated (map snd (input_counts dc))) / 15 * 100)%float);
    ("element_counts", RCounts (input_counts dc));
    ("has_additional_metadata", RBool (given "additional_metadata" top));
    ("has_metadata_record", RBool (given "metadata_record" top)) ].

(** After a validation without error, the report step cannot raise, and
    its report is determined by the input. *)
Lemma create_validation_report_validated (l : pydantic) (top values : dict) :
  validate_model (DublinCoreDocument l) top = Ok values ->
  exists v dc,
    dict_get "dublin_core" top = Some v /\ as_kwargs v = Some dc
    /\ create_validation_report (PDict values) = Return (passed_report top dc).
Proof.
  intros H.
  assert (validate_document l (PDict top) = Return (PDict values)) as Hd
    by (unfold validate_document; now rewrite H).
  apply validate_document_inv in Hd
    as (top' & values' & v & dc & dcvalues & [= <-] & [= <-] & _ & Hv & Hk & Hdc & Hget).
  exists v, dc. split; [exact Hv|]. split; [exact Hk|].
  apply validate_model_Ok_inv in H as (values0 & EF & _ & ER).
  simpl in ER. injection ER as ->.
  assert (NoDup (map f_name (m_fields (DublinCoreDocument l)))) as Hnd.
  { simpl. repeat (constructor; [simpl; intuition discriminate|]). constructor. }
  destruct (optional_model_get _ top values "additional_metadata" AdditionalMetadata Hnd
              ltac:(simpl; auto) EF) as (am & Ham & Eam).
  destruct (optional_model_get _ top values "metadata_record" MetadataRecord Hnd
              ltac:(simpl; auto) EF) as (mr & Hmr & Emr).
  unfold create_validation_report, getattr.
  rewrite Hget. cbn [bind]. rewrite (DublinCore_counts l dc dcvalues Hdc). cbn [bind].
  rewrite Ham, Hmr. cbn [bind]. rewrite Eam, Emr. reflexivity.
Qed.

Lemma passed_spec (w : world) (file_path : string) :
  validation_status (validate_dublin_core_yaml w file_path) = PASSED <->
  exists top values size,
    fs w (Path w file_path) = Parsed (PDict top)
    /\ validate_model (DublinCoreDocument (lib w)) top = Ok values
    /\ stat_size w (Path w file_path) = Return size.
Proof.
  split.
  - intros H. apply PASSED_inv in H.
    apply body_Return_inv in H as (data & document & r0 & size & Hl & Hd & _ & Hs & _).
    apply validate_document_inv in Hd as (top & values & _ & _ & _ & -> & _ & Hv & _).
    exists top, values, size. repeat split; auto.
    unfold load_yaml_file in Hl. destruct (fs w (Path w file_path)); congruence.
  - intros (top & values & size & Hfs & Hv & Hs).
    destruct (create_validation_report_validated (lib w) top values Hv)
      as (v & dc & _ & _ & Hr).
    unfold validate_dublin_core_yaml, validation_decorator, validate_dublin_core_yaml_body,
      load_yaml_file.
    rewrite Hfs. cbn [bind]. unfold validate_document. rewrite Hv. cbn [bind].
    rewrite Hr. cbn [bind]. rewrite Hs. reflexivity.
Qed.

(** A file is PASSED exactly when it loads to a mapping that the document
    model accepts and its size can be read: once the document validates,
    building the report cannot fail. *)
Theorem passed_iff (w : world) (file_path : string) :
  validation_status (validate_dublin_core_yaml w file_path) = PASSED <->
  exists top values size,
    fs w (Path w file_path) = Parsed (PDict top)
    /\ validate_model (DublinCoreDocument (lib w)) top = Ok values
    /\ stat_size w (Path w file_path) = Return size.
Proof. exact (passed_spec w file_path). Qed.

(** The report of a PASSED file is a function of the loaded mapping, the
    path and the size. *)
Lemma passed_report_inv (w : world) (file_path : string) :
  validation_status (validate_dublin_core_yaml w file_path) = PASSED ->
  exists top v dc size,
    fs w (Path w file_path) = Parsed (PDict top)
    /\ dict_get "dublin_core" top = Some v /\ as_kwargs v = Some dc
    /\ stat_size w (Path w file_path) = Return size
    /\ validate_dublin_core_yaml w file_path
       = passed_report top dc
           ++ [ ("file_path", RStr (Path w file_path)); ("file_size_bytes", RInt size) ].
Proof.
  intros H. apply passed_spec in H as (top & values & size & Hfs & Hv & Hs).
  destruct (create_validation_report_validated (lib w) top values Hv)
    as (v & dc & Hget & Hk & Hr).
  exists top, v, dc, size. repeat split; auto.
  unfold validate_dublin_core_yaml, validation_decorator, validate_dublin_core_yaml_body,
    load_yaml_file.
  rewrite Hfs. cbn [bind]. unfold validate_document. rewrite Hv. cbn [bind].
  rewrite Hr. cbn [bind]. rewrite Hs. reflexivity.
Qed.

(** In a PASSED report the count of every kind is the number of entries
    the file lists under that kind (0 for a kind that is left out or
    [null]), and [total_elements] is the sum over the 15 kinds. *)
Theorem element_counts_match_input (w : world) (file_path : string) :
  validation_status (validate_dublin_core_yaml w file_path) = PASSED ->
  exists top v dc,
    fs w (Path w file_path) = Parsed (PDict top)
    /\ dict_get "dublin_core" top = Some v /\ as_kwargs v = Some dc
    /\ dict_get "element_counts" (validate_dublin_core_yaml w file_path)
       = Some (RCounts (map (fun kind => (kind, instances (dict_get kind dc))) element_kinds))
    /\ dict_get "total_elements" (validate_dublin_core_yaml w file_path)
       = Some (RInt (sum (map (fun kind => instances (dict_get kind dc)) element_kinds))).
Proof.
  intros H. apply passed_report_inv in H as (top & v & dc & size & Hfs & Hv & Hk & _ & ->).
  exists top, v, dc. repeat split; auto.
Qed.

Lemma element_counts_match_input_witness :
  exists top v dc,
    fs (sample_world [("example.yaml", Parsed example_yaml)])
       (Path (sample_world [("example.yaml", Parsed example_yaml)]) "example.yaml")
    = Parsed (PDict top)
    /\ dict_get "dublin_core" top = Some v /\ as_kwargs v = Some dc
    /\ dict_get "element_counts"
         (validate_dublin_core_yaml (sample_world [("example.yaml", Parsed example_yaml)])
            "example.yaml")
       = Some (RCounts (map (fun kind => (kind, instances (dict_get kind dc))) element_kinds))
    /\ dict_get "total_elements"
         (validate_dublin_core_yaml (sample_world [("example.yaml", Parsed example_yaml)])
            "example.yaml")
       = Some (RInt (sum (map (fun kind => instances (dict_get kind dc)) element_kinds))).
Proof.
  apply (element_counts_match_input
           (sample_world [("example.yaml", Parsed example_yaml)]) "example.yaml").
  vm_compute. reflexivity.
Defined.

(** In a PASSED report [has_additional_metadata] and [has_metadata_record]
    say whether the file has the section with a value other than [null];
    [file_path] is the path as a string and [file_size_bytes] its size. *)
Theorem metadata_flags_match_input (w : world) (file_path : string) :
  validation_status (validate_dublin_core_yaml w file_path) = PASSED ->
  exists top,
    fs w (Path w file_path) = Parsed (PDict top)
    /\ dict_get "has_additional_metadata" (validate_dublin_core_yaml w file_path)
       = Some (RBool (given "additional_metadata" top))
    /\ dict_get "has_metadata_record" (validate_dublin_core_yaml w file_path)
       = Some (RBool (given "metadata_record" top))
    /\ dict_get "file_path" (validate_dublin_core_yaml w file_path)
       = Some (RStr (Path w file_path))
    /\ exists size,
         stat_size w (Path w file_path) = Return size
         /\ dict_get "file_size_bytes" (validate_dublin_core_yaml w file_path)
            = Some (RInt size).
Proof.
  intros H. apply passed_report_inv in H as (top & v & dc & size & Hfs & _ & _ & Hs & ->).
  exists top. repeat split; auto. exists size. auto.
Qed.

Lemma metadata_flags_match_input_witness :
  exists top,
    fs (sample_world [("bad_doi.yaml", Parsed bad_doi_yaml)])
       (Path (sample_world [("bad_doi.yaml", Parsed bad_doi_yaml)]) "bad_doi.yaml")
    = Parsed (PDict top)
    /\ dict_get "has_additional_metadata"
         (validate_dublin_core_yaml (sample_world [("bad_doi.yaml", Parsed bad_doi_yaml)])
            "bad_doi.yaml")
       = Some (RBool (given "additional_metadata" top))
    /\ dict_get "has_metadata_record"
         (validate_dublin_core_yaml (sample_world [("bad_doi.yaml", Parsed bad_doi_yaml)])
            "bad_doi.yaml")
       = Some (RBool (given "metadata_record" top))
    /\ dict_get "file_path"
         (validate_dublin_core_yaml (sample_world [("bad_doi.yaml", Parsed bad_doi_yaml)])
            "bad_doi.yaml")
       = Some (RStr (Path (sample_world [("bad_doi.yaml", Parsed bad_doi_yaml)])
                       "bad_doi.yaml"))
    /\ exists size,
         stat_size (sample_world [("bad_doi.yaml", Parsed bad_doi_yaml)])
           (Path (sample_world [("bad_doi.yaml", Parsed bad_doi_yaml)]) "bad_doi.yaml")
         = Return size
         /\ dict_get "file_size_bytes"
              (validate_dublin_core_yaml (sample_world [("bad_doi.yaml", Parsed bad_doi_yaml)])
                 "bad_doi.yaml")
            = Some (RInt size).
Proof.
  apply (metadata_flags_match_input
           (sample_world [("bad_doi.yaml", Parsed bad_doi_yaml)]) "bad_doi.yaml").
  vm_compute. reflexivity.
Defined.

(** A report has one of two sets of keys: the nine of a PASSED report, in
    this order, or the three of a FAILED one, which names neither the path
    nor the size of the file. *)
Theorem report_keys (w : world) (file_path : string) :
  (validation_status (validate_dublin_core_yaml w file_path) = PASSED
   /\ keys (validate_dublin_core_yaml w file_path)
      = [ "validation_status"; "total_elements"; "populated_elements";
          "completeness_percentage"; "element_counts"; "has_additional_metadata";
          "has_metadata_record"; "file_path"; "file_size_bytes" ])
  \/ (validation_status (validate_dublin_core_yaml w file_path) = FAILED
      /\ keys (validate_dublin_core_yaml w file_path)
         = [ "validation_status"; "error"; "error_type" ]).
Proof.
  destruct (validate_dublin_core_yaml_body w file_path) as [r|e] eqn:E.
  - left.
    assert (validation_status (validate_dublin_core_yaml w file_path) = PASSED) as H.
    { unfold validate_dublin_core_yaml, validation_decorator. rewrite E.
      apply body_Return_inv in E as (data & document & r0 & size & _ & _ & E & _ & ->).
      apply create_validation_report_inv in E as (dc & ec & am & mr & _ & _ & _ & _ & ->).
      reflexivity. }
    split; [exact H|].
    apply passed_report_inv in H as (top & v & dc & size & _ & _ & _ & _ & ->).
    reflexivity.
  - right. unfold validate_dublin_core_yaml, validation_decorator. rewrite E. auto.
Qed.

(* ===================================================================== *)
(** ** The category of a failure                                          *)
(* ===================================================================== *)


(* ===================================================================== *)
(** ** Errors inside an element reach the report                          *)
(* ===================================================================== *)



















(* ===================================================================== *)
(** ** The language element                                               *)
(* ===================================================================== *)

(** A language instance validates only with a [value] of two or three
    characters, and the validated instance holds it in lower case. *)
Theorem language_value_lowered (inst values : dict) :
  validate_model LanguageElement inst = Ok values ->
  exists v s,
    dict_get "value" inst = Some v /\ str_validator v = Some s
    /\ (2 <= String.length s <= 3)%nat
    /\ dict_get "value" values = Some (PStr (lower s)).
Proof.
  intros H. apply validate_model_Ok_inv in H as (values0 & EF & _ & ER).
  simpl in ER. injection ER as ->.
  change (m_fields LanguageElement)
    with (Field "value" false (bounded 2 3) [validate_language_code]
          :: [ optional "scheme"
                 (one_of ["ISO 639-1"; "ISO 639-2"; "ISO 639-3"; "RFC 3066"; "local"]);
               optional "name" (max_length 100);
               optional "note" (max_length 200) ]) in EF.
  rewrite validate_fields_cons in EF. cbn [f_name f_optional] in EF.
  set (rest := [ optional "scheme" _; optional "name" _; optional "note" _ ]) in EF.
  destruct (dict_get "value" inst) as [v|] eqn:Ev.
  - destruct (field_validate (Field "value" false (bounded 2 3) [validate_language_code]) v [])
      as [v'|e] eqn:Ef.
    + pose proof (validate_fields_get_old rest inst ([] ++ [("value", v')]) []
                    "value" v' eq_refl) as G.
      rewrite EF in G. cbn [fst] in G.
      unfold field_validate in Ef. cbn [f_optional f_type f_validators] in Ef.
      assert (exists s, str_validator v = Some s /\ (2 <= String.length s <= 3)%nat
                        /\ v' = PStr (lower s)) as (s & Hs & Hl & ->).
      { assert (match bounded 2 3 v with
                | Ok u => apply_validators [validate_language_code] u []
                | Fail e => Fail e
                end = Ok v') as Ef' by (destruct v; try discriminate; exact Ef).
        clear Ef. unfold bounded, constr in Ef'.
        destruct (str_validator v) as [s|]; [|discriminate]. exists s.
        destruct (String.length s <? 2)%nat eqn:E1; [discriminate|].
        destruct (3 <? String.length s)%nat eqn:E2; [discriminate|].
        apply Nat.ltb_ge in E1, E2. simpl in Ef'.
        injection Ef' as <-. auto. }
      exists v, s. auto.
    + pose proof (validate_fields_errors_kept rest inst [] ([] ++ [At "value" e])) as K.
      rewrite EF in K. now elim K.
  - pose proof (validate_fields_errors_kept rest inst []
                  ([] ++ [At "value" (Err "field required")])) as K.
    rewrite EF in K. now elim K.
Qed.

Lemma language_value_lowered_witness :
  exists v s,
    dict_get "value" [("value", PStr "EN"); ("scheme", PStr "ISO 639-1")] = Some v
    /\ str_validator v = Some s
    /\ (2 <= String.length s <= 3)%nat
    /\ dict_get "value"
         [("value", PStr "en"); ("scheme", PStr "ISO 639-1"); ("name", PNone); ("note", PNone)]
       = Some (PStr (lower s)).
Proof.
  apply (language_value_lowered
           [("value", PStr "EN"); ("scheme", PStr "ISO 639-1")]
           [("value", PStr "en"); ("scheme", PStr "ISO 639-1"); ("name", PNone);
            ("note", PNone)]).
  vm_compute. reflexivity.
Defined.

(* ===================================================================== *)
(** ** The [batch] command of [cli.py]                                     *)
(* ===================================================================== *)















(* ===================================================================== *)
(** ** The format validators on full strings: what they accept           *)
(* ===================================================================== *)

(** *** Shapes *)

Lemma unicode_fits_eol_spec (db : Unicode.database) (ic : bool) (shape : list cclass)
      (s : Unicode.text) :
  Unicode.fits_eol db ic shape s = true <-> Unicode.fits_or_newline db ic shape s.
Proof.
  unfold Unicode.fits_or_newline. revert s. induction shape as [|cl shape IH]; intros s.
  - destruct s as [|c [|c' s]]; simpl.
    + tauto.
    + split.
      * intros E. apply N.eqb_eq in E. subst c. right. exists []. auto.
      * intros [E | (s0 & E & Hs)]; [discriminate|].
        destruct s0 as [|c0 s0]; [|discriminate].
        simpl in E. injection E as ->. apply N.eqb_refl.
    + split; [discriminate|].
      intros [E | (s0 & E & Hs)]; [discriminate|].
      destruct s0 as [|c0 [|c1 s0]]; discriminate.
  - destruct s as [|c s]; simpl.
    + split; [discriminate|].
      intros [E | (s0 & E & Hs)]; [discriminate|].
      destruct s0; discriminate.
    + destruct (Unicode.cmem db ic cl c) eqn:Ec.
      * rewrite IH. split.
        -- intros [E | (s0 & -> & Hs)]; [now left|].
           right. exists (c :: s0). simpl. now rewrite Ec.
        -- intros [E | (s0 & E & Hs)]; [now left|].
           destruct s0 as [|c0 s0]; [discriminate|].
           simpl in E, Hs. injection E as <- ->. rewrite Ec in Hs. right. eauto.
      * split; [discriminate|].
        intros [E | (s0 & E & Hs)]; [discriminate|].
        destruct s0 as [|c0 s0]; [discriminate|].
        simpl in E, Hs. injection E as <- ->. now rewrite Ec in Hs.
Qed.

(** Reads a pattern of bounded length against a string of code points, one
    character at a time. *)
Ltac read_text s :=
  repeat first
    [ reflexivity
    | match goal with
      | |- context [Unicode.cmem ?db ?ic ?cl ?c] =>
          destruct (Unicode.cmem db ic cl c); cbn -[Unicode.cmem N.eqb]
      | |- context [N.eqb ?c Unicode.LF] =>
          destruct (N.eqb c Unicode.LF); cbn -[Unicode.cmem N.eqb]
      end
    | destruct s as [|? s]; cbn -[Unicode.cmem N.eqb] ].

(** *** ORCID *)

Lemma unicode_orcid_shape (db : Unicode.database) (s : Unicode.text) :
  Unicode.validate_orcid db s = Unicode.fits_eol db false orcid_shape s.
Proof.
  unfold Unicode.validate_orcid, Unicode.re_match, orcid_pattern, orcid_shape.
  cbn -[Unicode.cmem N.eqb].
  read_text s.
Qed.

(** C9, as stated, fails: a string of the shape followed by a line feed is
    accepted too, because [$] also matches before a final line feed; and
    the digits may be any decimal digits, here ARABIC-INDIC DIGIT SEVEN
    (U+0667) in the last place, which is none of [0-9X]. *)
Lemma validate_orcid_counterexample :
  Unicode.validate_orcid Unicode.unicode_14
    (Unicode.u "0000-0002-1825-0097" ++ [Unicode.LF]) = true
  /\ Unicode.fits Unicode.unicode_14 false orcid_shape
       (Unicode.u "0000-0002-1825-0097" ++ [Unicode.LF]) = false
  /\ Unicode.validate_orcid Unicode.unicode_14
       (Unicode.u "0000-0002-1825-009" ++ [1639%N]) = true
  /\ existsb (N.eqb 1639) (Unicode.u "0123456789X") = false.
Proof. split; [|split; [|split]]; vm_compute; reflexivity. Qed.

(** C9, amended: [validate_orcid] accepts exactly the strings of the shape
    [0000-000[1-3]-DDDD-DDD[DX]], where [D] is any character that [\d]
    matches (a decimal digit of any script), and those strings followed by
    one line feed.  It accepts ["0000-0002-1825-0097"], the same followed by
    a line feed and the same with U+0667 as its last digit; it refuses
    ["0000-0004-1825-0097"]. *)
Theorem validate_orcid_accepts :
  (forall db s, Unicode.validate_orcid db s = true <->
     Unicode.fits_or_newline db false orcid_shape s)
  /\ (forall db, Unicode.validate_orcid db (Unicode.u "0000-0002-1825-0097") = true)
  /\ (forall db, Unicode.validate_orcid db
                   (Unicode.u "0000-0002-1825-0097" ++ [Unicode.LF]) = true)
  /\ Unicode.validate_orcid Unicode.unicode_14
       (Unicode.u "0000-0002-1825-009" ++ [1639%N]) = true
  /\ (forall db, Unicode.validate_orcid db (Unicode.u "0000-0004-1825-0097") = false).
Proof.
  split; [|split; [|split; [|split]]].
  - intros db s. rewrite unicode_orcid_shape. apply unicode_fits_eol_spec.
  - intros db. vm_compute. reflexivity.
  - intros db. vm_compute. reflexivity.
  - vm_compute. reflexivity.
  - intros db. vm_compute. reflexivity.
Qed.

(** *** Dates *)

Lemma unicode_date_shapes (db : Unicode.database) (s : Unicode.text) :
  Unicode.validate_iso8601_date db s
  = existsb (fun shape => Unicode.fits_eol db false shape s) iso8601_shapes.
Proof.
  unfold Unicode.validate_iso8601_date, Unicode.re_match, iso8601_patterns, iso8601_shapes.
  cbn -[Unicode.cmem N.eqb].
  read_text s.
Qed.

(** The date validator accepts exactly seven shapes of digits and
    separators (a date, a time stamp with optional milliseconds and optional
    [Z], a year interval, a date range), each optionally followed by one
    line feed.  A digit is any character that [\d] matches; no calendar
    check is made. *)
Theorem validate_iso8601_date_accepts (db : Unicode.database) (s : Unicode.text) :
  Unicode.validate_iso8601_date db s = true <->
  exists shape, In shape iso8601_shapes /\ Unicode.fits_or_newline db false shape s.
Proof.
  rewrite unicode_date_shapes, existsb_exists.
  split; intros (shape & Hin & H); exists shape; split; auto;
    now apply unicode_fits_eol_spec.
Qed.

(** *** ISBN *)

Lemma unicode_isbn_shapes (db : Unicode.database) (t : Unicode.text) :
  Unicode.re_match db isbn_pattern t
  = (Unicode.fits_eol db false isbn13_shape t || Unicode.fits_eol db false isbn10_shape t).
Proof.
  unfold Unicode.re_match, isbn_pattern, isbn13_shape, isbn10_shape.
  cbn -[Unicode.cmem N.eqb].
  read_text t.
Qed.

Lemma unicode_delete_removes (db : Unicode.database) (cl : cclass) (s : Unicode.text)
      (c : Unicode.char) :
  Unicode.cmem db false cl c = true -> ~ In c (Unicode.delete db cl s).
Proof.
  intros Hc. induction s as [|c0 s IH]; simpl; [tauto|].
  destruct (Unicode.cmem db false cl c0) eqn:E; [exact IH|].
  simpl. intros [-> | H]; [congruence | auto].
Qed.

Lemma unicode_fits_eol_without_LF (db : Unicode.database) (ic : bool)
      (shape : list cclass) (s : Unicode.text) :
  ~ In Unicode.LF s -> Unicode.fits_eol db ic shape s = Unicode.fits db ic shape s.
Proof.
  revert s. induction shape as [|cl shape IH]; intros s H.
  - destruct s as [|c [|c' s]]; simpl in *; try reflexivity.
    destruct (N.eqb c Unicode.LF) eqn:E; [|reflexivity].
    apply N.eqb_eq in E. subst. tauto.
  - destruct s as [|c s]; simpl in *; [reflexivity|].
    destruct (Unicode.cmem db ic cl c); [|reflexivity]. apply IH. tauto.
Qed.

(** An ISBN is accepted exactly when, hyphens and white space removed
    (every character that [\s] matches), it is 9 digits and a digit or [X],
    optionally after [978] or [979]; a digit is any character that [\d]
    matches. *)
Theorem validate_isbn_accepts (db : Unicode.database) (s : Unicode.text) :
  Unicode.validate_isbn db s = true <->
  Unicode.fits db false isbn13_shape (Unicode.delete db isbn_separators s) = true
  \/ Unicode.fits db false isbn10_shape (Unicode.delete db isbn_separators s) = true.
Proof.
  unfold Unicode.validate_isbn. fold isbn_separators.
  rewrite unicode_isbn_shapes.
  rewrite !unicode_fits_eol_without_LF by (apply unicode_delete_removes; reflexivity).
  apply orb_true_iff.
Qed.

(** *** ISSN *)

Lemma unicode_issn_shapes (db : Unicode.database) (s : Unicode.text) :
  Unicode.validate_issn db s
  = (Unicode.fits_eol db true (lits "ISSN" ++ [Space] ++ issn_digits) s
     || Unicode.fits_eol db true (lits "ISSN" ++ issn_digits) s).
Proof.
  unfold Unicode.validate_issn, Unicode.re_match_i, issn_pattern, issn_digits.
  cbn -[Unicode.cmem N.eqb].
  read_text s.
Qed.

(** What [re.IGNORECASE] lets stand for a letter of [ISSN] and for [X]. *)
Lemma unicode_issn_letters (db : Unicode.database) (c : Unicode.char) :
  (Unicode.cmem db true (Lit "I") c = true <-> In c [73; 105; 304; 305]%N)
  /\ (Unicode.cmem db true (Lit "S") c = true <-> In c [83; 115; 383]%N)
  /\ (Unicode.cmem db true (Lit "N") c = true <-> In c [78; 110]%N)
  /\ (Unicode.cmem db true (Lit "X") c = true <-> In c [88; 120]%N).
Proof.
  cbn [Unicode.cmem]. unfold Unicode.ignore_case. cbn -[N.eqb].
  repeat match goal with
         | |- context [Unicode.code (swapcase ?a)] =>
             let v := eval vm_compute in (Unicode.code (swapcase a)) in
             change (Unicode.code (swapcase a)) with v
         end.
  rewrite ?orb_false_r, ?orb_true_iff, ?N.eqb_eq. cbn [In]. intuition congruence.
Qed.

(** An ISSN is accepted exactly when it is the token [ISSN], at most one
    white space character, four digits, a hyphen, three digits and a digit
    or [X], optionally followed by one line feed.  The letters are matched
    ignoring case, which for [I] also admits U+0130 and U+0131 and for [S]
    U+017F; a digit is any character that [\d] matches. *)
Theorem validate_issn_accepts (db : Unicode.database) (s : Unicode.text) :
  (Unicode.validate_issn db s = true <->
   Unicode.fits_or_newline db true (lits "ISSN" ++ [Space] ++ issn_digits) s
   \/ Unicode.fits_or_newline db true (lits "ISSN" ++ issn_digits) s)
  /\ (forall c,
        (Unicode.cmem db true (Lit "I") c = true <-> In c [73; 105; 304; 305]%N)
        /\ (Unicode.cmem db true (Lit "S") c = true <-> In c [83; 115; 383]%N)
        /\ (Unicode.cmem db true (Lit "N") c = true <-> In c [78; 110]%N)
        /\ (Unicode.cmem db true (Lit "X") c = true <-> In c [88; 120]%N)).
Proof.
  split; [|apply unicode_issn_letters].
  rewrite unicode_issn_shapes, orb_true_iff, !unicode_fits_eol_spec. tauto.
Qed.

(* ===================================================================== *)
(** ** The matcher and the language of a pattern                          *)
(* ===================================================================== *)

Definition within (hi : option nat) (n : nat) : Prop :=
  match hi with
  | Some h => (n <= h)%nat
  | None => True
  end.

(** [cl{lo,hi}] matches some prefix of characters of the set whose length
    is between the bounds, such that the continuation accepts the rest. *)
Lemma rep_spec (db : Unicode.database) (ic : bool) (cl : cclass) (lo : nat)
      (hi : option nat) (b : bool) (s : Unicode.text) (k : bool -> Unicode.text -> bool) :
  Unicode.rep db ic cl lo hi b s k = true <->
  exists a rest,
    s = a ++ rest /\ Unicode.all_in db ic cl a = true /\ (lo <= List.length a)%nat
    /\ within hi (List.length a)
    /\ k (match a with [] => b | _ => false end) rest = true.
Proof.
  revert lo hi b. induction s as [|c s IH]; intros lo hi b.
  - simpl. split.
    + destruct lo; [|discriminate]. intros H. exists [], [].
      simpl. repeat split; auto. destruct hi; simpl; lia.
    + intros (a & rest & E & _ & Hlo & _ & Hk).
      symmetry in E. apply app_eq_nil in E as [-> ->].
      simpl in Hlo, Hk. destruct lo; [exact Hk | lia].
  - cbn -[Unicode.cmem].
    set (taken := match hi with
                  | Some 0%nat => false
                  | _ => if Unicode.cmem db ic cl c
                         then Unicode.rep db ic cl (Nat.pred lo) (option_map Nat.pred hi)
                                false s k
                         else false
                  end).
    assert (taken = true <->
            hi <> Some 0%nat /\ Unicode.cmem db ic cl c = true
            /\ Unicode.rep db ic cl (Nat.pred lo) (option_map Nat.pred hi) false s k = true)
      as Ht.
    { unfold taken. destruct hi as [[|h]|]; destruct (Unicode.cmem db ic cl c);
        split; try discriminate; try (intros (H1 & H2 & H3); congruence);
        intros H; repeat split; auto; discriminate. }
    split.
    + destruct taken eqn:Et.
      * intros _. destruct Ht as [Ht _]. destruct (Ht eq_refl) as (Hhi & Ec & Er).
        apply IH in Er as (a & rest & -> & Ha & Hlo & Hh & Hk).
        exists (c :: a), rest. simpl. rewrite Ec.
        repeat split; auto; [lia | |now destruct a].
        destruct hi as [[|h]|]; simpl in *; try lia. congruence.
      * destruct lo; [|discriminate]. intros Hk.
        exists [], (c :: s). simpl. repeat split; auto.
        destruct hi; simpl; lia.
    + intros (a & rest & E & Ha & Hlo & Hh & Hk). destruct a as [|c0 a].
      * simpl in E, Hlo, Hk. subst rest. destruct lo; [|lia].
        rewrite Hk. now destruct taken.
      * simpl in E, Ha, Hlo, Hh, Hk. injection E as <- ->.
        destruct (Unicode.cmem db ic cl c) eqn:Ec; [|discriminate].
        assert (taken = true) as ->; [|reflexivity].
        apply Ht. split; [|split; [reflexivity|]].
        -- destruct hi as [[|h]|]; simpl in Hh; try discriminate. lia.
        -- apply IH. exists a, rest. repeat split; auto; [lia | |now destruct a].
           destruct hi as [h|]; simpl in *; lia.
Qed.

(** Patterns without [^] and [$]. *)
Fixpoint anchor_free (r : regex) : bool :=
  match r with
  | Eps | Chr _ | Rep _ _ _ => true
  | Seq a b | Alt a b => anchor_free a && anchor_free b
  | Bol | Eol => false
  end.

(** The strings a pattern without anchors stands for. *)
Fixpoint lang (db : Unicode.database) (ic : bool) (r : regex) (p : Unicode.text) : Prop :=
  match r with
  | Eps => p = []
  | Chr cl => exists c, p = [c] /\ Unicode.cmem db ic cl c = true
  | Seq r1 r2 => exists a b, p = a ++ b /\ lang db ic r1 a /\ lang db ic r2 b
  | Alt r1 r2 => lang db ic r1 p \/ lang db ic r2 p
  | Rep cl lo hi =>
      Unicode.all_in db ic cl p = true /\ (lo <= List.length p)%nat
      /\ within hi (List.length p)
  | Bol | Eol => False
  end.

Lemma bool_eq_iff (x y : bool) (P : Prop) : (x = true <-> P) -> (y = true <-> P) -> x = y.
Proof.
  destruct x, y; intros [H1 H2] [H3 H4]; try reflexivity;
    [symmetry; apply H4, H1; reflexivity | apply H2, H3; reflexivity].
Qed.

(** The backtracking matcher finds a match exactly when the string starts
    with a word of the language that the continuation lets through. *)
Lemma rmatch_lang (db : Unicode.database) (ic : bool) (r : regex) :
  anchor_free r = true ->
  forall (b : bool) (s : Unicode.text) (k : bool -> Unicode.text -> bool),
    (forall b1 b2 s', k b1 s' = k b2 s') ->
    (Unicode.rmatch db ic r b s k = true <->
     exists p rest, s = p ++ rest /\ lang db ic r p /\ k false rest = true).
Proof.
  induction r as [|cl|r1 IH1 r2 IH2|r1 IH1 r2 IH2|cl lo hi| |]; intros Hr b s k Hk;
    try discriminate; cbn [Unicode.rmatch lang].
  - rewrite (Hk b false). split.
    + intros H. exists [], s. auto.
    + intros (p & rest & -> & -> & H). exact H.
  - destruct s as [|c s].
    + split; [discriminate|]. intros (p & rest & E & (c & -> & _) & _). discriminate.
    + split.
      * destruct (Unicode.cmem db ic cl c) eqn:Ec; [|discriminate]. intros H.
        exists [c], s. repeat split; eauto.
      * intros (p & rest & E & (c0 & -> & Ec) & H). injection E as -> ->.
        now rewrite Ec.
  - simpl in Hr. apply andb_true_iff in Hr as [Hr1 Hr2].
    assert (forall b1 b2 s',
              Unicode.rmatch db ic r2 b1 s' k = Unicode.rmatch db ic r2 b2 s' k) as Hk'.
    { intros b1 b2 s'.
      apply (bool_eq_iff _ _ _ (IH2 Hr2 b1 s' k Hk) (IH2 Hr2 b2 s' k Hk)). }
    rewrite (IH1 Hr1 b s _ Hk'). split.
    + intros (p1 & rest1 & -> & H1 & H).
      apply (IH2 Hr2 false rest1 k Hk) in H as (p2 & rest & -> & H2 & H).
      exists (p1 ++ p2), rest. rewrite <- app_assoc. repeat split; eauto.
    + intros (p & rest & -> & (p1 & p2 & -> & H1 & H2) & H).
      exists p1, (p2 ++ rest). rewrite <- app_assoc. repeat split; auto.
      apply (IH2 Hr2 false _ k Hk). eauto.
  - simpl in Hr. apply andb_true_iff in Hr as [Hr1 Hr2].
    destruct (Unicode.rmatch db ic r1 b s k) eqn:E1.
    + split; [intros _ | reflexivity].
      apply (IH1 Hr1 b s k Hk) in E1 as (p & rest & -> & H1 & H). eauto 6.
    + rewrite (IH2 Hr2 b s k Hk). split.
      * intros (p & rest & -> & H2 & H). eauto 6.
      * intros (p & rest & -> & [H1 | H2] & H); [|eauto].
        assert (Unicode.rmatch db ic r1 b (p ++ rest) k = true)
          by (apply (IH1 Hr1 b _ k Hk); eauto).
        congruence.
  - rewrite rep_spec. split.
    + intros (a & rest & -> & Ha & Hlo & Hh & H). exists a, rest.
      rewrite (Hk false (match a with [] => b | _ => false end)). auto.
    + intros (a & rest & -> & (Ha & Hlo & Hh) & H). exists a, rest.
      rewrite (Hk (match a with [] => b | _ => false end) false). auto.
Qed.

(** What [$] and the end of the pattern leave to check. *)
Definition at_end_of (s : Unicode.text) : bool :=
  match s with
  | [] => true
  | [c] => if (c =? Unicode.LF)%N then true else false
  | _ => false
  end.

Lemma at_end_of_spec (s : Unicode.text) :
  at_end_of s = true <-> s = [] \/ s = [Unicode.LF].
Proof.
  destruct s as [|c [|c' s]]; simpl.
  - tauto.
  - destruct (N.eqb c Unicode.LF) eqn:E.
    + apply N.eqb_eq in E. subst. tauto.
    + apply N.eqb_neq in E. split; [discriminate|].
      intros [H | [= H]]; [discriminate | contradiction].
  - split; [discriminate | intros [H | H]; discriminate].
Qed.

(** A pattern [^body$] without further anchors: [re.match] accepts the
    words of the body, and those followed by one line feed. *)
Lemma rmatch_at_end (db : Unicode.database) (ic : bool) (body : regex) (b : bool)
      (s : Unicode.text) :
  anchor_free body = true ->
  (Unicode.rmatch db ic body b s (fun _ s' => at_end_of s') = true <->
   exists p tail, s = p ++ tail /\ lang db ic body p /\ (tail = [] \/ tail = [Unicode.LF])).
Proof.
  intros Hb.
  rewrite (rmatch_lang db ic body Hb b s (fun _ s' => at_end_of s') (fun _ _ _ => eq_refl)).
  split; intros (p & tail & E & H & Ht); exists p, tail; repeat split; auto;
    now apply at_end_of_spec.
Qed.

(** The words of a literal, and of a pattern of characters, sequences and
    alternatives. *)
Lemma lang_lit (db : Unicode.database) (ic : bool) (w : string) (p : Unicode.text) :
  lang db ic (lit w) p <-> Unicode.fits db ic (lits w) p = true.
Proof.
  revert p. induction w as [|c w IH]; intros p.
  - simpl. destruct p; split; congruence.
  - change (lit (String c w)) with (Seq (Chr (Lit c)) (lit w)).
    change (lits (String c w)) with (Lit c :: lits w).
    cbn [lang]. split.
    + intros (a & b & -> & (c0 & -> & Ec) & Hb). cbn [app Unicode.fits].
      rewrite Ec. now apply IH.
    + destruct p as [|c0 p]; [discriminate|]. cbn [Unicode.fits].
      destruct (Unicode.cmem db ic (Lit c) c0) eqn:Ec; [|discriminate].
      intros H. exists [c0], p. split; [reflexivity|]. split; [eauto|]. now apply IH.
Qed.

Lemma fits_app (db : Unicode.database) (ic : bool) (x y : list cclass) (p : Unicode.text) :
  Unicode.fits db ic (x ++ y) p = true <->
  exists a b, p = a ++ b /\ Unicode.fits db ic x a = true /\ Unicode.fits db ic y b = true.
Proof.
  revert p. induction x as [|cl x IH]; intros p.
  - simpl. split.
    + intros H. exists [], p. auto.
    + intros (a & b & -> & Ha & Hb). destruct a; [exact Hb | discriminate].
  - destruct p as [|c p]; cbn [app Unicode.fits].
    + split; [discriminate|]. intros (a & b & E & Ha & _).
      destruct a; [discriminate Ha | discriminate E].
    + destruct (Unicode.cmem db ic cl c) eqn:Ec.
      * rewrite IH. split.
        -- intros (a & b & -> & Ha & Hb). exists (c :: a), b. simpl. rewrite Ec. auto.
        -- intros (a & b & E & Ha & Hb). destruct a as [|c0 a]; [discriminate Ha|].
           simpl in E, Ha. injection E as <- ->. rewrite Ec in Ha. eauto.
      * split; [discriminate|]. intros (a & b & E & Ha & _).
        destruct a as [|c0 a]; [discriminate Ha|].
        simpl in E, Ha. injection E as <- ->. now rewrite Ec in Ha.
Qed.

(** A finite pattern stands for the strings that fit one of its shapes. *)
Lemma lang_shapes (db : Unicode.database) (ic : bool) (r : regex) (p : Unicode.text) :
  finite_re r = true ->
  (lang db ic r p <-> exists shape, In shape (shapes r) /\ Unicode.fits db ic shape p = true).
Proof.
  revert p. induction r as [|cl|r1 IH1 r2 IH2|r1 IH1 r2 IH2|cl lo hi| |]; intros p H;
    try discriminate; cbn [lang shapes].
  - split.
    + intros ->. exists []. simpl. auto.
    + intros (sh & [<- | []] & Hf). now destruct p.
  - split.
    + intros (c & -> & Ec). exists [cl]. simpl. rewrite Ec. auto.
    + intros (sh & [<- | []] & Hf). destruct p as [|c [|c' p]]; simpl in Hf; try discriminate.
      * exists c. destruct (Unicode.cmem db ic cl c); [auto | discriminate].
      * destruct (Unicode.cmem db ic cl c); discriminate.
  - simpl in H. apply andb_true_iff in H as [H1 H2]. split.
    + intros (a & b & -> & Ha & Hb).
      apply (IH1 a H1) in Ha as (x & Hx & Ha). apply (IH2 b H2) in Hb as (y & Hy & Hb).
      exists (x ++ y). split.
      * apply in_flat_map. exists x. split; [exact Hx|]. now apply in_map.
      * apply fits_app. eauto.
    + intros (sh & Hsh & Hf). apply in_flat_map in Hsh as (x & Hx & Hsh).
      apply in_map_iff in Hsh as (y & <- & Hy).
      apply fits_app in Hf as (a & b & -> & Ha & Hb).
      exists a, b. split; [reflexivity|]. split; [apply IH1 | apply IH2]; eauto.
  - simpl in H. apply andb_true_iff in H as [H1 H2].
    rewrite (IH1 p H1), (IH2 p H2). split.
    + intros [(sh & Hsh & Hf) | (sh & Hsh & Hf)]; exists sh; split; auto;
        apply in_or_app; auto.
    + intros (sh & Hsh & Hf). apply in_app_or in Hsh as [Hsh | Hsh]; eauto.
Qed.

(** A set without letters: [re.IGNORECASE] changes nothing. *)
Lemma unicode_cmem_caseless (db : Unicode.database) (cl : cclass) (c : Unicode.char) :
  caseless cl = true -> Unicode.cmem db true cl c = Unicode.cmem db false cl c.
Proof.
  induction cl as [x| | |lo hi|a IHa b IHb|a IHa]; simpl; intros H; try reflexivity.
  - unfold Unicode.ignore_case.
    assert (swapcase x = x /\ Unicode.ascii_in x "iI" = false
            /\ Unicode.ascii_in x "sS" = false /\ Unicode.ascii_in x "kK" = false)
      as (-> & -> & -> & ->).
    { revert H. destruct x as [[|] [|] [|] [|] [|] [|] [|] [|]]; vm_compute;
        intros H; try discriminate H; auto. }
    simpl. rewrite !orb_false_r. apply orb_diag.
  - discriminate.
  - apply andb_true_iff in H as [Ha Hb]. now rewrite IHa, IHb.
  - now rewrite IHa.
Qed.

Lemma unicode_all_in_caseless (db : Unicode.database) (cl : cclass) (a : Unicode.text) :
  caseless cl = true -> Unicode.all_in db true cl a = Unicode.all_in db false cl a.
Proof.
  intros H. induction a as [|c a IH]; [reflexivity|].
  simpl. now rewrite (unicode_cmem_caseless db cl c H), IH.
Qed.

(* ===================================================================== *)
(** ** DOI                                                                 *)
(* ===================================================================== *)

Lemma unicode_code_inj (x y : ascii) : Unicode.code x = Unicode.code y -> x = y.
Proof.
  unfold Unicode.code. intros H.
  rewrite <- (ascii_N_embedding x), <- (ascii_N_embedding y). now rewrite H.
Qed.

(** With the case kept, a literal stands for itself. *)
Lemma unicode_fits_lits (db : Unicode.database) (w : string) (p : Unicode.text) :
  Unicode.fits db false (lits w) p = true <-> p = Unicode.u w.
Proof.
  revert p. induction w as [|c w IH]; intros p.
  - change (Unicode.u EmptyString) with (@nil Unicode.char).
    destruct p; simpl; split; congruence.
  - change (lits (String c w)) with (Lit c :: lits w).
    change (Unicode.u (String c w)) with (Unicode.code c :: Unicode.u w).
    destruct p as [|c0 p]; [simpl; split; congruence|].
    cbn [Unicode.fits Unicode.cmem].
    destruct (N.eqb c0 (Unicode.code c)) eqn:E.
    + apply N.eqb_eq in E. subst c0. rewrite IH. split; congruence.
    + apply N.eqb_neq in E. split; [discriminate | congruence].
Qed.

Lemma unicode_fits_caseless (db : Unicode.database) (shape : list cclass) (p : Unicode.text) :
  forallb caseless shape = true ->
  Unicode.fits db true shape p = Unicode.fits db false shape p.
Proof.
  revert p. induction shape as [|cl shape IH]; intros p H; [reflexivity|].
  simpl in H. apply andb_true_iff in H as [Hc H].
  destruct p as [|c p]; [reflexivity|].
  cbn [Unicode.fits]. now rewrite (unicode_cmem_caseless db cl c Hc), (IH p H).
Qed.

(** The DOI itself: [10.], at least four digits, [/] and a suffix without
    white space, optionally followed by one line feed. *)
Definition doi_core (db : Unicode.database) (s : Unicode.text) : Prop :=
  exists digits suffix tail,
    s = Unicode.u "10." ++ digits ++ Unicode.u "/" ++ suffix ++ tail
    /\ Unicode.all_in db false Digit digits = true /\ (4 <= List.length digits)%nat
    /\ Unicode.all_in db false (Neg Space) suffix = true /\ (1 <= List.length suffix)%nat
    /\ (tail = [] \/ tail = [Unicode.LF]).

Lemma lang_doi_core (db : Unicode.database) (s : Unicode.text) :
  (exists b tail, s = b ++ tail /\ lang db true doi_core_re b
                  /\ (tail = [] \/ tail = [Unicode.LF]))
  <-> doi_core db s.
Proof.
  unfold doi_core, doi_core_re, atleast, plus. cbn [cat fold_right lang]. split.
  - intros (b & tail & -> & (a1 & b1 & -> & H1 & a2 & b2 & -> & (H2 & L2 & _)
                               & a3 & b3 & -> & H3 & a4 & b4 & -> & (H4 & L4 & _) & ->) & Ht).
    apply lang_lit in H1, H3.
    rewrite unicode_fits_caseless in H1, H3 by reflexivity.
    apply unicode_fits_lits in H1, H3. subst a1 a3.
    exists a2, a4, tail. rewrite app_nil_r, <- !app_assoc.
    rewrite <- (unicode_all_in_caseless db Digit a2 eq_refl).
    rewrite <- (unicode_all_in_caseless db (Neg Space) a4 eq_refl). repeat split; auto.
  - intros (digits & suffix & tail & -> & Hd & Ld & Hs & Ls & Ht).
    exists (Unicode.u "10." ++ digits ++ Unicode.u "/" ++ suffix), tail.
    split; [now rewrite <- !app_assoc|]. split; [|exact Ht].
    exists (Unicode.u "10."), (digits ++ Unicode.u "/" ++ suffix).
    split; [reflexivity|]. split.
    { apply lang_lit. rewrite unicode_fits_caseless by reflexivity.
      now apply unicode_fits_lits. }
    exists digits, (Unicode.u "/" ++ suffix). split; [reflexivity|]. split.
    { rewrite (unicode_all_in_caseless db Digit digits eq_refl). simpl. auto. }
    exists (Unicode.u "/"), suffix. split; [reflexivity|]. split.
    { apply lang_lit. rewrite unicode_fits_caseless by reflexivity.
      now apply unicode_fits_lits. }
    exists suffix, []. split; [now rewrite app_nil_r|]. split; [|reflexivity].
    rewrite (unicode_all_in_caseless db (Neg Space) suffix eq_refl). simpl. auto.
Qed.

(** [validate_doi] splits into a prefix and the DOI itself. *)
Lemma unicode_doi_split (db : Unicode.database) (s : Unicode.text) :
  Unicode.validate_doi db s
  = (if Unicode.rmatch db true (Seq doi_prefix_re doi_core_re) true s
          (fun _ s' => at_end_of s')
     then true
     else Unicode.rmatch db true doi_core_re true s (fun _ s' => at_end_of s')).
Proof. reflexivity. Qed.

(** [validate_doi] accepts exactly the strings made of one of the seven
    resolver prefixes (none, [doi.org/], [dx.doi.org/], or these after
    [http://] or [https://]), its letters matched ignoring case, followed by
    [10.], at least four digits, [/] and a non-empty suffix without white
    space, optionally followed by one line feed.  A digit is what [\d]
    matches and white space what [\s] matches. *)
Theorem validate_doi_accepts (db : Unicode.database) (s : Unicode.text) :
  Unicode.validate_doi db s = true <->
  exists p P core,
    In p doi_prefixes /\ s = P ++ core /\ Unicode.fits db true (lits p) P = true
    /\ doi_core db core.
Proof.
  rewrite unicode_doi_split. split.
  - destruct (Unicode.rmatch db true (Seq doi_prefix_re doi_core_re) true s _) eqn:E.
    + intros _. apply rmatch_at_end in E as (p0 & tail & -> & H & Ht); [|reflexivity].
      cbn [lang] in H. destruct H as (P & b & -> & HP & Hb).
      apply lang_shapes in HP as (shape & Hin & HP); [|reflexivity].
      assert (In shape (map lits doi_prefixes)) as Hs
        by (rewrite <- doi_prefix_shapes; apply in_or_app; now left).
      apply in_map_iff in Hs as (p & <- & Hp).
      exists p, P, (b ++ tail). rewrite <- app_assoc. repeat split; auto.
      apply lang_doi_core. eauto.
    + intros H. apply rmatch_at_end in H; [|reflexivity].
      apply lang_doi_core in H.
      exists EmptyString, [], s. repeat split; auto.
      unfold doi_prefixes. simpl. tauto.
  - intros (p & P & core & Hp & -> & HP & Hc).
    apply lang_doi_core in Hc as (b & tail & -> & Hb & Ht).
    apply (in_map lits) in Hp. rewrite <- doi_prefix_shapes in Hp.
    apply in_app_or in Hp as [Hp | [Hp | []]].
    + assert (Unicode.rmatch db true (Seq doi_prefix_re doi_core_re) true
                (P ++ b ++ tail) (fun _ s' => at_end_of s') = true) as ->; [|reflexivity].
      apply rmatch_at_end; [reflexivity|].
      exists (P ++ b), tail. rewrite <- app_assoc. repeat split; auto.
      cbn [lang]. exists P, b. repeat split; auto.
      apply lang_shapes; [reflexivity|]. eauto.
    + rewrite <- Hp in HP. destruct P; [|discriminate HP].
      cbn [app].
      assert (Unicode.rmatch db true doi_core_re true (b ++ tail)
                (fun _ s' => at_end_of s') = true) as ->.
      { apply rmatch_at_end; [reflexivity|]. eauto. }
      now destruct (Unicode.rmatch db true (Seq doi_prefix_re doi_core_re) true _ _).
Qed.

(* ===================================================================== *)
(** ** Coordinates                                                         *)
(* ===================================================================== *)

(** [coord_pattern] without its anchors. *)
Definition coord_body : regex :=
  cat [lit "lat:"; star Space; bound_re; maybe (Lit "-"); bound_re;
       lit ","; star Space; lit "lon:"; star Space; bound_re; maybe (Lit "-");
       bound_re].

Lemma unicode_coordinates_body (db : Unicode.database) (s : Unicode.text) :
  Unicode.validate_coordinates db s
  = Unicode.rmatch db false coord_body true s (fun _ s' => at_end_of s').
Proof. reflexivity. Qed.

(** The number of digits of a string. *)
Fixpoint count_digits (db : Unicode.database) (s : Unicode.text) : nat :=
  match s with
  | [] => 0
  | c :: s' => (if Unicode.is_digit db c then 1 else 0) + count_digits db s'
  end.

Lemma count_digits_app (db : Unicode.database) (a b : Unicode.text) :
  count_digits db (a ++ b) = (count_digits db a + count_digits db b)%nat.
Proof. induction a as [|c a IH]; simpl; [reflexivity | rewrite IH; lia]. Qed.

Lemma count_digits_all (db : Unicode.database) (a : Unicode.text) :
  Unicode.all_in db false Digit a = true -> count_digits db a = List.length a.
Proof.
  induction a as [|c a IH]; [reflexivity|]. simpl.
  destruct (Unicode.is_digit db c); [|discriminate]. intros H. now rewrite (IH H).
Qed.

(** One number of the pattern, [-?\d+\.?\d*], has a digit. *)
Lemma bound_has_digit (db : Unicode.database) (t : Unicode.text) :
  lang db false bound_re t -> (1 <= count_digits db t)%nat.
Proof.
  unfold bound_re, maybe, plus, star. cbn [cat fold_right lang].
  intros (sign & t1 & -> & _ & int & t2 & -> & (Hint & Hlen & _) & _).
  rewrite !count_digits_app, (count_digits_all db int Hint). lia.
Qed.

(** A string of two or more digits reads as two numbers of the pattern. *)
Lemma digits_two_bounds (db : Unicode.database) (a : Unicode.text) :
  Unicode.all_in db false Digit a = true -> (2 <= List.length a)%nat ->
  exists x y, a = x ++ y /\ lang db false bound_re x /\ lang db false bound_re y.
Proof.
  intros Ha Hl. destruct a as [|c a]; [simpl in Hl; lia|].
  simpl in Ha, Hl. destruct (Unicode.is_digit db c) eqn:Ec; [|discriminate].
  exists [c], a. split; [reflexivity|].
  unfold bound_re, maybe, plus, star. cbn [cat fold_right lang].
  split.
  - exists [], [c]. split; [reflexivity|]. split; [simpl; auto|].
    exists [c], []. split; [reflexivity|].
    split; [simpl; rewrite Ec; auto|].
    exists [], []. split; [reflexivity|]. split; [simpl; auto|].
    exists [], []. simpl. auto.
  - exists [], a. split; [reflexivity|]. split; [simpl; auto|].
    exists a, []. split; [now rewrite app_nil_r|].
    split; [simpl; repeat split; auto; lia|].
    exists [], []. split; [reflexivity|]. split; [simpl; auto|].
    exists [], []. simpl. auto.
Qed.

(** A string that [validate_coordinates] accepts has at least four digits:
    the pattern asks for two numbers after [lat:] and two after [lon:], so
    a latitude or a longitude of a single digit is refused. *)
Theorem validate_coordinates_needs_digits (db : Unicode.database) (s : Unicode.text) :
  Unicode.validate_coordinates db s = true -> (4 <= count_digits db s)%nat.
Proof.
  rewrite unicode_coordinates_body. intros H.
  apply rmatch_at_end in H as (p & tail & -> & H & _); [|reflexivity].
  unfold coord_body in H. cbn [cat fold_right lang] in H.
  destruct H as (p1 & q1 & -> & _ & p2 & q2 & -> & _ & p3 & q3 & -> & H3
                    & p4 & q4 & -> & _ & p5 & q5 & -> & H5 & p6 & q6 & -> & _
                    & p7 & q7 & -> & _ & p8 & q8 & -> & _ & p9 & q9 & -> & _
                    & p10 & q10 & -> & H10 & p11 & q11 & -> & _ & p12 & q12 & -> & H12 & _).
  apply bound_has_digit in H3, H5, H10, H12.
  rewrite !count_digits_app. lia.
Qed.

Lemma validate_coordinates_needs_digits_witness :
  (4 <= count_digits Unicode.unicode_14 (Unicode.u "lat: 40.7, lon: -74.0"))%nat.
Proof.
  apply (validate_coordinates_needs_digits Unicode.unicode_14
           (Unicode.u "lat: 40.7, lon: -74.0")).
  vm_compute. reflexivity.
Defined.

(** No range is checked: any two strings of two or more digits are
    accepted as latitude and longitude. *)
Theorem validate_coordinates_any_magnitude (db : Unicode.database) (a b : Unicode.text) :
  Unicode.all_in db false Digit a = true -> (2 <= List.length a)%nat ->
  Unicode.all_in db false Digit b = true -> (2 <= List.length b)%nat ->
  Unicode.validate_coordinates db (Unicode.u "lat: " ++ a ++ Unicode.u ", lon: " ++ b) = true.
Proof.
  intros Ha Hla Hb Hlb. rewrite unicode_coordinates_body.
  apply rmatch_at_end; [reflexivity|].
  destruct (digits_two_bounds db a Ha Hla) as (a1 & a2 & -> & Ha1 & Ha2).
  destruct (digits_two_bounds db b Hb Hlb) as (b1 & b2 & -> & Hb1 & Hb2).
  exists (Unicode.u "lat: " ++ (a1 ++ a2) ++ Unicode.u ", lon: " ++ (b1 ++ b2)), [].
  split; [now rewrite app_nil_r|]. split; [|now left].
  assert (forall w, lang db false (lit w) (Unicode.u w)) as Hlit.
  { intros w. apply lang_lit. now apply unicode_fits_lits. }
  unfold coord_body, star, maybe. cbn [cat fold_right lang].
  exists (Unicode.u "lat:"), (Unicode.u " " ++ (a1 ++ a2) ++ Unicode.u ", lon: " ++ (b1 ++ b2)).
  split; [reflexivity|]. split; [apply Hlit|].
  exists (Unicode.u " "), ((a1 ++ a2) ++ Unicode.u ", lon: " ++ (b1 ++ b2)).
  split; [reflexivity|]. split; [simpl; auto|].
  exists a1, (a2 ++ Unicode.u ", lon: " ++ (b1 ++ b2)).
  split; [now rewrite <- app_assoc|]. split; [exact Ha1|].
  exists [], (a2 ++ Unicode.u ", lon: " ++ (b1 ++ b2)).
  split; [reflexivity|]. split; [simpl; auto|].
  exists a2, (Unicode.u ", lon: " ++ (b1 ++ b2)).
  split; [reflexivity|]. split; [exact Ha2|].
  exists (Unicode.u ","), (Unicode.u " lon: " ++ (b1 ++ b2)).
  split; [reflexivity|]. split; [apply Hlit|].
  exists (Unicode.u " "), (Unicode.u "lon: " ++ (b1 ++ b2)).
  split; [reflexivity|]. split; [simpl; auto|].
  exists (Unicode.u "lon:"), (Unicode.u " " ++ (b1 ++ b2)).
  split; [reflexivity|]. split; [apply Hlit|].
  exists (Unicode.u " "), (b1 ++ b2).
  split; [reflexivity|]. split; [simpl; auto|].
  exists b1, b2. split; [reflexivity|]. split; [exact Hb1|].
  exists [], b2. split; [reflexivity|]. split; [simpl; auto|].
  exists b2, []. split; [now rewrite app_nil_r|]. split; [exact Hb2|].
  reflexivity.
Qed.

Lemma validate_coordinates_any_magnitude_witness :
  Unicode.validate_coordinates Unicode.unicode_14
    (Unicode.u "lat: " ++ Unicode.u "999" ++ Unicode.u ", lon: " ++ Unicode.u "1234") = true.
Proof.
  apply (validate_coordinates_any_magnitude Unicode.unicode_14
           (Unicode.u "999") (Unicode.u "1234")); simpl; auto; lia.
Defined.

(* ===================================================================== *)
(** ** The two readings of the validators agree                           *)
(* ===================================================================== *)

(** A database that knows no decimal digit between 128 and 255 and, as
    white space there, NEL (133) and NBSP (160): so it has been since
    Unicode 1.1. *)
Definition latin1 (db : Unicode.database) : Prop :=
  forall c, (128 <= c < 256)%N ->
    Unicode.decimal_digit db c = false
    /\ Unicode.white_space db c = ((c =? 133)%N || (c =? 160)%N).

Lemma unicode_14_latin1 : latin1 Unicode.unicode_14.
Proof.
  intros c Hc. unfold Unicode.unicode_14, Unicode.decimal_digit, Unicode.white_space,
    Unicode.in_runs, Unicode.decimal_digits_14, Unicode.white_space_14.
  cbn [existsb fst snd]. split.
  - repeat match goal with
           | |- context [(?lo <=? c)%N] =>
               replace (lo <=? c)%N with false by (symmetry; apply N.leb_gt; lia)
           end.
    reflexivity.
  - repeat match goal with
           | |- context [(?lo <=? c)%N] =>
               lazymatch lo with
               | 133%N => fail
               | 160%N => fail
               | _ => replace (lo <=? c)%N with false by (symmetry; apply N.leb_gt; lia)
               end
           end.
    cbn [andb orb]. rewrite !orb_false_r.
    destruct (N.eqb_spec c 133) as [-> | H1]; [reflexivity|].
    destruct (N.eqb_spec c 160) as [-> | H2]; [reflexivity|].
    destruct (N.leb_spec 133 c), (N.ltb_spec c (133 + 1)),
      (N.leb_spec 160 c), (N.ltb_spec c (160 + 1)); simpl; try reflexivity; lia.
Qed.

Lemma code_bounded (c : ascii) : (Unicode.code c < 256)%N.
Proof. apply N_ascii_bounded. Qed.

Lemma code_eqb (c x : ascii) : (Unicode.code c =? Unicode.code x)%N = Ascii.eqb c x.
Proof.
  destruct (Ascii.eqb_spec c x) as [-> | H]; [apply N.eqb_refl|].
  apply N.eqb_neq. intros E. apply H. now apply unicode_code_inj.
Qed.

Lemma swapcase_involutive (c : ascii) : swapcase (swapcase c) = c.
Proof. destruct c as [[|] [|] [|] [|] [|] [|] [|] [|]]; reflexivity. Qed.

Lemma ignore_case_latin1 (x c : ascii) :
  Unicode.ignore_case x (Unicode.code c) = Ascii.eqb c x || Ascii.eqb (swapcase c) x.
Proof.
  unfold Unicode.ignore_case. pose proof (code_bounded c) as Hc.
  replace (Unicode.code c =? 304)%N with false by (symmetry; apply N.eqb_neq; lia).
  replace (Unicode.code c =? 305)%N with false by (symmetry; apply N.eqb_neq; lia).
  replace (Unicode.code c =? 383)%N with false by (symmetry; apply N.eqb_neq; lia).
  replace (Unicode.code c =? 8490)%N with false by (symmetry; apply N.eqb_neq; lia).
  rewrite !andb_false_r, !orb_false_r, !code_eqb. f_equal.
  destruct (Ascii.eqb_spec c (swapcase x)) as [-> | H].
  - rewrite swapcase_involutive. symmetry. apply Ascii.eqb_refl.
  - symmetry. apply Ascii.eqb_neq. intros <-. apply H.
    now rewrite swapcase_involutive.
Qed.

Lemma between_code (lo hi : nat) (c : ascii) :
  between lo hi c = Unicode.in_range (N.of_nat lo) (N.of_nat hi) (Unicode.code c).
Proof.
  unfold between, Unicode.in_range, Unicode.code, nat_of_ascii.
  f_equal.
  - destruct (Nat.leb_spec lo (N.to_nat (N_of_ascii c))), (N.leb_spec (N.of_nat lo) (N_of_ascii c));
      try reflexivity; lia.
  - destruct (Nat.leb_spec (N.to_nat (N_of_ascii c)) hi), (N.leb_spec (N_of_ascii c) (N.of_nat hi));
      try reflexivity; lia.
Qed.

Lemma existsb_pointwise (A : Type) (f g : A -> bool) (xs : list A) :
  (forall x, f x = g x) -> existsb f xs = existsb g xs.
Proof.
  intros H. induction xs as [|x xs IH]; [reflexivity|]. simpl. now rewrite H, IH.
Qed.

Lemma existsb_orb (A : Type) (f g : A -> bool) (xs : list A) :
  existsb (fun x => f x || g x) xs = existsb f xs || existsb g xs.
Proof.
  induction xs as [|x xs IH]; [reflexivity|]. simpl. rewrite IH.
  destruct (f x), (g x), (existsb f xs), (existsb g xs); reflexivity.
Qed.

Lemma existsb_seq_ascii (lo hi : ascii) (d : ascii) :
  existsb (fun n => Ascii.eqb d (ascii_of_nat n))
    (seq (nat_of_ascii lo) (S (nat_of_ascii hi) - nat_of_ascii lo))
  = between (nat_of_ascii lo) (nat_of_ascii hi) d.
Proof.
  pose proof (nat_ascii_bounded hi) as Hhi.
  apply eq_true_iff_eq. rewrite existsb_exists. unfold between.
  rewrite andb_true_iff, !Nat.leb_le. split.
  - intros (n & Hin & E). apply in_seq in Hin. apply Ascii.eqb_eq in E. subst d.
    rewrite nat_ascii_embedding by lia. lia.
  - intros [H1 H2]. exists (nat_of_ascii d). split; [apply in_seq; lia|].
    rewrite ascii_nat_embedding. apply Ascii.eqb_refl.
Qed.

Lemma unicode_cmem_agrees (db : Unicode.database) (ic : bool) (cl : cclass) (c : ascii) :
  latin1 db -> Unicode.cmem db ic cl (Unicode.code c) = cmem ic cl c.
Proof.
  intros Hdb. induction cl as [x| | |lo hi|a IHa b IHb|a IHa]; cbn [Unicode.cmem cmem].
  - destruct ic; [|now rewrite code_eqb, andb_false_l, orb_false_r].
    rewrite ignore_case_latin1. cbn [andb]. reflexivity.
  - unfold Unicode.is_digit, is_digit. rewrite between_code.
    destruct (N.ltb_spec (Unicode.code c) 128) as [H | H]; [reflexivity|].
    rewrite (proj1 (Hdb _ (conj H (code_bounded c)))).
    symmetry. unfold Unicode.in_range. apply andb_false_iff. right.
    apply N.leb_gt. simpl. lia.
  - unfold Unicode.is_space, is_space. rewrite !between_code.
    unfold nat_of_ascii, Unicode.code in *.
    destruct (N.ltb_spec (N_of_ascii c) 128) as [H | H].
    + replace (N.to_nat (N_of_ascii c) =? 133)%nat with false
        by (symmetry; apply Nat.eqb_neq; lia).
      replace (N.to_nat (N_of_ascii c) =? 160)%nat with false
        by (symmetry; apply Nat.eqb_neq; lia).
      now rewrite !orb_false_r.
    + rewrite (proj2 (Hdb _ (conj H (code_bounded c)))).
      replace (Unicode.in_range (N.of_nat 9) (N.of_nat 13) (N_of_ascii c)) with false
        by (symmetry; unfold Unicode.in_range; apply andb_false_iff; right;
            apply N.leb_gt; simpl; lia).
      replace (Unicode.in_range (N.of_nat 28) (N.of_nat 32) (N_of_ascii c)) with false
        by (symmetry; unfold Unicode.in_range; apply andb_false_iff; right;
            apply N.leb_gt; simpl; lia).
      cbn [orb]. f_equal.
      * destruct (N.eqb_spec (N_of_ascii c) 133), (Nat.eqb_spec (N.to_nat (N_of_ascii c)) 133);
          try reflexivity; lia.
      * destruct (N.eqb_spec (N_of_ascii c) 160), (Nat.eqb_spec (N.to_nat (N_of_ascii c)) 160);
          try reflexivity; lia.
  - destruct ic.
    + cbn [andb].
      rewrite (existsb_pointwise _ _ (fun n => Ascii.eqb c (ascii_of_nat n)
                                       || Ascii.eqb (swapcase c) (ascii_of_nat n)))
        by (intros n; apply ignore_case_latin1).
      now rewrite existsb_orb, !existsb_seq_ascii.
    + rewrite andb_false_l, orb_false_r, between_code.
      unfold Unicode.code, nat_of_ascii.
      assert (forall x, N.of_nat (N.to_nat x) = x) as E by (intros x; lia).
      now rewrite !E.
  - now rewrite IHa, IHb.
  - now rewrite IHa.
Qed.

Lemma unicode_rep_agrees (db : Unicode.database) (ic : bool) (cl : cclass) (lo : nat)
      (hi : option nat) (b : bool) (s : string)
      (k : bool -> Unicode.text -> bool) (k' : bool -> string -> bool) :
  latin1 db -> (forall b' s', k b' (Unicode.u s') = k' b' s') ->
  Unicode.rep db ic cl lo hi b (Unicode.u s) k = rep ic cl lo hi b s k'.
Proof.
  intros Hdb Hk. revert lo hi b. induction s as [|c s IH]; intros lo hi b.
  - change (Unicode.u EmptyString) with (@nil Unicode.char). simpl.
    destruct lo; [|reflexivity]. apply (Hk b EmptyString).
  - change (Unicode.u (String c s)) with (Unicode.code c :: Unicode.u s).
    cbn -[Unicode.cmem cmem]. rewrite (unicode_cmem_agrees db ic cl c Hdb), IH.
    destruct lo; [|reflexivity].
    destruct (match hi with Some 0%nat => false | _ => _ end); [reflexivity|].
    apply (Hk b (String c s)).
Qed.

Lemma unicode_rmatch_agrees (db : Unicode.database) (ic : bool) (r : regex) :
  latin1 db ->
  forall (b : bool) (s : string)
         (k : bool -> Unicode.text -> bool) (k' : bool -> string -> bool),
    (forall b' s', k b' (Unicode.u s') = k' b' s') ->
    Unicode.rmatch db ic r b (Unicode.u s) k = rmatch ic r b s k'.
Proof.
  intros Hdb. induction r as [|cl|r1 IH1 r2 IH2|r1 IH1 r2 IH2|cl lo hi| |];
    intros b s k k' Hk; cbn -[Unicode.cmem cmem Unicode.rep rep].
  - apply Hk.
  - destruct s as [|c s]; [reflexivity|].
    change (Unicode.u (String c s)) with (Unicode.code c :: Unicode.u s).
    cbn -[Unicode.cmem cmem]. now rewrite (unicode_cmem_agrees db ic cl c Hdb), Hk.
  - apply IH1. intros b' s'. now apply IH2.
  - now rewrite (IH1 b s k k' Hk), (IH2 b s k k' Hk).
  - now apply unicode_rep_agrees.
  - now rewrite Hk.
  - destruct s as [|c [|c' s]];
      [ change (Unicode.u EmptyString) with (@nil Unicode.char); apply (Hk b EmptyString)
      | | reflexivity ].
    change (Unicode.u (String c EmptyString)) with [Unicode.code c].
    cbn -[N.eqb Ascii.eqb].
    change Unicode.LF with (Unicode.code LF). rewrite code_eqb.
    destruct (Ascii.eqb c LF); [apply (Hk b (String c EmptyString)) | reflexivity].
Qed.

Lemma unicode_delete_agrees (db : Unicode.database) (cl : cclass) (s : string) :
  latin1 db -> Unicode.delete db cl (Unicode.u s) = Unicode.u (delete cl s).
Proof.
  intros Hdb. induction s as [|c s IH]; [reflexivity|].
  change (Unicode.u (String c s)) with (Unicode.code c :: Unicode.u s).
  cbn [Unicode.delete delete]. rewrite (unicode_cmem_agrees db false cl c Hdb), IH.
  now destruct (cmem false cl c).
Qed.

(** On a string of characters below 256 the validators that the element
    models call give what the validators on full strings give. *)
Theorem validators_agree (db : Unicode.database) (s : string) :
  latin1 db ->
  Unicode.validate_iso8601_date db (Unicode.u s) = validate_iso8601_date s
  /\ Unicode.validate_doi db (Unicode.u s) = validate_doi s
  /\ Unicode.validate_isbn db (Unicode.u s) = validate_isbn s
  /\ Unicode.validate_issn db (Unicode.u s) = validate_issn s
  /\ Unicode.validate_orcid db (Unicode.u s) = validate_orcid s
  /\ Unicode.validate_coordinates db (Unicode.u s) = validate_coordinates s.
Proof.
  intros Hdb.
  assert (forall ic r t,
            Unicode.rmatch db ic r true (Unicode.u t) (fun _ _ => true)
            = rmatch ic r true t (fun _ _ => true)) as H
    by (intros ic r t; now apply unicode_rmatch_agrees).
  repeat split.
  - unfold Unicode.validate_iso8601_date, validate_iso8601_date, Unicode.re_match, re_match.
    apply existsb_pointwise. intros r. apply H.
  - apply H.
  - unfold Unicode.validate_isbn, validate_isbn, Unicode.re_match, re_match.
    cbv zeta. rewrite (unicode_delete_agrees db _ s Hdb). apply H.
  - apply H.
  - apply H.
  - apply H.
Qed.

Lemma validators_agree_witness :
  Unicode.validate_iso8601_date Unicode.unicode_14 (Unicode.u "2024-01-15")
  = validate_iso8601_date "2024-01-15"
  /\ Unicode.validate_doi Unicode.unicode_14 (Unicode.u "2024-01-15")
     = validate_doi "2024-01-15"
  /\ Unicode.validate_isbn Unicode.unicode_14 (Unicode.u "2024-01-15")
     = validate_isbn "2024-01-15"
  /\ Unicode.validate_issn Unicode.unicode_14 (Unicode.u "2024-01-15")
     = validate_issn "2024-01-15"
  /\ Unicode.validate_orcid Unicode.unicode_14 (Unicode.u "2024-01-15")
     = validate_orcid "2024-01-15"
  /\ Unicode.validate_coordinates Unicode.unicode_14 (Unicode.u "2024-01-15")
     = validate_coordinates "2024-01-15".
Proof.
  apply (validators_agree Unicode.unicode_14 "2024-01-15"). exact unicode_14_latin1.
Defined.
